(** * Ensemble anomaly-detection pipeline: feature engineering, detector
    adapters, model trainer and ensemble detector.

    A shallow embedding of the Python sources under
    [red-team-anomaly-detection/src] together with the properties of the
    pipeline specification.

    Conventions of the embedding.
    - A float64 cell is a [float]: an exact rational or one of the three
      special values NaN, +inf, -inf.  Arithmetic on finite cells is exact;
      rounding and overflow of binary64 are outside the model.
    - A Python exception is a value [Raise e] of the [result] type.
    - A pandas DataFrame is a row count (its index) and an ordered list of
      named columns; a dict that is only looked up is a [gmap], a dict that
      is iterated is an association list in insertion order. *)

From Stdlib Require Import ZArith QArith Lia Lqa Bool List Ascii String Sorted.
From stdpp Require Import gmap strings list fin_maps.

Local Open Scope Z_scope.
Local Open Scope Q_scope.
Local Open Scope nat_scope.
Local Open Scope list_scope.
Local Open Scope stdpp_scope.

(** ** Exceptions *)

Inductive exn :=
| KeyError (key : string)
| ValueError (msg : string)
| TypeError (msg : string)
| AttributeError (msg : string)
| UnboundLocalError (name : string)
| FileNotFoundError (path : string)
| RuntimeError (msg : string).

Inductive result (A : Type) :=
| Ok (a : A)
| Raise (e : exn).
Arguments Ok {A} a.
Arguments Raise {A} e.

#[global] Instance result_ret : MRet result := fun A a => Ok a.
#[global] Instance result_bind : MBind result := fun A B k r =>
  match r with
  | Ok a => k a
  | Raise e => Raise e
  end.

Definition succeeds {A} (r : result A) : bool :=
  match r with Ok _ => true | Raise _ => false end.

(** ** float64 cells *)

Inductive float :=
| Fin (q : Q)
| PInf
| NInf
| NaN.

Definition float_of_Z (z : Z) : float := Fin (inject_Z z).

Definition fzero : float := Fin 0.
Definition fone : float := Fin 1.

Definition fisnan (x : float) : bool :=
  match x with NaN => true | _ => false end.

Definition fisinf (x : float) : bool :=
  match x with PInf | NInf => true | _ => false end.

Definition fisfinite (x : float) : bool :=
  match x with Fin _ => true | _ => false end.

(** [Qltb a b] decides [a < b] on rationals. *)
Definition Qltb (a b : Q) : bool :=
  match Qcompare a b with Lt => true | _ => false end.

(** IEEE comparison [x < y]: false as soon as one side is NaN. *)
Definition fltb (x y : float) : bool :=
  match x, y with
  | NaN, _ | _, NaN => false
  | NInf, NInf => false
  | NInf, _ => true
  | _, NInf => false
  | PInf, _ => false
  | Fin _, PInf => true
  | Fin a, Fin b => Qltb a b
  end.

Definition fgtb (x y : float) : bool := fltb y x.

(** IEEE equality [x == y]: NaN equals nothing. *)
Definition feqb (x y : float) : bool :=
  match x, y with
  | Fin a, Fin b => Qeq_bool a b
  | PInf, PInf | NInf, NInf => true
  | _, _ => false
  end.

(** IEEE comparisons [x <= y] and [x >= y]. *)
Definition fleb (x y : float) : bool := fltb x y || feqb x y.
Definition fgeb (x y : float) : bool := fleb y x.

Definition fneg (x : float) : float :=
  match x with
  | Fin a => Fin (- a)
  | PInf => NInf
  | NInf => PInf
  | NaN => NaN
  end.

Definition fadd (x y : float) : float :=
  match x, y with
  | NaN, _ | _, NaN => NaN
  | Fin a, Fin b => Fin (a + b)
  | PInf, NInf | NInf, PInf => NaN
  | PInf, _ | _, PInf => PInf
  | NInf, _ | _, NInf => NInf
  end.

Definition fsub (x y : float) : float := fadd x (fneg y).

(** The sign of a rational as a comparison with zero. *)
Definition Qsign (a : Q) : comparison := Qcompare a 0.

Definition fmul (x y : float) : float :=
  match x, y with
  | NaN, _ | _, NaN => NaN
  | Fin a, Fin b => Fin (a * b)
  | Fin a, PInf | PInf, Fin a =>
      match Qsign a with Gt => PInf | Lt => NInf | Eq => NaN end
  | Fin a, NInf | NInf, Fin a =>
      match Qsign a with Gt => NInf | Lt => PInf | Eq => NaN end
  | PInf, PInf | NInf, NInf => PInf
  | PInf, NInf | NInf, PInf => NaN
  end.

(** numpy division: a zero divisor yields NaN (for 0/0) or a signed
    infinity, never an exception. *)
Definition fdiv (x y : float) : float :=
  match x, y with
  | NaN, _ | _, NaN => NaN
  | Fin a, Fin b =>
      match Qsign b with
      | Eq => match Qsign a with Gt => PInf | Lt => NInf | Eq => NaN end
      | _ => Fin (a / b)
      end
  | Fin _, PInf | Fin _, NInf => Fin 0
  | PInf, Fin b => match Qsign b with Lt => NInf | _ => PInf end
  | NInf, Fin b => match Qsign b with Lt => PInf | _ => NInf end
  | _, _ => NaN
  end.

(** The smaller and the larger of two cells, neither of which is NaN. *)
Definition fmin2 (x y : float) : float := if fltb y x then y else x.
Definition fmax2 (x y : float) : float := if fltb x y then y else x.

(** [0 <= x <= 1] for a finite cell. *)
Definition in_unit_interval (x : float) : Prop :=
  match x with
  | Fin q => (0 <= q)%Q /\ (q <= 1)%Q
  | _ => False
  end.

(** ** Python strings *)

(** [s.endswith(suffix)]. *)
Definition endswith (s suffix : string) : bool :=
  String.prefix (String.rev suffix) (String.rev s).

(** [s.replace(old, new)] for a non-empty [old]: occurrences are replaced
    from left to right and do not overlap.  [skip] counts the characters of
    the occurrence being consumed. *)
Fixpoint replace_from (old new : string) (skip : nat) (s : string) : string :=
  match s with
  | EmptyString => EmptyString
  | String c s' =>
      match skip with
      | S k => replace_from old new k s'
      | O =>
          if String.prefix old s
          then new +:+ replace_from old new (String.length old - 1) s'
          else String c (replace_from old new 0 s')
      end
  end.

Definition replace (s old new : string) : string := replace_from old new 0 s.

(** ** numpy and pandas primitives *)

Definition dropna (l : list float) : list float :=
  List.filter (fun x => negb (fisnan x)) l.

(** [Series.min()] and [Series.max()] skip NaN; on an empty or all-NaN
    column they return NaN. *)
Definition series_min (l : list float) : float :=
  match dropna l with
  | [] => NaN
  | x :: r => fold_left fmin2 r x
  end.

Definition series_max (l : list float) : float :=
  match dropna l with
  | [] => NaN
  | x :: r => fold_left fmax2 r x
  end.

(** [ndarray.min()] and [ndarray.max()] propagate NaN and raise on an
    empty array. *)
Definition ndarray_min (l : list float) : result float :=
  match l with
  | [] => Raise (ValueError "zero-size array to reduction operation minimum which has no identity")
  | x :: r => Ok (if existsb fisnan l then NaN else fold_left fmin2 r x)
  end.

Definition ndarray_max (l : list float) : result float :=
  match l with
  | [] => Raise (ValueError "zero-size array to reduction operation maximum which has no identity")
  | x :: r => Ok (if existsb fisnan l then NaN else fold_left fmax2 r x)
  end.

Definition fsum (l : list float) : float := fold_left fadd l fzero.

(** A row mean that skips NaN, as [DataFrame.mean(axis=1)] does; a row
    without any value has mean NaN. *)
Definition nanmean (l : list float) : float :=
  match dropna l with
  | [] => NaN
  | v => fdiv (fsum v) (float_of_Z (Z.of_nat (length v)))
  end.

(** A table: the length of its index and its named columns, in order. *)
Record Frame (A : Type) := mkFrame {
  index : nat;
  columns : list (string * A)
}.
Arguments mkFrame {A} index columns.
Arguments index {A} f.
Arguments columns {A} f.

Definition column_names {A} (f : Frame A) : list string :=
  List.map fst (columns f).

Fixpoint assoc_get {A} (name : string) (cols : list (string * A)) : option A :=
  match cols with
  | [] => None
  | (k, v) :: rest => if String.eqb k name then Some v else assoc_get name rest
  end.

Fixpoint assoc_set {A} (name : string) (v : A) (cols : list (string * A))
  : list (string * A) :=
  match cols with
  | [] => [(name, v)]
  | (k, w) :: rest =>
      if String.eqb k name then (k, v) :: rest
      else (k, w) :: assoc_set name v rest
  end.

(** [frame[name]]: a missing column is a [KeyError]. *)
Definition get_column {A} (f : Frame A) (name : string) : result A :=
  match assoc_get name (columns f) with
  | Some v => Ok v
  | None => Raise (KeyError name)
  end.

(** [frame[name] = values] for an array of values: the array must be as
    long as the index; an existing column is replaced in place, a new one is
    appended. *)
Definition set_column {A} (len : A -> nat) (f : Frame A) (name : string) (v : A)
  : result (Frame A) :=
  if Nat.eqb (len v) (index f)
  then Ok (mkFrame (index f) (assoc_set name v (columns f)))
  else Raise (ValueError "Length of values does not match length of index").

(** Writing one column into a table. *)
Definition put {A} (f : Frame A) (c : string * A) : Frame A :=
  mkFrame (index f) (assoc_set (fst c) (snd c) (columns f)).

(** The [i]-th row of a list of numeric columns. *)
Definition row_at (cols : list (list float)) (i : nat) : list float :=
  List.map (fun c => nth i c NaN) cols.

Definition rows_of (n : nat) (cols : list (list float)) : list (list float) :=
  List.map (row_at cols) (seq 0 n).

(** Number of cells of a row equal to [v]. *)
Definition count_eq (v : float) (row : list float) : nat :=
  length (List.filter (feqb v) row).

(** One step of the scan for the first mode: [v] replaces the candidate
    when it occurs more often, or as often and is smaller. *)
Definition better_mode (row : list float) (best v : float) : float :=
  if (count_eq best row <? count_eq v row)
     || ((count_eq v row =? count_eq best row) && fltb v best)
  then v else best.

(** The first entry of a row's [mode]: pandas returns the most frequent
    values in ascending order, NaN being dropped; a row without values has
    mode NaN. *)
Definition row_mode (row : list float) : float :=
  match dropna row with
  | [] => NaN
  | x :: r => fold_left (better_mode row) r x
  end.

(** [frame.mode(axis=1)[0].values]: the frame of row modes has a column [0]
    only if some row has a value. *)
Definition mode_first (n : nat) (cols : list (list float)) : result (list float) :=
  let rows := rows_of n cols in
  if existsb (fun r => negb (forallb fisnan r)) rows
  then Ok (List.map row_mode rows)
  else Raise (KeyError "0").

(** A column of an event table or of a feature matrix, by dtype. *)
Inductive Series :=
| NumS (l : list float)      (* int64 / float64 *)
| BoolS (l : list bool)      (* bool *)
| ObjS (l : list (option string))  (* object: strings, None when missing *)
| TimeS (l : list Z).        (* datetime64, in seconds since the epoch *)

Definition DataFrame := Frame Series.
Definition NumFrame := Frame (list float).

Definition series_len (s : Series) : nat :=
  match s with
  | NumS l => length l
  | BoolS l => length l
  | ObjS l => length l
  | TimeS l => length l
  end.

(** [select_dtypes(include=[np.number])]. *)
Definition is_numeric (s : Series) : bool :=
  match s with NumS _ => true | _ => false end.

Definition numeric_columns (f : DataFrame) : list (string * list float) :=
  flat_map (fun c => match snd c with NumS l => [(fst c, l)] | _ => [] end)
           (columns f).

(** [features.select_dtypes(include=[np.number]).values]: one row per
    sample. *)
Definition Matrix := list (list float).

Definition values (f : DataFrame) : Matrix :=
  rows_of (index f) (List.map snd (numeric_columns f)).

(** ** Event tables *)

(** The columns of the input table contract. *)
Inductive Column :=
| Timestamp | SessionId | UserId | SourceIp | DestinationIp
| Action | Resource | StatusCode | BytesTransferred.

Definition column_eqb (a b : Column) : bool :=
  match a, b with
  | Timestamp, Timestamp | SessionId, SessionId | UserId, UserId
  | SourceIp, SourceIp | DestinationIp, DestinationIp | Action, Action
  | Resource, Resource | StatusCode, StatusCode
  | BytesTransferred, BytesTransferred => true
  | _, _ => false
  end.

Definition column_name (c : Column) : string :=
  match c with
  | Timestamp => "timestamp"
  | SessionId => "session_id"
  | UserId => "user_id"
  | SourceIp => "source_ip"
  | DestinationIp => "destination_ip"
  | Action => "action"
  | Resource => "resource"
  | StatusCode => "status_code"
  | BytesTransferred => "bytes_transferred"
  end.

(** One row.  A categorical cell may be missing (None); numeric cells are
    float64 cells; the timestamp is a datetime in seconds since the
    epoch. *)
Record Event := mkEvent {
  ev_timestamp : Z;
  ev_session_id : option string;
  ev_user_id : option string;
  ev_source_ip : option string;
  ev_destination_ip : option string;
  ev_action : option string;
  ev_resource : option string;
  ev_status_code : float;
  ev_bytes_transferred : float
}.

(** An event table: [df.columns], in order, and the rows.  A field of a
    row is only read through the accessors below, that is, only when its
    column is present. *)
Record EventTable := mkEventTable {
  present : list Column;
  events : list Event
}.

Definition n_rows (df : EventTable) : nat := length (events df).

(** [c in df.columns]. *)
Definition has (df : EventTable) (c : Column) : bool :=
  existsb (column_eqb c) (present df).

(** The table without column [c]. *)
Definition drop_column (c : Column) (df : EventTable) : EventTable :=
  mkEventTable (List.filter (fun c' => negb (column_eqb c c')) (present df))
               (events df).

Definition str_field (c : Column) (e : Event) : option string :=
  match c with
  | SessionId => ev_session_id e
  | UserId => ev_user_id e
  | SourceIp => ev_source_ip e
  | DestinationIp => ev_destination_ip e
  | Action => ev_action e
  | Resource => ev_resource e
  | _ => None
  end.

Definition num_field (c : Column) (e : Event) : float :=
  match c with
  | StatusCode => ev_status_code e
  | BytesTransferred => ev_bytes_transferred e
  | _ => NaN
  end.

(** [df[c]] for a categorical, a numeric and the timestamp column, when
    the column is present. *)
Definition str_col (df : EventTable) (c : Column) : option (list (option string)) :=
  if has df c then Some (List.map (str_field c) (events df)) else None.

Definition num_col (df : EventTable) (c : Column) : option (list float) :=
  if has df c then Some (List.map (num_field c) (events df)) else None.

Definition time_col (df : EventTable) : option (list Z) :=
  if has df Timestamp then Some (List.map ev_timestamp (events df)) else None.

Definition series_of (df : EventTable) (c : Column) : Series :=
  match c with
  | Timestamp => TimeS (List.map ev_timestamp (events df))
  | StatusCode | BytesTransferred => NumS (List.map (num_field c) (events df))
  | _ => ObjS (List.map (str_field c) (events df))
  end.

(** [df.copy()] as a frame. *)
Definition to_frame (df : EventTable) : DataFrame :=
  mkFrame (n_rows df)
          (List.map (fun c => (column_name c, series_of df c)) (present df)).

(** ** More pandas primitives: strings, groups *)

Definition lower_ascii (c : ascii) : ascii :=
  let n := nat_of_ascii c in
  if ((65 <=? n) && (n <=? 90))%nat then ascii_of_nat (n + 32) else c.

Fixpoint lower (s : string) : string :=
  match s with
  | EmptyString => EmptyString
  | String c s' => String (lower_ascii c) (lower s')
  end.

Fixpoint has_substring (kw s : string) : bool :=
  String.prefix kw s
  || match s with
     | EmptyString => false
     | String _ s' => has_substring kw s'
     end.

(** [series.str.contains('k1|k2|...', case=False, na=False)] for lower-case
    literal keywords. *)
Definition str_contains (keywords : list string) (cell : option string) : bool :=
  match cell with
  | None => false
  | Some s => existsb (fun kw => has_substring kw (lower s)) keywords
  end.

(** [series.isin(values)]. *)
Definition isin (vals : list float) (x : float) : bool := existsb (feqb x) vals.

Definition bool_to_float (b : bool) : float := if b then fone else fzero.

Definition key_is (k : string) (key : option string) : bool :=
  match key with
  | Some k' => String.eqb k k'
  | None => false
  end.

(** The cells of [col] in the rows whose key is [k]. *)
Definition group_values {A} (keys : list (option string)) (col : list A)
    (k : string) : list A :=
  List.map snd (List.filter (fun p => key_is k (fst p)) (combine keys col)).

(** [df.groupby(keys)[col].transform(agg)]: every row receives the
    aggregate of its group; a row whose key is missing belongs to no group
    and receives NaN. *)
Definition groupby_transform {A} (keys : list (option string)) (col : list A)
    (agg : list A -> float) : list float :=
  List.map (fun key => match key with
                       | Some k => agg (group_values keys col k)
                       | None => NaN
                       end) keys.

(** ['count']: the number of cells of the group that are not missing. *)
Definition count_agg (l : list (option string)) : float :=
  float_of_Z (Z.of_nat (length (List.filter (fun c => match c with
                                                      | Some _ => true
                                                      | None => false
                                                      end) l))).

Fixpoint distinct (l : list string) : list string :=
  match l with
  | [] => []
  | x :: r => if existsb (String.eqb x) r then distinct r else x :: distinct r
  end.

(** ['nunique']: the number of distinct cells of the group, missing ones
    not counted. *)
Definition nunique_agg (l : list (option string)) : float :=
  float_of_Z (Z.of_nat (length (distinct (flat_map (fun c => match c with
                                                             | Some s => [s]
                                                             | None => []
                                                             end) l)))).

(** [df[mask].groupby('session_id')['session_id'].transform('count')
      .reindex(df.index, fill_value=0)]: a selected row receives the number
    of selected rows of its session, any other row 0. *)
Definition masked_count (keys : list (option string)) (mask : list bool)
  : list float :=
  let selected :=
    List.map fst (List.filter (fun p : option string * bool => snd p)
                              (combine keys mask)) in
  List.map (fun p : option string * bool =>
                     if snd p
                     then match fst p with
                          | Some k => count_agg (group_values selected selected k)
                          | None => NaN
                          end
                     else fzero)
           (combine keys mask).

Definition Zmin_list (l : list Z) : Z :=
  match l with [] => 0%Z | x :: r => fold_left Z.min r x end.

Definition Zmax_list (l : list Z) : Z :=
  match l with [] => 0%Z | x :: r => fold_left Z.max r x end.

(** [(session_end - session_start).dt.total_seconds()]. *)
Definition session_span (keys : list (option string)) (ts : list Z) : list float :=
  groupby_transform keys ts (fun g => float_of_Z (Zmax_list g - Zmin_list g)).

(** [series.replace(0, 1)]. *)
Definition replace_zero_by_one (l : list float) : list float :=
  List.map (fun x => if feqb x fzero then fone else x) l.

Definition fillna0 (l : list float) : list float :=
  List.map (fun x => if fisnan x then fzero else x) l.

(** Elementwise operations on two columns of one table. *)
Definition zip_with (f : float -> float -> float) (a b : list float) : list float :=
  List.map (fun p => f (fst p) (snd p)) (combine a b).

(** [score += cond.astype(float) * w]. *)
Definition add_indicator (score : list float) (cond : list bool) (w : Q)
  : list float :=
  zip_with fadd score (List.map (fun b => fmul (bool_to_float b) (Fin w)) cond).

(** The timestamp of the previous row of the same group, looked up in the
    association list of the groups seen so far. *)
Fixpoint group_diff_from (seen : list (string * Z)) (rows : list (option string * Z))
  : list float :=
  match rows with
  | [] => []
  | (None, _) :: rest => NaN :: group_diff_from seen rest
  | (Some k, t) :: rest =>
      match assoc_get k seen with
      | Some t0 => float_of_Z (t - t0)
      | None => NaN
      end :: group_diff_from (assoc_set k t seen) rest
  end.

(** [df.groupby(keys)['timestamp'].diff().dt.total_seconds()]. *)
Definition group_diff (keys : list (option string)) (ts : list Z) : list float :=
  group_diff_from [] (combine keys ts).

(** [df['timestamp'].diff().dt.total_seconds()]. *)
Definition global_diff (ts : list Z) : list float :=
  match ts with
  | [] => []
  | t :: rest => NaN :: List.map (fun p => float_of_Z (snd p - fst p)) (combine ts rest)
  end.

(** numpy's transcendental functions and the pandas group-aggregate-join
    of the aggregation step are library code: their results are taken as
    given. *)
Record External := mkExternal {
  np_log1p : float -> float;
  np_sin : float -> float;
  np_cos : float -> float;
  (** [features.join(features.groupby(keys)[numeric_cols].<agg>() with the
      columns renamed to <col>_session_<agg>, on=keys)] *)
  join_session_aggregate :
    string -> DataFrame -> list (option string) -> result DataFrame
}.

(** [np.pi], the binary64 number nearest to pi. *)
Definition np_pi : Q := 884279719003555 # 281474976710656.

(** ** Feature extractors ([feature_engineering/*_features.py]) *)

(** [config.get('features', [])] of one extractor and its [enabled] flag
    (True when the key is absent). *)
Record ExtractorConfig := mkExtractorConfig {
  ext_enabled : bool;
  ext_features : list string
}.

(** [if key in self.features: features[name] = col]. *)
Definition add_feature (features : list string) (key name : string)
    (col : list float) (frame : NumFrame) : NumFrame :=
  if existsb (String.eqb key) features then put frame (name, col) else frame.

(** [pd.Series(v, index=df.index)]. *)
Definition constant_series (df : EventTable) (v : float) : list float :=
  repeat v (n_rows df).

Module Behavioral.

Definition escalation_keywords : list string :=
  ["sudo"; "admin"; "root"; "privilege"; "escalate"; "elevate"].

Definition _failed_login_count (df : EventTable) : list float :=
  match str_col df Action, num_col df StatusCode with
  | Some action, Some status_code =>
      let failed_logins :=
        List.map (fun p => str_contains ["login"] (fst p)
                           && isin [Fin 401; Fin 403] (snd p))
                 (combine action status_code) in
      match str_col df SessionId with
      | Some session_id => masked_count session_id failed_logins
      | None => List.map bool_to_float failed_logins
      end
  | _, _ => constant_series df fzero
  end.

Definition _privilege_escalation_attempts (df : EventTable) : list float :=
  match str_col df Action with
  | None => constant_series df fzero
  | Some action =>
      let escalation_attempts := List.map (str_contains escalation_keywords) action in
      match str_col df SessionId with
      | Some session_id => masked_count session_id escalation_attempts
      | None => List.map bool_to_float escalation_attempts
      end
  end.

Definition _unique_resources_accessed (df : EventTable) : list float :=
  match str_col df Resource, str_col df SessionId with
  | Some resource, Some session_id =>
      groupby_transform session_id resource nunique_agg
  | _, _ => constant_series df fzero
  end.

Definition _session_duration (df : EventTable) : list float :=
  match time_col df, str_col df SessionId with
  | Some timestamp, Some session_id => session_span session_id timestamp
  | _, _ => constant_series df fzero
  end.

Definition _action_frequency (df : EventTable) : list float :=
  match str_col df SessionId with
  | None => constant_series df fzero
  | Some session_id =>
      let action_count := groupby_transform session_id session_id count_agg in
      let duration :=
        replace_zero_by_one
          (List.map (fun d => fdiv d (Fin 60)) (_session_duration df)) in
      zip_with fdiv action_count duration
  end.




Definition extract (cfg : ExtractorConfig) (df : EventTable) : NumFrame :=
  let fs := ext_features cfg in
  add_feature fs "action_frequency" "action_frequency" (_action_frequency df)
  (add_feature fs "session_duration" "session_duration" (_session_duration df)
  (add_feature fs "unique_resources_accessed" "unique_resources_accessed"
               (_unique_resources_accessed df)
  (add_feature fs "privilege_escalation_attempts" "privilege_escalation_attempts"
               (_privilege_escalation_attempts df)
  (add_feature fs "failed_login_count" "failed_login_count"
               (_failed_login_count df)
  (mkFrame (n_rows df) []))))).

End Behavioral.

Module Network.

Definition _bytes_transferred (df : EventTable) : list float :=
  match num_col df BytesTransferred with
  | Some bytes => fillna0 bytes
  | None => constant_series df fzero
  end.

Definition _connection_count (df : EventTable) : list float :=
  match str_col df SessionId with
  | None => constant_series df fone
  | Some session_id => groupby_transform session_id session_id count_agg
  end.

Definition _unique_destinations (df : EventTable) : list float :=
  match str_col df SessionId with
  | None => constant_series df fone
  | Some session_id =>
      match str_col df DestinationIp with
      | Some destination_ip =>
          groupby_transform session_id destination_ip nunique_agg
      | None =>
          match str_col df Resource with
          | Some resource => groupby_transform session_id resource nunique_agg
          | None => constant_series df fone
          end
      end
  end.

Definition _get_session_duration (df : EventTable) : list float :=
  match time_col df, str_col df SessionId with
  | Some timestamp, Some session_id =>
      replace_zero_by_one (session_span session_id timestamp)
  | _, _ => constant_series df fone
  end.

Definition _port_scan_indicators (df : EventTable) : list float :=
  let score := constant_series df fzero in
  match str_col df SessionId with
  | None => score
  | Some session_id =>
      let score :=
        match str_col df DestinationIp with
        | Some destination_ip =>
            let unique_dests :=
              groupby_transform session_id destination_ip nunique_agg in
            add_indicator score (List.map (fun u => fgtb u (Fin 10)) unique_dests)
                          (3#10)
        | None => score
        end in
      let score :=
        match time_col df with
        | Some _ =>
            let session_duration := _get_session_duration df in
            let connection_count := _connection_count df in
            let connection_rate :=
              zip_with (fun c d => fdiv c (fadd (fdiv d (Fin 60)) fone))
                       connection_count session_duration in
            add_indicator score (List.map (fun r => fgtb r (Fin 20)) connection_rate)
                          (3#10)
        | None => score
        end in
      match num_col df StatusCode with
      | Some status_code =>
          let failed :=
            List.map (isin [Fin 403; Fin 404; Fin 500; Fin 503]) status_code in
          let failed_count := masked_count session_id failed in
          add_indicator score (List.map (fun c => fgtb c (Fin 5)) failed_count) (4#10)
      | None => score
      end
  end.

Definition escalation_keywords : list string :=
  ["sudo"; "admin"; "root"; "privilege"].

Definition _lateral_movement_score (df : EventTable) : list float :=
  let score := constant_series df fzero in
  match str_col df SessionId with
  | None => score
  | Some session_id =>
      let score :=
        match str_col df Resource with
        | Some resource =>
            let unique_resources :=
              groupby_transform session_id resource nunique_agg in
            add_indicator score (List.map (fun u => fgtb u (Fin 5)) unique_resources)
                          (3#10)
        | None => score
        end in
      let score :=
        match str_col df Action with
        | Some action =>
            let escalation := List.map (str_contains escalation_keywords) action in
            let escalation_count := masked_count session_id escalation in
            add_indicator score
                          (List.map (fun c => fgtb c fzero) escalation_count) (4#10)
        | None => score
        end in
      match str_col df SourceIp, str_col df UserId with
      | Some source_ip, Some user_id =>
          let unique_ips := groupby_transform user_id source_ip nunique_agg in
          add_indicator score (List.map (fun u => fgtb u (Fin 2)) unique_ips) (3#10)
      | _, _ => score
      end
  end.

Definition extract (ext : External) (cfg : ExtractorConfig) (df : EventTable)
  : NumFrame :=
  let fs := ext_features cfg in
  add_feature fs "lateral_movement_score" "lateral_movement_score"
              (_lateral_movement_score df)
  (add_feature fs "port_scan_indicators" "port_scan_score"
               (_port_scan_indicators df)
  (add_feature fs "unique_destinations" "unique_destinations"
               (_unique_destinations df)
  (add_feature fs "connection_count" "connection_count" (_connection_count df)
  (add_feature fs "bytes_transferred" "bytes_transferred_log"
               (List.map (np_log1p ext) (_bytes_transferred df))
  (add_feature fs "bytes_transferred" "bytes_transferred" (_bytes_transferred df)
  (mkFrame (n_rows df) [])))))).

End Network.

Module Temporal.

(** [df['timestamp'].dt.hour] and [.dt.dayofweek] (Monday is 0; the epoch
    was a Thursday). *)
Definition hour_of (t : Z) : Z := ((t mod 86400) / 3600)%Z.
Definition dayofweek_of (t : Z) : Z := ((t / 86400 + 3) mod 7)%Z.

(** [2 * np.pi * x / period]. *)
Definition phase (x : float) (period : Q) : float :=
  fdiv (fmul (fmul (Fin 2) (Fin np_pi)) x) (Fin period).

(** The helpers below are only called by [extract], which has checked
    that the timestamp column is present; they receive that column. *)
Definition _is_business_hours (timestamp : list Z) : list float :=
  List.map (fun t =>
              let is_weekday := (dayofweek_of t <? 5)%Z in
              let is_work_hours := ((9 <=? hour_of t) && (hour_of t <? 17))%Z in
              bool_to_float (is_weekday && is_work_hours))
           timestamp.

Definition _time_since_last_action (df : EventTable) (timestamp : list Z)
  : list float :=
  match str_col df SessionId with
  | Some session_id => fillna0 (group_diff session_id timestamp)
  | None =>
      match str_col df UserId with
      | Some user_id => fillna0 (group_diff user_id timestamp)
      | None => fillna0 (global_diff timestamp)
      end
  end.

Definition _action_velocity (df : EventTable) (timestamp : list Z) : list float :=
  match str_col df SessionId with
  | None => constant_series df fzero
  | Some session_id =>
      let action_count := groupby_transform session_id session_id count_agg in
      let duration_minutes :=
        replace_zero_by_one
          (List.map (fun d => fdiv d (Fin 60)) (session_span session_id timestamp)) in
      zip_with fdiv action_count duration_minutes
  end.

Definition extract (ext : External) (cfg : ExtractorConfig) (df : EventTable)
  : NumFrame :=
  match time_col df with
  | None => mkFrame (n_rows df) []
  | Some timestamp =>
      let fs := ext_features cfg in
      let hour_of_day := List.map (fun t => float_of_Z (hour_of t)) timestamp in
      let day_of_week := List.map (fun t => float_of_Z (dayofweek_of t)) timestamp in
      add_feature fs "action_velocity" "action_velocity"
                  (_action_velocity df timestamp)
      (add_feature fs "time_since_last_action" "time_since_last_action"
                   (_time_since_last_action df timestamp)
      (add_feature fs "is_business_hours" "is_business_hours"
                   (_is_business_hours timestamp)
      (add_feature fs "day_of_week" "day_cos"
                   (List.map (fun d => np_cos ext (phase d 7)) day_of_week)
      (add_feature fs "day_of_week" "day_sin"
                   (List.map (fun d => np_sin ext (phase d 7)) day_of_week)
      (add_feature fs "day_of_week" "day_of_week" day_of_week
      (add_feature fs "hour_of_day" "hour_cos"
                   (List.map (fun h => np_cos ext (phase h 24)) hour_of_day)
      (add_feature fs "hour_of_day" "hour_sin"
                   (List.map (fun h => np_sin ext (phase h 24)) hour_of_day)
      (add_feature fs "hour_of_day" "hour_of_day" hour_of_day
      (mkFrame (n_rows df) [])))))))))
  end.

(** The helpers below are not called by [extract]; they read
    [df['timestamp']] without a check, so a table without that column is a
    [KeyError]. *)
Definition timestamp_of (df : EventTable) : result (list Z) :=
  match time_col df with
  | Some timestamp => Ok timestamp
  | None => Raise (KeyError "timestamp")
  end.

(** [_burst_detection(df, window_seconds)]: for every row the number of
    rows of the same session whose timestamp lies in the window that ends
    at the row's timestamp.  The rows are visited in time order and the
    counts are put back in the order of the table.  A row without a
    session equals no session. *)
Definition in_burst_window (window_seconds : Z) (row other : option string * Z)
  : bool :=
  match fst row with
  | Some k => key_is k (fst other)
  | None => false
  end
  && (snd row - window_seconds <=? snd other)%Z
  && (snd other <=? snd row)%Z.

Definition _burst_detection (df : EventTable) (window_seconds : Z)
  : result (list float) :=
  match str_col df SessionId with
  | None => Ok (constant_series df fzero)
  | Some session_id =>
      timestamp ← timestamp_of df;
      let rows := combine session_id timestamp in
      Ok (List.map
            (fun row =>
               float_of_Z (Z.of_nat (length
                 (List.filter (in_burst_window window_seconds row) rows))))
            rows)
  end.

Definition _is_weekend (df : EventTable) : result (list float) :=
  timestamp ← timestamp_of df;
  Ok (List.map (fun t => bool_to_float (5 <=? dayofweek_of t)%Z) timestamp).

Definition _is_night_time (df : EventTable) : result (list float) :=
  timestamp ← timestamp_of df;
  Ok (List.map (fun t => bool_to_float ((22 <=? hour_of t) || (hour_of t <? 6))%Z)
               timestamp).

End Temporal.

(** ** Feature engineer ([feature_engineering/engineer_features.py]) *)

Module Engineer.

Record FeatureConfig := mkFeatureConfig {
  behavioral : ExtractorConfig;
  network : ExtractorConfig;
  temporal : ExtractorConfig;
  aggregations : option (list string)   (* None: no 'aggregations' key *)
}.

(** [pd.concat(features_list, axis=1)] of frames on one index. *)
Definition concat (n : nat) (frames : list NumFrame) : DataFrame :=
  mkFrame n (List.map (fun c => (fst c, NumS (snd c))) (flat_map columns frames)).

Definition known_aggregation (agg : string) : bool :=
  existsb (String.eqb agg) ["mean"; "std"; "min"; "max"; "median"].

(** The loop of [_add_aggregations].  [stale] tells whether an earlier
    iteration has bound [agg_features], and whether that frame has no
    column.  A name outside the five known ones leaves [agg_features] as
    it was: unbound in the first iteration, otherwise the frame of the
    previous iteration, whose columns the table already has. *)
Fixpoint aggregation_loop (ext : External) (session_id : list (option string))
    (aggs : list string) (stale : option bool) (features : DataFrame)
  : result DataFrame :=
  match aggs with
  | [] => Ok features
  | agg :: rest =>
      if known_aggregation agg then
        joined ← join_session_aggregate ext agg features session_id;
        aggregation_loop ext session_id rest
          (Some (match numeric_columns features with [] => true | _ => false end))
          joined
      else
        match stale with
        | None => Raise (UnboundLocalError "agg_features")
        | Some true => aggregation_loop ext session_id rest stale features
        | Some false => Raise (ValueError "columns overlap but no suffix specified")
        end
  end.

Definition _add_aggregations (ext : External) (aggs : list string)
    (features : DataFrame) (df : EventTable) : result DataFrame :=
  match str_col df SessionId with
  | Some session_id => aggregation_loop ext session_id aggs None features
  | None => Ok features
  end.

(** [fillna(0)] on the numeric columns, then [replace([inf, -inf], 0)]. *)
Definition impute (l : list float) : list float :=
  List.map (fun x => if fisinf x then fzero else x) (fillna0 l).

Definition _handle_missing_features (features : DataFrame) : DataFrame :=
  mkFrame (index features)
          (List.map (fun c => (fst c, match snd c with
                                      | NumS l => NumS (impute l)
                                      | s => s
                                      end))
                    (columns features)).

(** Min-max scaling of one numeric column of a table with [n] rows. *)
Definition scale (n : nat) (l : list float) : list float :=
  let min_val := series_min l in
  let max_val := series_max l in
  if fgtb max_val min_val
  then List.map (fun x => fdiv (fsub x min_val) (fsub max_val min_val)) l
  else repeat fzero n.

Definition _normalize_features (features : DataFrame) : DataFrame :=
  mkFrame (index features)
          (List.map (fun c => (fst c, match snd c with
                                      | NumS l => NumS (scale (index features) l)
                                      | s => s
                                      end))
                    (columns features)).

(** The table handed to the imputation: the concatenated extractor
    outputs, or a copy of the raw table when no extractor is enabled, with
    the aggregations when they are configured. *)
Definition assemble (ext : External) (cfg : FeatureConfig) (df : EventTable)
  : result DataFrame :=
  let features_list :=
    (if ext_enabled (behavioral cfg)
     then [Behavioral.extract (behavioral cfg) df] else [])
    ++ (if ext_enabled (network cfg)
        then [Network.extract ext (network cfg) df] else [])
    ++ (if ext_enabled (temporal cfg)
        then [Temporal.extract ext (temporal cfg) df] else []) in
  let features :=
    match features_list with
    | [] => to_frame df
    | _ => concat (n_rows df) features_list
    end in
  match aggregations cfg with
  | Some aggs => _add_aggregations ext aggs features df
  | None => Ok features
  end.

Definition transform (ext : External) (cfg : FeatureConfig) (df : EventTable)
  : result DataFrame :=
  features ← assemble ext cfg df;
  Ok (_normalize_features (_handle_missing_features features)).

End Engineer.

(** ** Ensemble detector ([pipeline/detect.py]) *)

Module Detect.

(** The duck-typed detector interface: [predict] always exists; the two
    scoring methods are probed with [hasattr]. *)
Record Detector := mkDetector {
  predict : Matrix -> result (list Z);
  score_samples : option (Matrix -> result (list Q));
  decision_function : option (Matrix -> result (list Q))
}.

(** [config.get('ensemble', {})] with the defaults of its three reads:
    [enabled] (True), [method] ('voting') and [weights] ({}). *)
Record EnsembleConfig := mkEnsembleConfig {
  enabled : bool;
  method : string;
  weights : gmap string Q
}.

Definition default_ensemble_config : EnsembleConfig :=
  mkEnsembleConfig true "voting" ∅.

Record AnomalyDetector := mkAnomalyDetector {
  ensemble_config : EnsembleConfig;
  models : list (string * Detector)
}.

Definition set_num_column := @set_column (list float) (@length float).

(** [[col for col in results.columns if col.endswith(suffix)]]. *)
Definition cols_with_suffix (suffix : string) (results : NumFrame)
  : list (string * list float) :=
  List.filter (fun c => endswith (fst c) suffix) (columns results).

(** [weights.get(model_name, 1.0)]. *)
Definition weight_of (w : gmap string Q) (col : string) : Q :=
  let model_name := replace col "_prediction" "" in
  default 1%Q (w !! model_name).

(** The loop of weighted voting: the running [(weighted_sum, total_weight)]. *)
Definition weighted_step (w : gmap string Q) (acc : list float * Q)
    (c : string * list float) : list float * Q :=
  let weight := weight_of w (fst c) in
  (List.map (fun p => fadd (fst p) (fmul (snd p) (Fin weight)))
            (combine (fst acc) (snd c)),
   (snd acc + weight)%Q).

Definition majority_vote (n : nat) (pred_cols : list (string * list float))
  : result (list float) :=
  mode_first n (List.map snd pred_cols).

Definition weighted_vote (w : gmap string Q) (n : nat)
    (pred_cols : list (string * list float)) : list float :=
  let '(weighted_sum, total_weight) :=
    fold_left (weighted_step w) pred_cols (repeat fzero n, 0%Q) in
  let avg := List.map (fun s => fdiv s (Fin total_weight)) weighted_sum in
  List.map (fun a => if fltb a fzero then float_of_Z (-1) else float_of_Z 1) avg.

Definition _ensemble_predict (cfg : EnsembleConfig) (results : NumFrame)
  : result (list float) :=
  let pred_cols := cols_with_suffix "_prediction" results in
  match pred_cols with
  | [] => Ok (repeat fone (index results))
  | _ =>
      if String.eqb (method cfg) "voting" then
        majority_vote (index results) pred_cols
      else if String.eqb (method cfg) "weighted" then
        Ok (weighted_vote (weights cfg) (index results) pred_cols)
      else
        majority_vote (index results) pred_cols
  end.

(** Min-max normalisation of one score array. *)
Definition normalize_scores (scores : list float) : result (list float) :=
  min_score ← ndarray_min scores;
  max_score ← ndarray_max scores;
  if fgtb max_score min_score
  then Ok (List.map (fun s => fdiv (fsub s min_score) (fsub max_score min_score)) scores)
  else Ok (List.map (fun _ => fzero) scores).

Fixpoint normalize_all (score_cols : list (string * list float))
  : result (list (list float)) :=
  match score_cols with
  | [] => Ok []
  | c :: rest =>
      normalized ← normalize_scores (snd c);
      others ← normalize_all rest;
      Ok (normalized :: others)
  end.

Definition _ensemble_score (results : NumFrame) : result (list float) :=
  let score_cols := cols_with_suffix "_score" results in
  match score_cols with
  | [] => Ok (repeat fzero (index results))
  | _ =>
      normalized_scores ← normalize_all score_cols;
      Ok (List.map nanmean (rows_of (index results) normalized_scores))
  end.

(** The scoring half of the [try] block: an exception leaves the frame as
    it is at that point. *)
Definition record_scores (results : NumFrame) (model_name : string)
    (scores : result (list Q)) : NumFrame :=
  match scores with
  | Raise _ => results
  | Ok s =>
      match set_num_column results (model_name +:+ "_score") (List.map Fin s) with
      | Ok r => r
      | Raise _ => results
      end
  end.

(** One iteration of the detector loop: the body of the [try], with the
    [except] that only logs. *)
Definition run_model (X : Matrix) (results : NumFrame)
    (entry : string * Detector) : NumFrame :=
  let '(model_name, model) := entry in
  match predict model X with
  | Raise _ => results
  | Ok predictions =>
      match set_num_column results (model_name +:+ "_prediction")
                           (List.map float_of_Z predictions) with
      | Raise _ => results
      | Ok results1 =>
          match score_samples model, decision_function model with
          | Some f, _ => record_scores results1 model_name (f X)
          | None, Some g => record_scores results1 model_name (g X)
          | None, None => results1
          end
      end
  end.

Definition run_models (self : AnomalyDetector) (features : DataFrame) : NumFrame :=
  fold_left (run_model (values features)) (models self)
            (mkFrame (index features) []).

(** The ensemble step, run only when [enabled] is true. *)
Definition ensemble_step (cfg : EnsembleConfig) (results : NumFrame)
  : result NumFrame :=
  if enabled cfg then
    p ← _ensemble_predict cfg results;
    results1 ← set_num_column results "ensemble_prediction" p;
    s ← _ensemble_score results1;
    set_num_column results1 "ensemble_score" s
  else Ok results.

(** The verdict table: every numeric column of [results] and the boolean
    [is_anomaly] column. *)
Definition with_is_anomaly (results : NumFrame) (flags : list bool) : DataFrame :=
  mkFrame (index results)
          (assoc_set "is_anomaly" (BoolS flags)
                     (List.map (fun c => (fst c, NumS (snd c))) (columns results))).

Definition detect (self : AnomalyDetector) (features : DataFrame)
  : result DataFrame :=
  let results := run_models self features in
  results1 ← ensemble_step (ensemble_config self) results;
  ensemble_prediction ← get_column results1 "ensemble_prediction";
  Ok (with_is_anomaly results1
        (List.map (fun v => feqb v (float_of_Z (-1))) ensemble_prediction)).

End Detect.

(** ** Sequence detector ([models/lstm_detector.py]) *)

Module LSTM.

(** The state that [predict] and [score_samples] read: the window length,
    the fitted network (None before [fit]; given a window of rows it
    returns the predicted next row) and the threshold frozen by [fit]. *)
Record LSTMDetector := mkLSTMDetector {
  sequence_length : nat;
  model : option (Matrix -> list float);
  threshold_value : option float
}.

(** [X[i:i + k]] and [X[i + k]] for [i] in [range(len(X) - k)]. *)
Definition _create_sequences (self : LSTMDetector) (X : Matrix)
  : list Matrix * Matrix :=
  let k := sequence_length self in
  let idx := seq 0 (length X - k) in
  (List.map (fun i => firstn k (skipn i X)) idx,
   List.map (fun i => nth (i + k) X []) idx).

(** [np.mean(np.square(y - y_hat))] over one row. *)
Definition mean_squared_error (y y_hat : list float) : float :=
  let sq := List.map (fun p => fmul (fsub (fst p) (snd p)) (fsub (fst p) (snd p)))
                     (combine y y_hat) in
  fdiv (fsum sq) (float_of_Z (Z.of_nat (length sq))).

Definition score_samples (self : LSTMDetector) (X : Matrix) : result (list float) :=
  let '(X_seq, y_seq) := _create_sequences self X in
  if (length X_seq =? 0)%nat then Ok (repeat fzero (length X))
  else
    match model self with
    | None => Raise (AttributeError "'NoneType' object has no attribute 'predict'")
    | Some net =>
        Ok (List.map (fun p => mean_squared_error (snd p) (net (fst p)))
                     (combine X_seq y_seq))
    end.

(** [dst[start:] = src] on one-dimensional arrays: [src] must be as long
    as the slice, or of length one (it is then broadcast). *)
Definition assign_from (dst : list Z) (start : nat) (src : list Z)
  : result (list Z) :=
  let slice := (length dst - start)%nat in
  if (length src =? slice)%nat then Ok (firstn start dst ++ src)
  else if (length src =? 1)%nat then
    Ok (firstn start dst ++ repeat (nth 0 src 0%Z) slice)
  else Raise (ValueError "could not broadcast input array").

(** [np.where(scores > threshold, -1, 1)]. *)
Definition label (threshold : float) (score : float) : Z :=
  if fgtb score threshold then (-1)%Z else 1%Z.

Definition predict (self : LSTMDetector) (X : Matrix) : result (list Z) :=
  scores ← score_samples self X;
  match threshold_value self with
  | None => Raise (TypeError "'>' not supported between 'float' and 'NoneType'")
  | Some threshold =>
      assign_from (repeat 1%Z (length X)) (sequence_length self)
                  (List.map (label threshold) scores)
  end.

End LSTM.

(** ** Model trainer ([models/train.py]) *)

Module Train.

(** A detector class of the registry: constructed with its configuration
    and fitted on the numeric feature values, it yields the trained
    detector or raises. *)
Definition ModelClass := Matrix -> result Detect.Detector.

(** The model store directory: one artifact per detector name. *)
Definition ModelStore := gmap string Detect.Detector.

Record ModelTrainer := mkModelTrainer {
  enabled_models : list string;
  models : gmap string ModelClass
}.

Definition train_model (self : ModelTrainer) (model_name : string)
    (features : DataFrame) : result Detect.Detector :=
  match models self !! model_name with
  | None => Raise (ValueError ("Unknown model: " +:+ model_name))
  | Some model_class => model_class (values features)
  end.

Definition save_model (store : gmap string Detect.Detector)
    (model : Detect.Detector) (model_name : string) : gmap string Detect.Detector :=
  <[model_name := model]> store.

Definition load_model (store : gmap string Detect.Detector) (model_name : string)
  : result Detect.Detector :=
  match store !! model_name with
  | Some model => Ok model
  | None => Raise (FileNotFoundError ("Model not found: " +:+ model_name +:+ ".pkl"))
  end.

(** One iteration of the loop of [train_all_models]: the state is the
    dict of trained models and the model store. *)
Definition train_one (self : ModelTrainer) (features : DataFrame)
    (state : gmap string Detect.Detector * gmap string Detect.Detector)
    (model_name : string)
  : gmap string Detect.Detector * gmap string Detect.Detector :=
  match train_model self model_name features with
  | Ok model =>
      (<[model_name := model]> (fst state), save_model (snd state) model model_name)
  | Raise _ => state
  end.

Definition train_all_models (self : ModelTrainer) (features : DataFrame)
    (store : gmap string Detect.Detector)
  : gmap string Detect.Detector * gmap string Detect.Detector :=
  fold_left (train_one self features) (enabled_models self) (∅, store).

End Train.

(** ** Evaluation ([utils/metrics.py]) *)

Module Metrics.

(** The metrics dict of an evaluation without labels: its three keys. *)
Record Report := mkReport {
  total_samples : nat;
  anomalies_detected : nat;
  anomaly_rate : float
}.

(** [(predictions == -1).astype(int)]. *)
Definition binarize (predictions : list Z) : list nat :=
  List.map (fun p => if (p =? -1)%Z then 1%nat else 0%nat) predictions.

(** [evaluate_model(model, features)] with [labels] left at None, as
    every call of the pipeline does.  The mean of an empty array is NaN. *)
Definition evaluate_model (model : Detect.Detector) (features : DataFrame)
  : result Report :=
  predictions ← Detect.predict model (values features);
  let y_pred := binarize predictions in
  Ok (mkReport (length predictions)
               (list_sum y_pred)
               (fdiv (float_of_Z (Z.of_nat (list_sum y_pred)))
                     (float_of_Z (Z.of_nat (length y_pred))))).

End Metrics.

(** ** Pipeline entry point ([main.py]) *)

Module Main.

(** Step 3 of [run_full_pipeline]: each name of
    [config['models']['enabled_models']] is trained, saved and evaluated in
    turn, and no exception is caught.  The result is the model store as the
    loop leaves it and the metrics logged, or the exception that ended the
    loop. *)
Fixpoint train_and_evaluate (trainer : Train.ModelTrainer) (features : DataFrame)
    (names : list string) (store : Train.ModelStore)
  : Train.ModelStore * result (list (string * Metrics.Report)) :=
  match names with
  | [] => (store, Ok [])
  | model_name :: rest =>
      match Train.train_model trainer model_name features with
      | Raise e => (store, Raise e)
      | Ok model =>
          let store1 := Train.save_model store model model_name in
          match Metrics.evaluate_model model features with
          | Raise e => (store1, Raise e)
          | Ok metrics =>
              let '(store2, logged) :=
                train_and_evaluate trainer features rest store1 in
              (store2, reports ← logged; Ok ((model_name, metrics) :: reports))
          end
      end
  end.

End Main.

(** ** Data ingestion ([data_ingestion/ingest.py]) *)

Module Ingest.

(** [config.get('timestamp_field', 'timestamp')]. *)
Record DataIngestion := mkDataIngestion {
  timestamp_field : string
}.

(** The column of the input table contract that has the given name. *)
Definition column_named (name : string) : option Column :=
  List.find (fun c => String.eqb (column_name c) name)
            [Timestamp; SessionId; UserId; SourceIp; DestinationIp;
             Action; Resource; StatusCode; BytesTransferred].

(** [df[c].notna()] on one row; a datetime cell of an event is never
    missing. *)
Definition notna (c : Column) (e : Event) : bool :=
  match c with
  | Timestamp => true
  | StatusCode | BytesTransferred => negb (fisnan (num_field c e))
  | _ => match str_field c e with Some _ => true | None => false end
  end.

(** [df[mask]]: the rows that satisfy the mask, in order. *)
Definition select (keep : Event -> bool) (df : EventTable) : EventTable :=
  mkEventTable (present df) (List.filter keep (events df)).

Definition _remove_invalid_entries (self : DataIngestion) (df : EventTable)
  : EventTable :=
  let df :=
    match column_named (timestamp_field self) with
    | Some c => if has df c then select (notna c) df else df
    | None => df
    end in
  let df :=
    if has df BytesTransferred
    then select (fun e => fgeb (ev_bytes_transferred e) fzero) df
    else df in
  if has df StatusCode
  then select (fun e => fgeb (ev_status_code e) (Fin 100)
                        && fltb (ev_status_code e) (Fin 600)) df
  else df.

End Ingest.

(** ** Sample detectors and registries used to exercise the properties *)

(** A detector that flags a sample when its first feature exceeds [t] and
    scores it by the negated feature (higher is more normal). *)
Definition threshold_detector (t : Q) : Detect.Detector :=
  Detect.mkDetector
    (fun X => Ok (List.map (fun row => match row with
                                       | Fin q :: _ => if Qltb t q then (-1)%Z else 1%Z
                                       | _ => 1%Z
                                       end) X))
    (Some (fun X => Ok (List.map (fun row => match row with
                                             | Fin q :: _ => (- q)%Q
                                             | _ => 0%Q
                                             end) X)))
    None.

(** A detector whose [predict] raises. *)
Definition unfitted_detector : Detect.Detector :=
  Detect.mkDetector
    (fun _ => Raise (RuntimeError "model is not fitted"))
    (Some (fun _ => Raise (RuntimeError "model is not fitted")))
    None.

(** A detector that predicts but whose scoring raises. *)
Definition unscorable_detector : Detect.Detector :=
  Detect.mkDetector
    (fun X => Ok (List.map (fun _ => (-1)%Z) X))
    (Some (fun _ => Raise (RuntimeError "scoring failed")))
    None.

Definition sample_features : DataFrame :=
  mkFrame 3
    [("session_duration", NumS [Fin 0; Fin (1#2); Fin 1]);
     ("connection_count", NumS [Fin 1; Fin 0; Fin (1#4)])].

Definition two_detectors : Detect.AnomalyDetector :=
  Detect.mkAnomalyDetector Detect.default_ensemble_config
    [("isolation_forest", threshold_detector (3#4));
     ("one_class_svm", threshold_detector (1#4))].


Definition one_unfitted : Detect.AnomalyDetector :=
  Detect.mkAnomalyDetector Detect.default_ensemble_config
    [("isolation_forest", threshold_detector (3#4));
     ("lstm", unfitted_detector);
     ("one_class_svm", threshold_detector (1#4))].

Definition one_unscorable : Detect.AnomalyDetector :=
  Detect.mkAnomalyDetector Detect.default_ensemble_config
    [("isolation_forest", threshold_detector (3#4));
     ("autoencoder", unscorable_detector)].

Definition ensemble_disabled : Detect.EnsembleConfig :=
  Detect.mkEnsembleConfig false "voting" ∅.

Definition two_detectors_no_ensemble : Detect.AnomalyDetector :=
  Detect.mkAnomalyDetector ensemble_disabled
    [("isolation_forest", threshold_detector (3#4));
     ("one_class_svm", threshold_detector (1#4))].

Definition detector_named_ensemble : Detect.AnomalyDetector :=
  Detect.mkAnomalyDetector ensemble_disabled
    [("ensemble", threshold_detector (1#4))].

Definition weighted_config : Detect.EnsembleConfig :=
  Detect.mkEnsembleConfig true "weighted"
    (<["sequence_prediction" := 3%Q]> (<["isolation_forest" := 1%Q]> ∅)).

(** A registry whose first detector has a name that contains
    "_prediction". *)
Definition sequence_prediction_registry : Detect.AnomalyDetector :=
  Detect.mkAnomalyDetector weighted_config
    [("sequence_prediction", threshold_detector (1#4));
     ("isolation_forest", threshold_detector (3#4))].



(** A stand-in for a fitted network: it predicts that the next row
    repeats the last row of the window. *)
Definition persistence_network (window : Matrix) : list float :=
  List.last window [].

(** A fitted sequence detector with the default window of 10 rows. *)
Definition fitted_lstm : LSTM.LSTMDetector :=
  LSTM.mkLSTMDetector 10 (Some persistence_network) (Some (Fin (1#10))).

(** A fitted sequence detector with a window of 2 rows. *)
Definition short_window_lstm : LSTM.LSTMDetector :=
  LSTM.mkLSTMDetector 2 (Some persistence_network) (Some (Fin (1#10))).

Definition five_rows : Matrix :=
  [[Fin 0]; [Fin (1#10)]; [Fin (1#5)]; [Fin 1]; [Fin (1#5)]].

(** A trainer whose autoencoder fails to fit and whose configuration
    also names a detector that is not in the registry. *)
Definition sample_trainer : Train.ModelTrainer :=
  Train.mkModelTrainer
    ["isolation_forest"; "autoencoder"; "random_forest"; "one_class_svm"]
    (<["isolation_forest" := fun _ => Ok (threshold_detector (3#4))]>
     (<["autoencoder" := fun _ => Raise (RuntimeError "TensorFlow not available")]>
      (<["one_class_svm" := fun _ => Ok (threshold_detector (1#4))]> ∅))).

(** ** Sample event tables *)

Definition sample_events : list Event :=
  [mkEvent 1700000000 (Some "s1") (Some "alice") (Some "10.0.0.5")
           (Some "10.0.0.9") (Some "Login") (Some "/auth") (Fin 401) (Fin 120);
   mkEvent 1700000030 (Some "s1") (Some "alice") (Some "10.0.0.5")
           (Some "10.0.0.9") (Some "login") (Some "/auth") (Fin 403) (Fin 80);
   mkEvent 1700000060 (Some "s2") (Some "bob") (Some "10.0.0.7")
           (Some "10.0.0.12") (Some "sudo su") (Some "/etc/shadow") (Fin 200) NaN;
   mkEvent 1700000090 (Some "s1") (Some "alice") (Some "10.0.0.5")
           (Some "10.0.0.10") (Some "read") (Some "/home") (Fin 200) (Fin 4096)].

Definition all_columns : list Column :=
  [Timestamp; SessionId; UserId; SourceIp; DestinationIp; Action; Resource;
   StatusCode; BytesTransferred].

Definition sample_table : EventTable := mkEventTable all_columns sample_events.


Definition all_features : list string :=
  ["failed_login_count"; "privilege_escalation_attempts";
   "unique_resources_accessed"; "session_duration"; "action_frequency";
   "bytes_transferred"; "connection_count"; "unique_destinations";
   "port_scan_indicators"; "lateral_movement_score";
   "hour_of_day"; "day_of_week"; "is_business_hours";
   "time_since_last_action"; "action_velocity"].

Definition every_feature : ExtractorConfig := mkExtractorConfig true all_features.

Definition extractor_disabled : ExtractorConfig := mkExtractorConfig false [].

Definition all_extractors_disabled : Engineer.FeatureConfig :=
  Engineer.mkFeatureConfig extractor_disabled extractor_disabled
                           extractor_disabled None.

(** ** Sample tables used to exercise the properties *)



(** * Specification predicates *)

(** [dominates row m v]: [m] occurs at least as often as [v] in [row],
    and when they occur equally often [v] is not smaller than [m]. *)
Definition dominates (row : list float) (m v : float) : Prop :=
  (count_eq v row <= count_eq m row)%nat /\
  (count_eq v row = count_eq m row -> fltb v m = false).

(** [m] is the value that majority voting returns on [row]: a cell of the
    row, occurring most often, and the smallest of the values that do. *)
Definition first_mode (row : list float) (m : float) : Prop :=
  In m row /\
  (forall v, In v row -> (count_eq v row <= count_eq m row)%nat) /\
  (forall v, In v row -> fisnan v = false ->
             count_eq v row = count_eq m row -> fltb v m = false).

(** Every column of a frame is as long as its index. *)
Definition wf_frame {A} (len : A -> nat) (f : Frame A) : Prop :=
  Forall (fun c => len (snd c) = index f) (columns f).

Definition wf_num_frame (f : NumFrame) : Prop := wf_frame (@length float) f.

(** The weighted average of the specification: the sum of weight times
    prediction over the detectors, divided by the total weight. *)
Definition Qsum (l : list Q) : Q := fold_left Qplus l 0%Q.

Definition weighted_average (preds weights : list Q) : float :=
  fdiv (Fin (Qsum (List.map (fun pw => (fst pw * snd pw)%Q) (combine preds weights))))
       (Fin (Qsum weights)).

(** The sign test: a negative average is an anomaly (-1), anything else
    is normal (+1). *)
Definition sign_test (avg : float) : float :=
  if fltb avg fzero then Fin (-1) else Fin 1.

(** The weight that the configuration gives to a detector. *)
Definition configured_weight (w : gmap string Q) (model_name : string) : Q :=
  default 1%Q (w !! model_name).


(** A column without NaN and without infinities. *)
Definition all_finite (l : list float) : Prop :=
  Forall (fun x => fisfinite x = true) l.

(** A column whose cells all lie in [0,1]. *)
Definition all_in_unit_interval (l : list float) : Prop :=
  Forall in_unit_interval l.

(** ** What a detector contributes to the result table *)

(** The scoring method that [detect] probes first. *)
Definition scorer (d : Detect.Detector) : option (Matrix -> result (list Q)) :=
  match Detect.score_samples d with
  | Some f => Some f
  | None => Detect.decision_function d
  end.

(** The predictions of a detector whose [predict] returns one label per
    sample. *)
Definition predicted (X : Matrix) (n : nat) (d : Detect.Detector)
  : option (list Z) :=
  match Detect.predict d X with
  | Ok p => if (length p =? n)%nat then Some p else None
  | Raise _ => None
  end.

(** The scores of a detector whose scoring method returns one score per
    sample. *)
Definition scored (X : Matrix) (n : nat) (d : Detect.Detector)
  : option (list Q) :=
  match scorer d with
  | Some f =>
      match f X with
      | Ok s => if (length s =? n)%nat then Some s else None
      | Raise _ => None
      end
  | None => None
  end.

(** The columns that one registry entry leaves in the table. *)
Definition contributed (X : Matrix) (n : nat) (entry : string * Detect.Detector)
  : list (string * list float) :=
  match predicted X n (snd entry) with
  | None => []
  | Some p =>
      (fst entry +:+ "_prediction", List.map float_of_Z p)
      :: match scored X n (snd entry) with
         | Some s => [(fst entry +:+ "_score", List.map Fin s)]
         | None => []
         end
  end.

(** The registry without the detector registered under [model_name]. *)
Definition unregister (model_name : string) (self : Detect.AnomalyDetector)
  : Detect.AnomalyDetector :=
  Detect.mkAnomalyDetector
    (Detect.ensemble_config self)
    (List.filter (fun e => negb (String.eqb (fst e) model_name)) (Detect.models self)).

(** ** The feature matrix *)




(** ** Which input columns a feature reads *)

Definition reads (feature : string) : list Column :=
  if String.eqb feature "failed_login_count" then [Action; StatusCode; SessionId]
  else if String.eqb feature "privilege_escalation_attempts" then [Action; SessionId]
  else if String.eqb feature "unique_resources_accessed" then [Resource; SessionId]
  else if String.eqb feature "session_duration" then [Timestamp; SessionId]
  else if String.eqb feature "action_frequency" then [SessionId; Timestamp]
  else if String.eqb feature "bytes_transferred" then [BytesTransferred]
  else if String.eqb feature "bytes_transferred_log" then [BytesTransferred]
  else if String.eqb feature "connection_count" then [SessionId]
  else if String.eqb feature "unique_destinations"
       then [SessionId; DestinationIp; Resource]
  else if String.eqb feature "port_scan_score"
       then [SessionId; DestinationIp; Timestamp; StatusCode]
  else if String.eqb feature "lateral_movement_score"
       then [SessionId; Resource; Action; SourceIp; UserId]
  else if String.eqb feature "time_since_last_action"
       then [Timestamp; SessionId; UserId]
  else if String.eqb feature "action_velocity" then [Timestamp; SessionId]
  else [Timestamp].

(** A table of extracted features has one cell per event in every
    column. *)
Definition well_shaped (df : EventTable) (features : NumFrame) : Prop :=
  index features = n_rows df /\ wf_num_frame features.

(** ** Labels *)

(** A cell that holds one of the two labels, -1 (anomaly) or +1 (normal). *)
Definition is_label (v : float) : Prop := v = Fin (-1) \/ v = Fin 1.

(** A detector that keeps to the label contract on the matrix [X]:
    whenever its [predict] returns, every prediction is -1 or +1. *)
Definition labels_only (X : Matrix) (d : Detect.Detector) : Prop :=
  forall p, Detect.predict d X = Ok p ->
            Forall (fun z => z = (-1)%Z \/ z = 1%Z) p.

(** A detector that labels every row but the first, as a detector that
    needs one row of history would. *)
Definition truncating_detector : Detect.Detector :=
  Detect.mkDetector (fun X => Ok (List.map (fun _ => 1%Z) (tl X))) None None.

Definition one_truncating : Detect.AnomalyDetector :=
  Detect.mkAnomalyDetector Detect.default_ensemble_config
    [("isolation_forest", threshold_detector (3#4));
     ("lstm", truncating_detector)].

(** A single sample. *)
Definition one_sample : DataFrame :=
  mkFrame 1 [("session_duration", NumS [Fin (1#2)]);
             ("connection_count", NumS [Fin 1])].

(** All scores of a column are equal. *)
Definition constant_scores (s : list Q) : Prop :=
  forall a b, In a s -> In b s -> (a == b)%Q.

(** A score column of a table with [n] rows whose scores are all equal. *)
Definition constant_score_column (n : nat) (c : string * list float) : Prop :=
  exists s, snd c = List.map Fin s /\ length s = n /\ constant_scores s.



(** A sequence detector before [fit]: no network and no threshold. *)
Definition unfitted_lstm : LSTM.LSTMDetector := LSTM.mkLSTMDetector 10 None None.

(** A trainer whose two enabled detectors both fit. *)
Definition working_trainer : Train.ModelTrainer :=
  Train.mkModelTrainer
    ["isolation_forest"; "one_class_svm"]
    (<["isolation_forest" := fun _ => Ok (threshold_detector (3#4))]>
     (<["one_class_svm" := fun _ => Ok (threshold_detector (1#4))]> ∅)).

(** An instance of the library functions for the runs on sample tables;
    the properties are stated for every instance. *)
Definition sample_external : External :=
  mkExternal (fun x => x) (fun _ => fzero) (fun _ => fone)
             (fun _ features _ => Ok features).

(** ** Rows and sessions *)



(** The number of rows of session [k] that satisfy [sel]. *)
Definition rows_in_session (sel : Event -> bool) (k : string) (events : list Event)
  : nat :=
  length (List.filter (fun e => sel e && key_is k (ev_session_id e)) events).




(** ** Valid log entries *)

(** The row passes the three checks of [_remove_invalid_entries] that
    apply to the columns of [df]. *)
Definition valid_entry (self : Ingest.DataIngestion) (df : EventTable) (e : Event)
  : bool :=
  match Ingest.column_named (Ingest.timestamp_field self) with
  | Some c => if has df c then Ingest.notna c e else true
  | None => true
  end
  && (if has df BytesTransferred then fgeb (ev_bytes_transferred e) fzero else true)
  && (if has df StatusCode
      then fgeb (ev_status_code e) (Fin 100) && fltb (ev_status_code e) (Fin 600)
      else true).

(** The default configuration: the timestamp field is [timestamp]. *)
Definition default_ingestion : Ingest.DataIngestion :=
  Ingest.mkDataIngestion "timestamp".

(** ** The columns an extractor can produce *)

(** The configuration keys that [extract] knows, each with the column it
    writes, in the order of the code. *)
Definition behavioral_columns : list (string * string) :=
  [("failed_login_count", "failed_login_count");
   ("privilege_escalation_attempts", "privilege_escalation_attempts");
   ("unique_resources_accessed", "unique_resources_accessed");
   ("session_duration", "session_duration");
   ("action_frequency", "action_frequency")].

Definition network_columns : list (string * string) :=
  [("bytes_transferred", "bytes_transferred");
   ("bytes_transferred", "bytes_transferred_log");
   ("connection_count", "connection_count");
   ("unique_destinations", "unique_destinations");
   ("port_scan_indicators", "port_scan_score");
   ("lateral_movement_score", "lateral_movement_score")].

Definition temporal_columns : list (string * string) :=
  [("hour_of_day", "hour_of_day");
   ("hour_of_day", "hour_sin");
   ("hour_of_day", "hour_cos");
   ("day_of_week", "day_of_week");
   ("day_of_week", "day_sin");
   ("day_of_week", "day_cos");
   ("is_business_hours", "is_business_hours");
   ("time_since_last_action", "time_since_last_action");
   ("action_velocity", "action_velocity")].

(** The columns of a table of keys that the configured features select. *)
Definition selected_columns (features : list string) (table : list (string * string))
  : list string :=
  List.map snd (List.filter (fun kc => existsb (String.eqb (fst kc)) features) table).

(** A detector that scores every row but the first two, as a sequence
    detector with a window of two rows does. *)
Definition windowed_scorer : Detect.Detector :=
  Detect.mkDetector
    (fun X => Ok (List.map (fun _ => 1%Z) X))
    (Some (fun X => Ok (List.map (fun _ => 0%Q) (skipn 2 X))))
    None.

Definition one_windowed : Detect.AnomalyDetector :=
  Detect.mkAnomalyDetector Detect.default_ensemble_config
    [("isolation_forest", threshold_detector (3#4));
     ("lstm", windowed_scorer)].

(** * Properties *)

(** ** Order and equality of cells *)

Lemma Qltb_lt (a b : Q) : Qltb a b = true <-> (a < b)%Q.
Proof.
  unfold Qltb. rewrite Qlt_alt.
  destruct (a ?= b)%Q; split; intros H; try reflexivity; discriminate H.
Qed.

Lemma Qltb_ge (a b : Q) : Qltb a b = false <-> (b <= a)%Q.
Proof.
  split; intros H.
  - apply Qnot_lt_le. intros Hlt. apply Qltb_lt in Hlt. congruence.
  - destruct (Qltb a b) eqn:E; [|reflexivity].
    apply Qltb_lt in E. lra.
Qed.

Lemma fltb_irrefl (x : float) : fltb x x = false.
Proof.
  destruct x; simpl; try reflexivity. apply Qltb_ge. lra.
Qed.

Lemma fltb_asym (x y : float) : fltb x y = true -> fltb y x = false.
Proof.
  destruct x, y; simpl; try reflexivity; try discriminate.
  intros H. apply Qltb_lt in H. apply Qltb_ge. lra.
Qed.

(** On cells that are not NaN, [>=] is transitive. *)
Lemma fltb_neg_trans (x y z : float) :
  fisnan y = false ->
  fltb x y = false -> fltb y z = false -> fltb x z = false.
Proof.
  destruct x, y, z; simpl; try reflexivity; try discriminate.
  intros _ H1 H2. apply Qltb_ge in H1, H2. apply Qltb_ge. lra.
Qed.

(** ** The first mode of a row *)

Lemma dominates_refl row m : dominates row m m.
Proof. split; [lia | intros _; apply fltb_irrefl]. Qed.

Lemma dominates_trans row x y z :
  fisnan y = false ->
  dominates row x y -> dominates row y z -> dominates row x z.
Proof.
  intros Hy [Hc1 Ho1] [Hc2 Ho2]. split; [lia|].
  intros Heq.
  apply fltb_neg_trans with (y := y); [assumption | apply Ho2 | apply Ho1]; lia.
Qed.

Lemma better_mode_cases row b v :
  let m := better_mode row b v in
  (m = b \/ m = v) /\ dominates row m b /\ dominates row m v.
Proof.
  unfold better_mode.
  destruct (count_eq b row <? count_eq v row)%nat eqn:E1; simpl.
  - apply Nat.ltb_lt in E1. split; [now right|].
    split; [split; [lia | intros; lia] | apply dominates_refl].
  - apply Nat.ltb_ge in E1.
    destruct (count_eq v row =? count_eq b row)%nat eqn:E2; simpl.
    + apply Nat.eqb_eq in E2.
      destruct (fltb v b) eqn:E3.
      * split; [now right|].
        split; [split; [lia | intros _; now apply fltb_asym] | apply dominates_refl].
      * split; [now left|].
        split; [apply dominates_refl | split; [lia | intros _; exact E3]].
    + apply Nat.eqb_neq in E2. split; [now left|].
      split; [apply dominates_refl | split; [lia | intros; lia]].
Qed.

Lemma fold_better_mode row : forall r b,
  fisnan b = false ->
  Forall (fun v => fisnan v = false) r ->
  let m := fold_left (better_mode row) r b in
  (m = b \/ In m r) /\ dominates row m b /\ Forall (dominates row m) r.
Proof.
  induction r as [|a r IH]; intros b Hb Hr; simpl.
  - split; [now left|]. split; [apply dominates_refl | constructor].
  - inversion Hr as [|? ? Ha Hr']; subst.
    destruct (better_mode_cases row b a) as (Hsel & Hdb & Hda).
    set (b' := better_mode row b a) in *.
    assert (Hb' : fisnan b' = false) by (destruct Hsel as [-> | ->]; assumption).
    destruct (IH b' Hb' Hr') as (Hin & Hd & Hall).
    split.
    + destruct Hin as [-> | Hin]; [|right; now right].
      destruct Hsel as [-> | ->]; [now left | right; now left].
    + split; [now apply dominates_trans with (y := b')|].
      constructor; [now apply dominates_trans with (y := b') | assumption].
Qed.

Lemma dropna_In (l : list float) (v : float) :
  In v (dropna l) <-> In v l /\ fisnan v = false.
Proof.
  unfold dropna. rewrite filter_In. destruct (fisnan v); simpl; intuition congruence.
Qed.

Lemma count_eq_nan (row : list float) : count_eq NaN row = 0%nat.
Proof.
  unfold count_eq. induction row as [|x r IH]; [reflexivity|].
  simpl. destruct x; simpl; exact IH.
Qed.

(** [row_mode] returns the first mode of any row that has a value. *)
Lemma row_mode_first_mode (row : list float) :
  dropna row <> [] -> first_mode row (row_mode row).
Proof.
  intros Hne. unfold row_mode.
  destruct (dropna row) as [|x r] eqn:E; [congruence|].
  assert (Hall : Forall (fun v => fisnan v = false) (x :: r)).
  { apply List.Forall_forall. intros v Hv. rewrite <- E in Hv.
    apply dropna_In in Hv. tauto. }
  inversion Hall as [|? ? Hx Hr]; subst.
  destruct (fold_better_mode row r x Hx Hr) as (Hin & Hdx & Hdr).
  set (m := fold_left (better_mode row) r x) in *.
  assert (Hm : In m (x :: r)) by (destruct Hin as [-> | H]; [now left | now right]).
  assert (Hdom : forall v, In v (x :: r) -> dominates row m v).
  { intros v [<- | Hv]; [assumption|].
    now apply (proj1 (List.Forall_forall _ _) Hdr). }
  split; [rewrite <- E in Hm; apply dropna_In in Hm; tauto|].
  split.
  - intros v Hv. destruct (fisnan v) eqn:Ev.
    + destruct v; try discriminate. rewrite count_eq_nan. lia.
    + apply Hdom. rewrite <- E. apply dropna_In. tauto.
  - intros v Hv Ev Hc. apply Hdom; [|assumption].
    rewrite <- E. apply dropna_In. tauto.
Qed.

Lemma row_at_length cols i : length (row_at cols i) = length cols.
Proof. unfold row_at. apply length_map. Qed.

Lemma rows_of_lookup n cols i :
  (i < n)%nat -> rows_of n cols !! i = Some (row_at cols i).
Proof.
  intros Hi. unfold rows_of.
  change (List.map (row_at cols) (seq 0 n)) with (row_at cols <$> seq 0 n).
  rewrite list_lookup_fmap, lookup_seq_lt by assumption. reflexivity.
Qed.

Lemma rows_of_length n cols : length (rows_of n cols) = n.
Proof. unfold rows_of. rewrite length_map. apply length_seq. Qed.

Lemma dropna_nonempty_forallb (row : list float) :
  dropna row <> [] -> forallb fisnan row = false.
Proof.
  induction row as [|x r IH]; simpl; [congruence|].
  unfold dropna in *. simpl. destruct (fisnan x); simpl; [exact IH | reflexivity].
Qed.

(** Majority voting on any sample that has a vote: the call returns one
    vote per sample and the vote of sample [i] is [row_mode] of its row. *)
Lemma mode_first_lookup n cols i :
  (i < n)%nat -> dropna (row_at cols i) <> [] ->
  exists votes, mode_first n cols = Ok votes /\ length votes = n /\
                votes !! i = Some (row_mode (row_at cols i)).
Proof.
  intros Hi Hrow. unfold mode_first.
  assert (Hex : existsb (fun r => negb (forallb fisnan r)) (rows_of n cols) = true).
  { apply existsb_exists. exists (row_at cols i). split.
    - apply list_elem_of_In. apply list_elem_of_lookup. exists i.
      now apply rows_of_lookup.
    - now rewrite dropna_nonempty_forallb. }
  rewrite Hex. eexists. split; [reflexivity|]. split.
  - rewrite length_map. apply rows_of_length.
  - change (List.map row_mode (rows_of n cols)) with (row_mode <$> rows_of n cols).
    rewrite list_lookup_fmap, rows_of_lookup by assumption. reflexivity.
Qed.









(** ** Weighted voting *)




Lemma cols_with_suffix_wf suffix (results : NumFrame) :
  wf_num_frame results ->
  Forall (fun c => length (snd c) = index results)
         (Detect.cols_with_suffix suffix results).
Proof.
  unfold wf_num_frame, wf_frame, Detect.cols_with_suffix.
  rewrite !List.Forall_forall. intros H c Hc.
  apply filter_In in Hc. apply H. tauto.
Qed.



(** ** Min-max scaling *)

Lemma Qsign_pos (q : Q) : (0 < q)%Q -> Qsign q = Gt.
Proof. intros H. unfold Qsign. now apply Qgt_alt. Qed.

Lemma in_unit_interval_finite (x : float) : in_unit_interval x -> fisfinite x = true.
Proof. destruct x; simpl; tauto. Qed.

Lemma minmax_scale_unit (q mn mx : Q) :
  (mn <= q)%Q -> (q <= mx)%Q -> (mn < mx)%Q ->
  in_unit_interval (fdiv (fsub (Fin q) (Fin mn)) (fsub (Fin mx) (Fin mn))).
Proof.
  intros H1 H2 H3. simpl.
  assert (Hpos : (0 < mx + - mn)%Q) by lra.
  rewrite (Qsign_pos _ Hpos). simpl. split.
  - apply Qle_shift_div_l; [assumption | lra].
  - apply Qle_shift_div_r; [assumption | lra].
Qed.

Lemma fold_fmin2_finite : forall r x,
  all_finite (Fin x :: r) ->
  exists m, fold_left fmin2 r (Fin x) = Fin m /\
            In (Fin m) (Fin x :: r) /\
            forall q, In (Fin q) (Fin x :: r) -> (m <= q)%Q.
Proof.
  induction r as [|y r IH]; intros x Hall.
  - exists x. simpl. split; [reflexivity|]. split; [now left|].
    intros q [E | []]. injection E as ->. lra.
  - inversion Hall as [|? ? _ Hr]; subst. inversion Hr as [|? ? Hy Hr']; subst.
    destruct y as [y| | |]; try discriminate.
    simpl fold_left. unfold fmin2 at 2. simpl fltb.
    destruct (Qltb y x) eqn:E.
    + apply Qltb_lt in E.
      destruct (IH y) as (m & Hm & Hin & Hle); [constructor; [reflexivity | assumption]|].
      exists m. split; [assumption|]. split.
      * destruct Hin as [Hin | Hin]; [right; now left | right; now right].
      * intros q [Hq | [Hq | Hq]].
        -- injection Hq as <-. specialize (Hle y (or_introl eq_refl)). lra.
        -- apply Hle. now left.
        -- apply Hle. now right.
    + apply Qltb_ge in E.
      destruct (IH x) as (m & Hm & Hin & Hle); [constructor; [reflexivity | assumption]|].
      exists m. split; [assumption|]. split.
      * destruct Hin as [Hin | Hin]; [now left | right; now right].
      * intros q [Hq | [Hq | Hq]].
        -- apply Hle. now left.
        -- injection Hq as <-. specialize (Hle x (or_introl eq_refl)). lra.
        -- apply Hle. now right.
Qed.

Lemma fold_fmax2_finite : forall r x,
  all_finite (Fin x :: r) ->
  exists m, fold_left fmax2 r (Fin x) = Fin m /\
            In (Fin m) (Fin x :: r) /\
            forall q, In (Fin q) (Fin x :: r) -> (q <= m)%Q.
Proof.
  induction r as [|y r IH]; intros x Hall.
  - exists x. simpl. split; [reflexivity|]. split; [now left|].
    intros q [E | []]. injection E as ->. lra.
  - inversion Hall as [|? ? _ Hr]; subst. inversion Hr as [|? ? Hy Hr']; subst.
    destruct y as [y| | |]; try discriminate.
    simpl fold_left. unfold fmax2 at 2. simpl fltb.
    destruct (Qltb x y) eqn:E.
    + apply Qltb_lt in E.
      destruct (IH y) as (m & Hm & Hin & Hle); [constructor; [reflexivity | assumption]|].
      exists m. split; [assumption|]. split.
      * destruct Hin as [Hin | Hin]; [right; now left | right; now right].
      * intros q [Hq | [Hq | Hq]].
        -- injection Hq as <-. specialize (Hle y (or_introl eq_refl)). lra.
        -- apply Hle. now left.
        -- apply Hle. now right.
    + apply Qltb_ge in E.
      destruct (IH x) as (m & Hm & Hin & Hle); [constructor; [reflexivity | assumption]|].
      exists m. split; [assumption|]. split.
      * destruct Hin as [Hin | Hin]; [now left | right; now right].
      * intros q [Hq | [Hq | Hq]].
        -- apply Hle. now left.
        -- injection Hq as <-. specialize (Hle x (or_introl eq_refl)). lra.
        -- apply Hle. now right.
Qed.

Lemma all_finite_no_nan (l : list float) : all_finite l -> existsb fisnan l = false.
Proof.
  induction 1 as [|x l Hx _ IH]; [reflexivity|].
  simpl. destruct x; try discriminate. exact IH.
Qed.

Lemma all_finite_dropna (l : list float) : all_finite l -> dropna l = l.
Proof.
  induction 1 as [|x l Hx _ IH]; [reflexivity|].
  unfold dropna in *. simpl. destruct x; try discriminate. simpl. now rewrite IH.
Qed.

Lemma ndarray_min_finite (l : list float) :
  l <> [] -> all_finite l ->
  exists m, ndarray_min l = Ok (Fin m) /\ forall q, In (Fin q) l -> (m <= q)%Q.
Proof.
  intros Hne Hfin. destruct l as [|x r]; [congruence|].
  unfold ndarray_min. rewrite (all_finite_no_nan _ Hfin).
  pose proof Hfin as Hfin'. inversion Hfin as [|? ? Hx Hr]; subst.
  destruct x as [x| | |]; try discriminate.
  destruct (fold_fmin2_finite r x Hfin') as (mn & Emn & _ & Hmn).
  exists mn. rewrite Emn. auto.
Qed.

Lemma ndarray_max_finite (l : list float) :
  l <> [] -> all_finite l ->
  exists m, ndarray_max l = Ok (Fin m) /\ forall q, In (Fin q) l -> (q <= m)%Q.
Proof.
  intros Hne Hfin. destruct l as [|x r]; [congruence|].
  unfold ndarray_max. rewrite (all_finite_no_nan _ Hfin).
  pose proof Hfin as Hfin'. inversion Hfin as [|? ? Hx Hr]; subst.
  destruct x as [x| | |]; try discriminate.
  destruct (fold_fmax2_finite r x Hfin') as (mx & Emx & _ & Hmx).
  exists mx. rewrite Emx. auto.
Qed.

(** Scaling a non-empty finite score array succeeds and lands in [0,1]. *)
Lemma normalize_scores_unit (scores : list float) :
  scores <> [] -> all_finite scores ->
  exists out, Detect.normalize_scores scores = Ok out /\
              length out = length scores /\
              all_in_unit_interval out.
Proof.
  intros Hne Hfin. unfold Detect.normalize_scores.
  destruct (ndarray_min_finite scores Hne Hfin) as (mn & Emn & Hmn).
  destruct (ndarray_max_finite scores Hne Hfin) as (mx & Emx & Hmx).
  rewrite Emn, Emx. unfold mbind, result_bind, fgtb.
  change (fltb (Fin mn) (Fin mx)) with (Qltb mn mx).
  destruct (Qltb mn mx) eqn:E.
  - apply Qltb_lt in E. eexists. split; [reflexivity|].
    split; [apply length_map|].
    unfold all_in_unit_interval. apply List.Forall_forall.
    intros y Hy. apply in_map_iff in Hy. destruct Hy as (s & <- & Hs).
    assert (Hsf : fisfinite s = true)
      by (apply (proj1 (List.Forall_forall _ _) Hfin s Hs)).
    destruct s as [q| | |]; try discriminate.
    apply minmax_scale_unit; [now apply Hmn | now apply Hmx | assumption].
  - eexists. split; [reflexivity|]. split; [apply length_map|].
    unfold all_in_unit_interval. apply List.Forall_forall.
    intros y Hy. apply in_map_iff in Hy. destruct Hy as (s & <- & Hs).
    simpl. lra.
Qed.

(** ** The ensemble score *)

Lemma fsum_unit_bounds : forall row a,
  all_in_unit_interval row ->
  exists s, fold_left fadd row (Fin a) = Fin s /\
            (a <= s)%Q /\
            (s <= a + inject_Z (Z.of_nat (length row)))%Q.
Proof.
  induction row as [|x row IH]; intros a Hall.
  - exists a. simpl. split; [reflexivity|].
    change (inject_Z (Z.of_nat 0)) with 0%Q. lra.
  - inversion Hall as [|? ? Hx Hrow]; subst.
    destruct x as [q| | |]; simpl in Hx; try tauto.
    destruct (IH (a + q)%Q Hrow) as (s & Hs & H1 & H2).
    exists s. simpl fold_left. split; [exact Hs|].
    assert (E : inject_Z (Z.of_nat (length (Fin q :: row)))
                == inject_Z (Z.of_nat (length row)) + 1).
    { simpl length. rewrite Nat2Z.inj_succ. unfold Z.succ.
      rewrite inject_Z_plus. reflexivity. }
    rewrite E. lra.
Qed.

Lemma nanmean_unit (row : list float) :
  row <> [] -> all_in_unit_interval row -> in_unit_interval (nanmean row).
Proof.
  intros Hne Hall. unfold nanmean.
  assert (Hfin : all_finite row).
  { eapply List.Forall_impl; [|exact Hall]. apply in_unit_interval_finite. }
  rewrite (all_finite_dropna _ Hfin).
  destruct row as [|x r] eqn:E; [congruence|]. rewrite <- E in *.
  destruct (fsum_unit_bounds row 0%Q Hall) as (s & Hs & H1 & H2).
  unfold fsum, fzero. rewrite Hs. unfold float_of_Z.
  assert (Hk : (0 < inject_Z (Z.of_nat (length row)))%Q).
  { rewrite E. simpl length. rewrite Nat2Z.inj_succ.
    change 0%Q with (inject_Z 0). rewrite <- Zlt_Qlt. lia. }
  simpl. rewrite (Qsign_pos _ Hk). simpl. split.
  - apply Qle_shift_div_l; [assumption | lra].
  - apply Qle_shift_div_r; [assumption | lra].
Qed.

Lemma normalize_all_unit (n : nat) : forall score_cols,
  (0 < n)%nat ->
  Forall (fun c => length (snd c) = n /\ all_finite (snd c)) score_cols ->
  exists out, Detect.normalize_all score_cols = Ok out /\
              length out = length score_cols /\
              Forall (fun c => length c = n /\ all_in_unit_interval c) out.
Proof.
  induction score_cols as [|c cs IH]; intros Hn Hall.
  - exists []. simpl. auto.
  - inversion Hall as [|? ? [Hlen Hfin] Hcs]; subst.
    assert (Hne : snd c <> []) by (destruct (snd c); simpl in *; [lia | discriminate]).
    destruct (normalize_scores_unit (snd c) Hne Hfin) as (o & Ho & Hol & Hou).
    destruct (IH Hn Hcs) as (os & Hos & Hosl & Hosu).
    exists (o :: os). simpl. rewrite Ho. unfold mbind, result_bind.
    fold (Detect.normalize_all cs). rewrite Hos.
    split; [reflexivity|]. split; [simpl; lia|].
    constructor; [split; [lia | assumption] | assumption].
Qed.

Lemma row_at_unit (n i : nat) (cols : list (list float)) :
  (i < n)%nat ->
  Forall (fun c => length c = n /\ all_in_unit_interval c) cols ->
  all_in_unit_interval (row_at cols i).
Proof.
  intros Hi Hall. unfold row_at, all_in_unit_interval.
  apply List.Forall_forall. intros x Hx.
  apply in_map_iff in Hx. destruct Hx as (c & <- & Hc).
  destruct (proj1 (List.Forall_forall _ _) Hall c Hc) as [Hlen Hu].
  apply (proj1 (List.Forall_forall _ _) Hu). apply nth_In. lia.
Qed.

(** On a non-empty table with at least one score column, all of them
    finite, the ensemble score is computed and lies in [0,1]. *)
Lemma ensemble_score_unit (results : NumFrame) :
  (0 < index results)%nat ->
  Detect.cols_with_suffix "_score" results <> [] ->
  Forall (fun c => length (snd c) = index results /\ all_finite (snd c))
         (Detect.cols_with_suffix "_score" results) ->
  exists s, Detect._ensemble_score results = Ok s /\
            length s = index results /\
            all_in_unit_interval s.
Proof.
  intros Hn Hne Hall. unfold Detect._ensemble_score.
  destruct (Detect.cols_with_suffix "_score" results) as [|c cs] eqn:E; [congruence|].
  destruct (normalize_all_unit (index results) (c :: cs) Hn Hall)
    as (out & Hout & Hlen & Hu).
  rewrite Hout. unfold mbind, result_bind.
  eexists. split; [reflexivity|]. split.
  - rewrite length_map. apply rows_of_length.
  - unfold all_in_unit_interval, rows_of. rewrite List.map_map.
    apply List.Forall_forall. intros x Hx.
    apply in_map_iff in Hx. destruct Hx as (i & <- & Hi).
    apply in_seq in Hi.
    apply nanmean_unit.
    + intros Hnil. apply (f_equal (@length float)) in Hnil.
      rewrite row_at_length, Hlen in Hnil. discriminate Hnil.
    + apply row_at_unit with (n := index results); [lia | assumption].
Qed.

Lemma ensemble_score_none (results : NumFrame) :
  Detect.cols_with_suffix "_score" results = [] ->
  Detect._ensemble_score results = Ok (repeat fzero (index results)).
Proof. intros H. unfold Detect._ensemble_score. now rewrite H. Qed.

(** ** Column names *)
Lemma string_append_cons (x : ascii) (a b : string) :
  String x a +:+ b = String x (a +:+ b).
Proof. reflexivity. Qed.
Lemma string_append_assoc (a b c : string) : (a +:+ b) +:+ c = a +:+ (b +:+ c).
Proof.
  induction a as [|x a IH]; [reflexivity|].
  rewrite !string_append_cons. now rewrite IH.
Qed.
Lemma string_append_nil_r (a : string) : a +:+ "" = a.
Proof.
  induction a as [|x a IH]; [reflexivity|].
  rewrite string_append_cons. now rewrite IH.
Qed.
Lemma rev_app_spec : forall b acc, String.rev_app b acc = String.rev b +:+ acc.
Proof.
  unfold String.rev. induction b as [|c b IH]; intros acc; [reflexivity|].
  cbn [String.rev_app].
  rewrite (IH (String c acc)). rewrite (IH (String c "")).
  rewrite string_append_assoc. reflexivity.
Qed.
Lemma rev_append (a b : string) :
  String.rev (a +:+ b) = String.rev b +:+ String.rev a.
Proof.
  induction a as [|c a IH].
  - change ("" +:+ b) with b. change (String.rev "") with "".
    now rewrite string_append_nil_r.
  - rewrite string_append_cons. unfold String.rev at 1 3.
    cbn [String.rev_app]. rewrite !rev_app_spec. rewrite IH.
    rewrite string_append_assoc. reflexivity.
Qed.
Lemma prefix_append (p x : string) : String.prefix p (p +:+ x) = true.
Proof.
  induction p as [|c p IH]; [destruct x; reflexivity|].
  rewrite string_append_cons. cbn [String.prefix].
  destruct (ascii_dec c c); [exact IH | congruence].
Qed.
Lemma endswith_append (s suffix : string) : endswith (s +:+ suffix) suffix = true.
Proof. unfold endswith. rewrite rev_append. apply prefix_append. Qed.
Lemma endswith_score_is_not_prediction (s : string) :
  endswith (s +:+ "_score") "_prediction" = false.
Proof. unfold endswith. rewrite rev_append. reflexivity. Qed.
Lemma endswith_prediction_is_not_score (s : string) :
  endswith (s +:+ "_prediction") "_score" = false.
Proof. unfold endswith. rewrite rev_append. reflexivity. Qed.

Lemma string_length_append (a b : string) :
  String.length (a +:+ b) = (String.length a + String.length b)%nat.
Proof.
  induction a as [|c a IH]; [reflexivity|].
  rewrite string_append_cons. simpl. now rewrite IH.
Qed.

Lemma string_append_inj_r (s : string) : forall a b, a +:+ s = b +:+ s -> a = b.
Proof.
  induction a as [|x a IH]; intros [|y b] H.
  - reflexivity.
  - apply (f_equal String.length) in H.
    rewrite !string_length_append in H. simpl in H. lia.
  - apply (f_equal String.length) in H.
    rewrite !string_length_append in H. simpl in H. lia.
  - rewrite !string_append_cons in H. injection H as -> H. f_equal. now apply IH.
Qed.

Lemma prediction_is_not_score (a b : string) :
  a +:+ "_prediction" <> b +:+ "_score".
Proof.
  intros H. pose proof (endswith_append a "_prediction") as E.
  rewrite H, endswith_score_is_not_prediction in E. discriminate E.
Qed.

(** ** Writing columns *)

Lemma assoc_get_set_eq {A} name (v : A) cols :
  assoc_get name (assoc_set name v cols) = Some v.
Proof.
  induction cols as [|[k w] cols IH]; simpl.
  - now rewrite String.eqb_refl.
  - destruct (String.eqb k name) eqn:E; simpl; rewrite E; [reflexivity | exact IH].
Qed.

Lemma assoc_get_set_ne {A} name name' (v : A) cols :
  name <> name' ->
  assoc_get name' (assoc_set name v cols) = assoc_get name' cols.
Proof.
  intros Hne. induction cols as [|[k w] cols IH]; simpl.
  - apply String.eqb_neq in Hne. now rewrite Hne.
  - destruct (String.eqb k name) eqn:E; simpl.
    + apply String.eqb_eq in E. subst k.
      apply String.eqb_neq in Hne. now rewrite Hne.
    + destruct (String.eqb k name'); [reflexivity | exact IH].
Qed.

Lemma assoc_get_In {A} name (cols : list (string * A)) :
  In name (List.map fst cols) <-> exists v, assoc_get name cols = Some v.
Proof.
  induction cols as [|[k w] cols IH]; simpl.
  - split; [tauto | intros [v H]; discriminate].
  - destruct (String.eqb k name) eqn:E.
    + apply String.eqb_eq in E. split; [eauto | auto].
    + apply String.eqb_neq in E. rewrite IH. split; [|tauto].
      intros [H | H]; [congruence | exact H].
Qed.

Lemma assoc_set_names {A} name (v : A) cols n :
  In n (List.map fst (assoc_set name v cols)) <->
  n = name \/ In n (List.map fst cols).
Proof.
  induction cols as [|[k w] cols IH]; simpl.
  - intuition.
  - destruct (String.eqb k name) eqn:E; simpl.
    + apply String.eqb_eq in E. subst k. intuition.
    + rewrite IH. intuition.
Qed.

Lemma assoc_set_values {A} (P : A -> Prop) name (v : A) cols :
  P v -> Forall (fun c => P (snd c)) cols ->
  Forall (fun c => P (snd c)) (assoc_set name v cols).
Proof.
  intros Hv. induction 1 as [|[k w] cols Hw Hcols IH]; simpl.
  - constructor; [exact Hv | constructor].
  - destruct (String.eqb k name); constructor; auto.
Qed.

Lemma assoc_set_filter_out {A} (keep : string -> bool) name (v : A) cols :
  keep name = false ->
  List.filter (fun c => keep (fst c)) (assoc_set name v cols)
  = List.filter (fun c => keep (fst c)) cols.
Proof.
  intros Hk. induction cols as [|[k w] cols IH]; simpl.
  - now rewrite Hk.
  - destruct (String.eqb k name) eqn:E; simpl.
    + apply String.eqb_eq in E. subst k. now rewrite Hk.
    + destruct (keep k); [f_equal|]; exact IH.
Qed.

Lemma set_num_column_put (results : NumFrame) name v :
  length v = index results ->
  Detect.set_num_column results name v = Ok (put results (name, v)).
Proof.
  intros H. unfold Detect.set_num_column, set_column.
  apply Nat.eqb_eq in H. now rewrite H.
Qed.

Lemma set_num_column_raise (results : NumFrame) name v :
  length v <> index results ->
  exists e, Detect.set_num_column results name v = Raise e.
Proof.
  intros H. unfold Detect.set_num_column, set_column.
  apply Nat.eqb_neq in H. rewrite H. eauto.
Qed.

(** ** The detector loop *)

Lemma put_index {A} (f : Frame A) c : index (put f c) = index f.
Proof. reflexivity. Qed.

Lemma fold_put_index {A} (cs : list (string * A)) : forall f,
  index (fold_left put cs f) = index f.
Proof. induction cs as [|c cs IH]; intros f; simpl; [reflexivity | now rewrite IH]. Qed.

Lemma fold_put_names {A} (cs : list (string * A)) : forall f name,
  In name (column_names (fold_left put cs f)) <->
  In name (column_names f) \/ In name (List.map fst cs).
Proof.
  induction cs as [|c cs IH]; intros f name; simpl.
  - tauto.
  - rewrite IH. unfold column_names, put at 1. simpl columns.
    rewrite assoc_set_names. intuition.
Qed.

Lemma fold_put_values {A} (P : A -> Prop) (cs : list (string * A)) : forall f,
  Forall (fun c => P (snd c)) (columns f) ->
  Forall (fun c => P (snd c)) cs ->
  Forall (fun c => P (snd c)) (columns (fold_left put cs f)).
Proof.
  induction cs as [|c cs IH]; intros f Hf Hcs; simpl; [exact Hf|].
  inversion Hcs as [|? ? Hc Hcs']; subst.
  apply IH; [|assumption]. unfold put. simpl. now apply assoc_set_values.
Qed.

(** One iteration of the loop writes exactly the contributed columns. *)
Lemma run_model_contributed (X : Matrix) (results : NumFrame) entry :
  Detect.run_model X results entry
  = fold_left put (contributed X (index results) entry) results.
Proof.
  destruct entry as [model_name model].
  unfold Detect.run_model, contributed, predicted. simpl fst. simpl snd.
  destruct (Detect.predict model X) as [p|e]; [|reflexivity].
  destruct (length p =? index results)%nat eqn:Ep.
  - apply Nat.eqb_eq in Ep.
    rewrite set_num_column_put by (rewrite length_map; exact Ep).
    unfold scored, scorer.
    assert (Hrec : forall r,
      Detect.record_scores (put results (model_name +:+ "_prediction",
                                         List.map float_of_Z p)) model_name r
      = fold_left put
          (match match r with
                 | Ok s => if (length s =? index results)%nat then Some s else None
                 | Raise _ => None
                 end with
           | Some s => [(model_name +:+ "_score", List.map Fin s)]
           | None => []
           end)
          (put results (model_name +:+ "_prediction", List.map float_of_Z p))).
    { intros [s|e]; simpl; [|reflexivity].
      destruct (length s =? index results)%nat eqn:Es.
      - apply Nat.eqb_eq in Es.
        rewrite set_num_column_put by (rewrite length_map; exact Es). reflexivity.
      - apply Nat.eqb_neq in Es.
        destruct (set_num_column_raise
                    (put results (model_name +:+ "_prediction", List.map float_of_Z p))
                    (model_name +:+ "_score") (List.map Fin s)) as [e He].
        { rewrite length_map. exact Es. }
        rewrite He. reflexivity. }
    destruct (Detect.score_samples model) as [f|];
      [simpl; apply Hrec|].
    destruct (Detect.decision_function model) as [g|];
      [simpl; apply Hrec | reflexivity].
  - apply Nat.eqb_neq in Ep.
    destruct (set_num_column_raise results (model_name +:+ "_prediction")
                (List.map float_of_Z p)) as [e He].
    { rewrite length_map. exact Ep. }
    rewrite He. reflexivity.
Qed.

Lemma run_models_fold (X : Matrix) (ms : list (string * Detect.Detector)) :
  forall results,
  fold_left (Detect.run_model X) ms results
  = fold_left put (flat_map (contributed X (index results)) ms) results.
Proof.
  induction ms as [|m ms IH]; intros results; simpl; [reflexivity|].
  rewrite fold_left_app, <- run_model_contributed, IH.
  rewrite run_model_contributed, fold_put_index. reflexivity.
Qed.

(** The table after the loop holds exactly the contributed columns. *)
Lemma run_models_contributed (self : Detect.AnomalyDetector) (features : DataFrame) :
  Detect.run_models self features
  = fold_left put
      (flat_map (contributed (values features) (index features)) (Detect.models self))
      (mkFrame (index features) []).
Proof. unfold Detect.run_models. now rewrite run_models_fold. Qed.

Lemma run_models_index self features :
  index (Detect.run_models self features) = index features.
Proof. rewrite run_models_contributed, fold_put_index. reflexivity. Qed.

Lemma contributed_values X n entry :
  Forall (fun c => length (snd c) = n /\ all_finite (snd c)) (contributed X n entry).
Proof.
  unfold contributed, predicted, scored.
  destruct (Detect.predict (snd entry) X) as [p|e]; [|constructor].
  destruct (length p =? n)%nat eqn:Ep; [|constructor].
  apply Nat.eqb_eq in Ep.
  assert (Hfin : forall (A : Type) (f : A -> float) (l : list A),
             (forall a, fisfinite (f a) = true) -> all_finite (List.map f l)).
  { intros A f l Hf. unfold all_finite. apply List.Forall_forall.
    intros x Hx. apply in_map_iff in Hx. destruct Hx as (a & <- & _). apply Hf. }
  constructor.
  - simpl. rewrite length_map. split; [exact Ep|]. apply Hfin. reflexivity.
  - destruct (scorer (snd entry)) as [f|]; [|constructor].
    destruct (f X) as [s|e]; [|constructor].
    destruct (length s =? n)%nat eqn:Es; [|constructor].
    apply Nat.eqb_eq in Es. constructor; [|constructor].
    simpl. rewrite length_map. split; [exact Es|]. apply Hfin. reflexivity.
Qed.

(** Every column written by the loop has one finite cell per sample. *)
Lemma run_models_values self features :
  Forall (fun c => length (snd c) = index features /\ all_finite (snd c))
         (columns (Detect.run_models self features)).
Proof.
  rewrite run_models_contributed.
  apply (fold_put_values (fun v => length v = index features /\ all_finite v)).
  - constructor.
  - apply List.Forall_forall. intros c Hc. apply in_flat_map in Hc.
    destruct Hc as (entry & _ & Hc).
    exact (proj1 (List.Forall_forall _ _) (contributed_values _ _ entry) c Hc).
Qed.

Lemma run_models_wf self features : wf_num_frame (Detect.run_models self features).
Proof.
  unfold wf_num_frame, wf_frame. rewrite run_models_index.
  eapply List.Forall_impl; [|apply run_models_values]. simpl. tauto.
Qed.

(** A column is in the table after the loop exactly when some registry
    entry contributed it. *)
Lemma run_models_names self features name :
  In name (column_names (Detect.run_models self features)) <->
  exists entry, In entry (Detect.models self) /\
                In name (List.map fst (contributed (values features)
                                         (index features) entry)).
Proof.
  rewrite run_models_contributed, fold_put_names. simpl.
  split.
  - intros [[] | H]. apply in_map_iff in H. destruct H as (c & <- & Hc).
    apply in_flat_map in Hc. destruct Hc as (entry & He & Hc).
    exists entry. split; [assumption|]. now apply in_map.
  - intros (entry & He & Hc). right.
    apply in_map_iff in Hc. destruct Hc as (c & <- & Hc).
    apply in_map. apply in_flat_map. eauto.
Qed.

(** ** The ensemble step and [detect] *)

Lemma weighted_fold_length (w : gmap string Q) : forall cs acc tw,
  Forall (fun c => length (snd c) = length acc) cs ->
  length (fst (fold_left (Detect.weighted_step w) cs (acc, tw))) = length acc.
Proof.
  induction cs as [|c cs IH]; intros acc tw Hlen; simpl; [reflexivity|].
  inversion Hlen as [|? ? Hc Hcs]; subst.
  set (acc' := List.map (fun p => fadd (fst p)
                 (fmul (snd p) (Fin (Detect.weight_of w (fst c)))))
                 (combine acc (snd c))).
  assert (Hlen' : length acc' = length acc).
  { unfold acc'. rewrite length_map, length_combine. lia. }
  unfold Detect.weighted_step at 2. simpl. fold acc'.
  rewrite IH; [exact Hlen' | now rewrite Hlen'].
Qed.

Lemma weighted_vote_length (w : gmap string Q) n cs :
  Forall (fun c => length (snd c) = n) cs ->
  length (Detect.weighted_vote w n cs) = n.
Proof.
  intros H. unfold Detect.weighted_vote.
  pose proof (weighted_fold_length w cs (repeat fzero n) 0%Q) as Hl.
  rewrite repeat_length in Hl. specialize (Hl H).
  destruct (fold_left (Detect.weighted_step w) cs (repeat fzero n, 0%Q)) as [ws tw].
  simpl in Hl. now rewrite !length_map.
Qed.

(** On a non-empty table of finite columns the ensemble prediction is
    always computed, one label per sample. *)
Lemma ensemble_predict_returns cfg (results : NumFrame) :
  (0 < index results)%nat ->
  Forall (fun c => length (snd c) = index results /\ all_finite (snd c))
         (columns results) ->
  exists p, Detect._ensemble_predict cfg results = Ok p /\
            length p = index results.
Proof.
  intros Hn Hall.
  assert (Hpc : Forall (fun c => length (snd c) = index results /\ all_finite (snd c))
                       (Detect.cols_with_suffix "_prediction" results)).
  { unfold Detect.cols_with_suffix. rewrite List.Forall_forall in *.
    intros c Hc. apply filter_In in Hc. apply Hall. tauto. }
  unfold Detect._ensemble_predict.
  destruct (Detect.cols_with_suffix "_prediction" results) as [|c cs] eqn:E.
  { eexists. split; [reflexivity | apply repeat_length]. }
  assert (Hvote : exists p, Detect.majority_vote (index results) (c :: cs) = Ok p /\
                            length p = index results).
  { unfold Detect.majority_vote.
    destruct (mode_first_lookup (index results) (List.map snd (c :: cs)) 0 Hn)
      as (votes & Hv & Hl & _).
    - inversion Hpc as [|? ? [Hlen Hfin] _]; subst.
      simpl. destruct (snd c) as [|x r] eqn:Ec; [simpl in Hlen; lia|].
      inversion Hfin as [|? ? Hx _]; subst.
      unfold dropna. simpl. destruct x; discriminate.
    - eauto. }
  destruct (String.eqb (Detect.method cfg) "voting"); [exact Hvote|].
  destruct (String.eqb (Detect.method cfg) "weighted"); [|exact Hvote].
  eexists. split; [reflexivity|]. apply weighted_vote_length.
  eapply List.Forall_impl; [|exact Hpc]. simpl. tauto.
Qed.

Lemma score_cols_after_prediction (results : NumFrame) p :
  Detect.cols_with_suffix "_score" (put results ("ensemble_prediction", p))
  = Detect.cols_with_suffix "_score" results.
Proof.
  unfold Detect.cols_with_suffix, put. simpl columns.
  apply (assoc_set_filter_out (fun name => endswith name "_score")).
  reflexivity.
Qed.

(** The shape of the verdict table when the ensemble step runs. *)
Lemma detect_enabled self features p s :
  Detect.enabled (Detect.ensemble_config self) = true ->
  Detect._ensemble_predict (Detect.ensemble_config self)
                           (Detect.run_models self features) = Ok p ->
  length p = index features ->
  Detect._ensemble_score (put (Detect.run_models self features)
                              ("ensemble_prediction", p)) = Ok s ->
  length s = index features ->
  Detect.detect self features
  = Ok (Detect.with_is_anomaly
          (put (put (Detect.run_models self features) ("ensemble_prediction", p))
               ("ensemble_score", s))
          (List.map (fun v => feqb v (float_of_Z (-1))) p)).
Proof.
  intros Hen Hp Hlp Hs Hls. unfold Detect.detect, Detect.ensemble_step.
  rewrite Hen, Hp. unfold mbind, result_bind.
  rewrite set_num_column_put by (rewrite run_models_index; exact Hlp).
  rewrite Hs.
  rewrite set_num_column_put by (rewrite put_index, run_models_index; exact Hls).
  unfold get_column, put. simpl columns.
  rewrite assoc_get_set_ne by discriminate.
  rewrite assoc_get_set_eq. reflexivity.
Qed.

Lemma with_is_anomaly_lookup (results : NumFrame) flags name :
  name <> "is_anomaly" ->
  assoc_get name (columns (Detect.with_is_anomaly results flags))
  = option_map NumS (assoc_get name (columns results)).
Proof.
  intros Hne. unfold Detect.with_is_anomaly. simpl columns.
  rewrite assoc_get_set_ne by congruence.
  induction (columns results) as [|[k v] cols IH]; simpl; [reflexivity|].
  destruct (String.eqb k name); [reflexivity | exact IH].
Qed.

Lemma with_is_anomaly_flags (results : NumFrame) flags :
  assoc_get "is_anomaly" (columns (Detect.with_is_anomaly results flags))
  = Some (BoolS flags).
Proof. unfold Detect.with_is_anomaly. simpl columns. apply assoc_get_set_eq. Qed.

Lemma with_is_anomaly_names (results : NumFrame) flags name :
  In name (column_names (Detect.with_is_anomaly results flags)) <->
  name = "is_anomaly" \/ In name (column_names results).
Proof.
  unfold column_names, Detect.with_is_anomaly. simpl columns.
  rewrite assoc_set_names, List.map_map. simpl. reflexivity.
Qed.

(** With the ensemble step enabled, [detect] on a non-empty feature
    matrix always returns a verdict table. *)
Lemma detect_returns self features :
  Detect.enabled (Detect.ensemble_config self) = true ->
  (0 < index features)%nat ->
  exists p s,
    Detect._ensemble_predict (Detect.ensemble_config self)
                             (Detect.run_models self features) = Ok p /\
    length p = index features /\
    Detect._ensemble_score (put (Detect.run_models self features)
                                ("ensemble_prediction", p)) = Ok s /\
    length s = index features /\
    (Detect.cols_with_suffix "_score" (Detect.run_models self features) <> [] ->
     all_in_unit_interval s) /\
    Detect.detect self features
    = Ok (Detect.with_is_anomaly
            (put (put (Detect.run_models self features) ("ensemble_prediction", p))
                 ("ensemble_score", s))
            (List.map (fun v => feqb v (float_of_Z (-1))) p)).
Proof.
  intros Hen Hn.
  pose proof (run_models_values self features) as Hvals.
  pose proof (run_models_index self features) as Hidx.
  destruct (ensemble_predict_returns (Detect.ensemble_config self)
              (Detect.run_models self features)) as (p & Hp & Hlp).
  { now rewrite Hidx. }
  { now rewrite Hidx. }
  rewrite Hidx in Hlp.
  set (results1 := put (Detect.run_models self features) ("ensemble_prediction", p)).
  assert (Hsc : Forall (fun c => length (snd c) = index results1 /\ all_finite (snd c))
                       (Detect.cols_with_suffix "_score" results1)).
  { unfold results1. rewrite score_cols_after_prediction, put_index, Hidx.
    unfold Detect.cols_with_suffix. rewrite List.Forall_forall in *.
    intros c Hc. apply filter_In in Hc. apply Hvals. tauto. }
  assert (Hs : exists s, Detect._ensemble_score results1 = Ok s /\
                         length s = index features /\
                         (Detect.cols_with_suffix "_score"
                            (Detect.run_models self features) <> [] ->
                          all_in_unit_interval s)).
  { destruct (Detect.cols_with_suffix "_score" results1) as [|c cs] eqn:E.
    - exists (repeat fzero (index results1)). split; [now apply ensemble_score_none|].
      split; [rewrite repeat_length; unfold results1; now rewrite put_index|].
      unfold results1 in E. rewrite score_cols_after_prediction in E.
      intros Hne. congruence.
    - destruct (ensemble_score_unit results1) as (s & Hs & Hl & Hu).
      + unfold results1. rewrite put_index, Hidx. exact Hn.
      + rewrite E. discriminate.
      + rewrite E. exact Hsc.
      + exists s. split; [exact Hs|]. split; [|intros _; exact Hu].
        rewrite Hl. unfold results1. now rewrite put_index. }
  destruct Hs as (s & Hs & Hls & Hu).
  exists p, s. repeat (split; [assumption|]).
  now apply detect_enabled.
Qed.





(** ** Which detector columns reach the verdict table *)

Lemma contributed_names X n entry name :
  In name (List.map fst (contributed X n entry)) <->
  (name = fst entry +:+ "_prediction" /\ predicted X n (snd entry) <> None) \/
  (name = fst entry +:+ "_score" /\ predicted X n (snd entry) <> None /\
   scored X n (snd entry) <> None).
Proof.
  unfold contributed.
  destruct (predicted X n (snd entry)) as [p|];
    [|simpl; split; [tauto | intros [[_ H] | [_ [H _]]]; congruence]].
  destruct (scored X n (snd entry)) as [s|]; simpl.
  - split.
    + intros [<- | [<- | []]]; [left | right]; repeat split; congruence.
    + intros [[-> _] | [-> _]]; auto.
  - split.
    + intros [<- | []]. left. split; congruence.
    + intros [[-> _] | [_ [_ H]]]; [auto | congruence].
Qed.

Lemma prediction_column_present self features model_name :
  In (model_name +:+ "_prediction") (column_names (Detect.run_models self features)) <->
  exists d, In (model_name, d) (Detect.models self) /\
            predicted (values features) (index features) d <> None.
Proof.
  rewrite run_models_names. split.
  - intros ([m d] & Hin & Hc). apply contributed_names in Hc. simpl in Hc.
    destruct Hc as [[E Hp] | [E _]].
    + apply string_append_inj_r in E. subst m. eauto.
    + exfalso. exact (prediction_is_not_score _ _ E).
  - intros (d & Hin & Hp). exists (model_name, d). split; [exact Hin|].
    apply contributed_names. left. simpl. auto.
Qed.

Lemma score_column_present self features model_name :
  In (model_name +:+ "_score") (column_names (Detect.run_models self features)) <->
  exists d, In (model_name, d) (Detect.models self) /\
            predicted (values features) (index features) d <> None /\
            scored (values features) (index features) d <> None.
Proof.
  rewrite run_models_names. split.
  - intros ([m d] & Hin & Hc). apply contributed_names in Hc. simpl in Hc.
    destruct Hc as [[E _] | [E Hp]].
    + exfalso. symmetry in E. exact (prediction_is_not_score _ _ E).
    + apply string_append_inj_r in E. subst m. eauto.
  - intros (d & Hin & Hp). exists (model_name, d). split; [exact Hin|].
    apply contributed_names. right. simpl. tauto.
Qed.

Lemma NoDup_keys_functional {A} (l : list (string * A)) k v1 v2 :
  NoDup (List.map fst l) -> In (k, v1) l -> In (k, v2) l -> v1 = v2.
Proof.
  induction l as [|[k' v'] l IH]; simpl; intros Hnd H1 H2; [tauto|].
  inversion Hnd as [|? ? Hk Hnd']; subst.
  destruct H1 as [E1 | H1], H2 as [E2 | H2].
  - congruence.
  - injection E1 as -> ->. exfalso. apply Hk.
    apply list_elem_of_In, List.in_map_iff. exists (k, v2). auto.
  - injection E2 as -> ->. exfalso. apply Hk.
    apply list_elem_of_In, List.in_map_iff. exists (k, v1). auto.
  - now apply IH.
Qed.

Lemma predicted_raise X n d e :
  Detect.predict d X = Raise e -> predicted X n d = None.
Proof. intros H. unfold predicted. now rewrite H. Qed.

Lemma predicted_ok X d p :
  Detect.predict d X = Ok p -> predicted X (length p) d = Some p.
Proof. intros H. unfold predicted. now rewrite H, Nat.eqb_refl. Qed.

Lemma scored_raise X n d f e :
  scorer d = Some f -> f X = Raise e -> scored X n d = None.
Proof. intros Hf H. unfold scored. now rewrite Hf, H. Qed.

(** The columns of a verdict table: those written by the detector loop
    and the three ensemble columns. *)
Lemma verdict_names (results : NumFrame) p s flags name :
  In name (column_names
             (Detect.with_is_anomaly
                (put (put results ("ensemble_prediction", p)) ("ensemble_score", s))
                flags)) <->
  name = "is_anomaly" \/ name = "ensemble_score" \/
  name = "ensemble_prediction" \/ In name (column_names results).
Proof.
  rewrite with_is_anomaly_names. unfold column_names, put. simpl columns.
  rewrite !assoc_set_names. reflexivity.
Qed.

Lemma detector_column_not_reserved model_name suffix :
  (suffix = "_prediction" \/ suffix = "_score") ->
  model_name <> "ensemble" ->
  model_name +:+ suffix <> "is_anomaly" /\
  model_name +:+ suffix <> "ensemble_score" /\
  model_name +:+ suffix <> "ensemble_prediction".
Proof.
  intros Hs Hne.
  assert (Hend : endswith (model_name +:+ suffix) suffix = true)
    by apply endswith_append.
  destruct Hs as [-> | ->]; repeat split; intros E.
  - rewrite E in Hend. discriminate Hend.
  - rewrite E in Hend. discriminate Hend.
  - apply Hne. apply (string_append_inj_r "_prediction"). exact E.
  - rewrite E in Hend. discriminate Hend.
  - apply Hne. apply (string_append_inj_r "_score"). exact E.
  - rewrite E in Hend. discriminate Hend.
Qed.

Lemma flat_map_filter_nil {A B} (f : A -> list B) (keep : A -> bool) (l : list A) :
  (forall x, In x l -> keep x = false -> f x = []) ->
  flat_map f (List.filter keep l) = flat_map f l.
Proof.
  induction l as [|x l IH]; intros H; simpl; [reflexivity|].
  destruct (keep x) eqn:E; simpl.
  - f_equal. apply IH. intros y Hy. apply H. now right.
  - rewrite (H x (or_introl eq_refl) E). simpl.
    apply IH. intros y Hy. apply H. now right.
Qed.

(** A detector that contributes nothing can be removed from the registry
    without changing the verdict. *)
Lemma detect_unregister self features model_name model :
  NoDup (List.map fst (Detect.models self)) ->
  In (model_name, model) (Detect.models self) ->
  predicted (values features) (index features) model = None ->
  Detect.detect (unregister model_name self) features = Detect.detect self features.
Proof.
  intros Hnd Hin Hp.
  assert (Hrun : Detect.run_models (unregister model_name self) features
                 = Detect.run_models self features).
  { rewrite !run_models_contributed. unfold unregister. simpl Detect.models.
    rewrite flat_map_filter_nil; [reflexivity|].
    intros [m d] Hm Hk. simpl in Hk.
    apply negb_false_iff, String.eqb_eq in Hk. subst m.
    rewrite (NoDup_keys_functional _ _ _ _ Hnd Hm Hin).
    unfold contributed. simpl. now rewrite Hp. }
  unfold Detect.detect. rewrite Hrun. reflexivity.
Qed.

Lemma verdict_wf (results : NumFrame) p s flags :
  wf_num_frame results ->
  length p = index results -> length s = index results ->
  length flags = index results ->
  wf_frame series_len
    (Detect.with_is_anomaly
       (put (put results ("ensemble_prediction", p)) ("ensemble_score", s)) flags).
Proof.
  intros Hwf Hp Hs Hf. unfold wf_frame, Detect.with_is_anomaly. simpl index.
  apply (assoc_set_values (fun v => series_len v = index results)); [exact Hf|].
  apply List.Forall_forall. intros c Hc. apply in_map_iff in Hc.
  destruct Hc as (c' & <- & Hc'). simpl.
  assert (H : Forall (fun c => length (snd c) = index results)
                (columns (put (put results ("ensemble_prediction", p))
                              ("ensemble_score", s)))).
  { unfold put. simpl columns.
    apply (assoc_set_values (fun v => length v = index results)); [exact Hs|].
    apply (assoc_set_values (fun v => length v = index results)); [exact Hp|].
    exact Hwf. }
  exact (proj1 (List.Forall_forall _ _) H c' Hc').
Qed.

(** C5, as the code has it. With the ensemble step enabled and a
    non-empty input, [detect] returns a verdict row for every sample
    whatever a detector does.  A detector (not registered under the
    reserved name "ensemble") whose [predict] raises leaves no column and
    the verdict is the one computed without it; a detector whose
    [predict] succeeds and whose scoring raises keeps its prediction
    column and only lacks its score column. *)
Theorem detector_isolation self features model_name model :
  NoDup (List.map fst (Detect.models self)) ->
  In (model_name, model) (Detect.models self) ->
  Detect.enabled (Detect.ensemble_config self) = true ->
  (0 < index features)%nat ->
  model_name <> "ensemble" ->
  exists out,
    Detect.detect self features = Ok out /\
    index out = index features /\
    wf_frame series_len out /\
    (forall e, Detect.predict model (values features) = Raise e ->
       ~ In (model_name +:+ "_prediction") (column_names out) /\
       ~ In (model_name +:+ "_score") (column_names out) /\
       Detect.detect (unregister model_name self) features = Ok out) /\
    (forall p f e,
       Detect.predict model (values features) = Ok p ->
       length p = index features ->
       scorer model = Some f -> f (values features) = Raise e ->
       In (model_name +:+ "_prediction") (column_names out) /\
       ~ In (model_name +:+ "_score") (column_names out)).
Proof.
  intros Hnd Hin Hen Hn Hname.
  destruct (detect_returns self features Hen Hn)
    as (p & s & _ & Hlp & _ & Hls & _ & Hd).
  eexists. split; [exact Hd|]. split; [apply run_models_index|].
  split.
  { apply verdict_wf; rewrite ?run_models_index, ?length_map;
      auto using run_models_wf. }
  destruct (detector_column_not_reserved model_name "_prediction"
              (or_introl eq_refl) Hname) as (P1 & P2 & P3).
  destruct (detector_column_not_reserved model_name "_score"
              (or_intror eq_refl) Hname) as (S1 & S2 & S3).
  split.
  - intros e He.
    assert (Hp : predicted (values features) (index features) model = None)
      by (eapply predicted_raise; eassumption).
    split; [|split].
    + rewrite verdict_names, prediction_column_present.
      intros [E | [E | [E | (d & Hd' & Hp')]]]; try congruence.
      rewrite (NoDup_keys_functional _ _ _ _ Hnd Hd' Hin) in Hp'. congruence.
    + rewrite verdict_names, score_column_present.
      intros [E | [E | [E | (d & Hd' & Hp' & _)]]]; try congruence.
      rewrite (NoDup_keys_functional _ _ _ _ Hnd Hd' Hin) in Hp'. congruence.
    + rewrite (detect_unregister self features model_name model Hnd Hin Hp).
      exact Hd.
  - intros q f e Hq Hlq Hf Hfe. split.
    + rewrite verdict_names, prediction_column_present.
      right. right. right. exists model. split; [exact Hin|].
      rewrite <- Hlq, (predicted_ok _ _ _ Hq). discriminate.
    + rewrite verdict_names, score_column_present.
      intros [E | [E | [E | (d & Hd' & _ & Hs')]]]; try congruence.
      rewrite (NoDup_keys_functional _ _ _ _ Hnd Hd' Hin) in Hs'.
      apply Hs'. eapply scored_raise; eassumption.
Qed.

Lemma detector_isolation_witness :
  NoDup (List.map fst (Detect.models one_unfitted)) /\
  In ("lstm", unfitted_detector) (Detect.models one_unfitted) /\
  Detect.enabled (Detect.ensemble_config one_unfitted) = true /\
  (0 < index sample_features)%nat /\
  "lstm" <> "ensemble" /\
  exists out,
    Detect.detect one_unfitted sample_features = Ok out /\
    index out = index sample_features /\
    wf_frame series_len out /\
    (forall e, Detect.predict unfitted_detector (values sample_features) = Raise e ->
       ~ In ("lstm" +:+ "_prediction") (column_names out) /\
       ~ In ("lstm" +:+ "_score") (column_names out) /\
       Detect.detect (unregister "lstm" one_unfitted) sample_features = Ok out) /\
    (forall p f e,
       Detect.predict unfitted_detector (values sample_features) = Ok p ->
       length p = index sample_features ->
       scorer unfitted_detector = Some f -> f (values sample_features) = Raise e ->
       In ("lstm" +:+ "_prediction") (column_names out) /\
       ~ In ("lstm" +:+ "_score") (column_names out)).
Proof.
  assert (H1 : NoDup (List.map fst (Detect.models one_unfitted)))
    by (vm_compute; apply NoDup_ListNoDup; repeat constructor; simpl; intuition discriminate).
  assert (H2 : In ("lstm", unfitted_detector) (Detect.models one_unfitted))
    by (right; left; reflexivity).
  assert (H4 : (0 < index sample_features)%nat) by (vm_compute; lia).
  assert (H5 : "lstm" <> "ensemble") by discriminate.
  repeat (split; [first [assumption | reflexivity]|]).
  exact (detector_isolation one_unfitted sample_features "lstm" unfitted_detector
           H1 H2 eq_refl H4 H5).
Defined.

(** A detector whose scoring raises after its [predict] succeeded still
    has its prediction column in the verdict table, and its votes change
    the ensemble prediction. *)
Lemma scoring_failure_keeps_prediction_column :
  (exists f e, scorer unscorable_detector = Some f /\
               f (values sample_features) = Raise e) /\
  exists out,
    Detect.detect one_unscorable sample_features = Ok out /\
    In "autoencoder_prediction" (column_names out) /\
    Detect.detect (unregister "autoencoder" one_unscorable) sample_features <> Ok out.
Proof.
  split.
  - eexists. eexists. split; reflexivity.
  - eexists. split; [vm_compute; reflexivity|]. split.
    + vm_compute. tauto.
    + vm_compute. discriminate.
Qed.

(** C10, as the code has it. With [ensemble.enabled] set to False,
    [detect] raises the missing-column error on [ensemble_prediction] for
    every feature matrix, unless a detector registered under the name
    "ensemble" has written a column of that name itself; then [detect]
    returns. *)
Theorem detect_requires_ensemble_step self features :
  Detect.enabled (Detect.ensemble_config self) = false ->
  ((forall d, In ("ensemble", d) (Detect.models self) ->
              predicted (values features) (index features) d = None) ->
   Detect.detect self features = Raise (KeyError "ensemble_prediction")) /\
  ((exists d, In ("ensemble", d) (Detect.models self) /\
              predicted (values features) (index features) d <> None) ->
   exists out, Detect.detect self features = Ok out).
Proof.
  intros Hen.
  pose proof (prediction_column_present self features "ensemble") as Hcol.
  change ("ensemble" +:+ "_prediction") with "ensemble_prediction" in Hcol.
  unfold column_names in Hcol. rewrite assoc_get_In in Hcol.
  unfold Detect.detect, Detect.ensemble_step. rewrite Hen.
  unfold mbind, result_bind, get_column.
  split.
  - intros Hnone.
    destruct (assoc_get "ensemble_prediction"
                (columns (Detect.run_models self features))) as [v|] eqn:E;
      [|reflexivity].
    exfalso. destruct (proj1 Hcol (ex_intro _ v eq_refl)) as (d & Hd & Hp).
    apply Hp. now apply Hnone.
  - intros Hsome. destruct (proj2 Hcol Hsome) as [v Hv]. rewrite Hv. eauto.
Qed.

Lemma detect_requires_ensemble_step_witness :
  Detect.enabled (Detect.ensemble_config two_detectors_no_ensemble) = false /\
  ((forall d, In ("ensemble", d) (Detect.models two_detectors_no_ensemble) ->
              predicted (values sample_features) (index sample_features) d = None) ->
   Detect.detect two_detectors_no_ensemble sample_features
   = Raise (KeyError "ensemble_prediction")) /\
  ((exists d, In ("ensemble", d) (Detect.models two_detectors_no_ensemble) /\
              predicted (values sample_features) (index sample_features) d <> None) ->
   exists out, Detect.detect two_detectors_no_ensemble sample_features = Ok out).
Proof.
  split; [reflexivity|].
  exact (detect_requires_ensemble_step two_detectors_no_ensemble sample_features
           eq_refl).
Defined.

(** With the ensemble step disabled, a registry that holds a detector
    named "ensemble" makes [detect] return instead of raising. *)
Lemma detect_without_ensemble_step_can_return :
  Detect.enabled (Detect.ensemble_config detector_named_ensemble) = false /\
  exists out, Detect.detect detector_named_ensemble sample_features = Ok out.
Proof. split; [reflexivity|]. eexists. vm_compute. reflexivity. Qed.


(** C3 at a detector whose name contains "_prediction": the weight is
    looked up under the name with every occurrence of "_prediction"
    removed, so the configured weight 3 is not found and the default 1.0
    is used.  Sample 1 has votes -1 (weight 3) and +1 (weight 1): the
    weighted average of the specification is -1/2 (anomaly), the code
    computes 0 and answers +1 (normal). *)
Theorem weighted_vote_misreads_detector_name :
  configured_weight (Detect.weights weighted_config) "sequence_prediction" = 3%Q /\
  Detect.weight_of (Detect.weights weighted_config)
                   ("sequence_prediction" +:+ "_prediction") = 1%Q /\
  row_at (List.map snd
            (Detect.cols_with_suffix "_prediction"
               (Detect.run_models sequence_prediction_registry sample_features))) 1
  = [Fin (-1); Fin 1] /\
  sign_test (weighted_average [(-1)%Q; 1%Q] [3%Q; 1%Q]) = Fin (-1) /\
  exists out votes,
    Detect.detect sequence_prediction_registry sample_features = Ok out /\
    assoc_get "ensemble_prediction" (columns out) = Some (NumS votes) /\
    votes !! 1%nat = Some (Fin 1).
Proof.
  split; [reflexivity|]. split; [reflexivity|].
  split; [reflexivity|]. split; [reflexivity|].
  eexists. eexists. split; [vm_compute; reflexivity|].
  split; reflexivity.
Qed.

(** ** Sequence detector *)

Lemma firstn_repeat_le {A} (x : A) : forall k n,
  (k <= n)%nat -> firstn k (repeat x n) = repeat x k.
Proof.
  induction k as [|k IH]; intros [|n] H; simpl; try reflexivity; try lia.
  f_equal. apply IH. lia.
Qed.

Lemma create_sequences_lengths self X :
  length (fst (LSTM._create_sequences self X))
    = (length X - LSTM.sequence_length self)%nat /\
  length (snd (LSTM._create_sequences self X))
    = (length X - LSTM.sequence_length self)%nat.
Proof.
  unfold LSTM._create_sequences. simpl. rewrite !length_map, length_seq. auto.
Qed.

(** On an input longer than the window, a fitted detector returns one
    prediction per row: +1 on the first [k] rows, then the label of each
    prediction error against the frozen threshold. *)
Lemma lstm_predict_aligned self X net threshold :
  LSTM.model self = Some net ->
  LSTM.threshold_value self = Some threshold ->
  (LSTM.sequence_length self < length X)%nat ->
  exists scores,
    LSTM.score_samples self X = Ok scores /\
    length scores = (length X - LSTM.sequence_length self)%nat /\
    LSTM.predict self X
    = Ok (repeat 1%Z (LSTM.sequence_length self)
          ++ List.map (LSTM.label threshold) scores) /\
    length (repeat 1%Z (LSTM.sequence_length self)
            ++ List.map (LSTM.label threshold) scores) = length X.
Proof.
  intros Hnet Hthr Hk.
  destruct (create_sequences_lengths self X) as [H1 H2].
  unfold LSTM.predict, LSTM.score_samples.
  destruct (LSTM._create_sequences self X) as [X_seq y_seq]. simpl in H1, H2.
  destruct (length X_seq =? 0)%nat eqn:E; [apply Nat.eqb_eq in E; lia|].
  rewrite Hnet, Hthr. unfold mbind, result_bind.
  eexists. split; [reflexivity|].
  assert (Hlen : length (List.map (fun p => LSTM.mean_squared_error (snd p) (net (fst p)))
                           (combine X_seq y_seq))
                 = (length X - LSTM.sequence_length self)%nat).
  { rewrite length_map, length_combine. lia. }
  split; [exact Hlen|].
  unfold LSTM.assign_from. rewrite length_map, Hlen, repeat_length, Nat.eqb_refl.
  split.
  - f_equal. f_equal. apply firstn_repeat_le. lia.
  - rewrite length_app, repeat_length, length_map, Hlen. lia.
Qed.

(** On two or more rows that do not exceed the window, [predict] raises:
    [score_samples] hands back one zero per row and none of them fits the
    empty slice [predictions[k:]]. *)
Lemma lstm_predict_short_input self X threshold :
  LSTM.threshold_value self = Some threshold ->
  (2 <= length X)%nat -> (length X <= LSTM.sequence_length self)%nat ->
  LSTM.score_samples self X = Ok (repeat fzero (length X)) /\
  LSTM.predict self X = Raise (ValueError "could not broadcast input array").
Proof.
  intros Hthr H2 Hk.
  destruct (create_sequences_lengths self X) as [H1 _].
  unfold LSTM.predict, LSTM.score_samples.
  destruct (LSTM._create_sequences self X) as [X_seq y_seq]. simpl in H1.
  assert (E : (length X_seq =? 0)%nat = true) by (apply Nat.eqb_eq; lia).
  rewrite E. split; [reflexivity|].
  unfold mbind, result_bind. rewrite Hthr.
  unfold LSTM.assign_from. rewrite length_map, !repeat_length.
  destruct (length X =? length X - LSTM.sequence_length self)%nat eqn:E1;
    [apply Nat.eqb_eq in E1; lia|].
  destruct (length X =? 1)%nat eqn:E2; [apply Nat.eqb_eq in E2; lia|].
  reflexivity.
Qed.

(** C6 at an input shorter than the window: with the default window of
    10 rows and an input of 5 rows, [predict] raises instead of returning
    5 predictions. *)
Theorem lstm_predict_raises_on_five_rows :
  LSTM.sequence_length fitted_lstm = 10%nat /\
  length five_rows = 5%nat /\
  LSTM.score_samples fitted_lstm five_rows = Ok (repeat fzero 5) /\
  LSTM.predict fitted_lstm five_rows
  = Raise (ValueError "could not broadcast input array").
Proof. repeat split. Qed.

Lemma lstm_predict_aligned_example :
  LSTM.predict short_window_lstm five_rows = Ok [1; 1; 1; (-1); (-1)]%Z.
Proof. reflexivity. Qed.

(** ** Model trainer *)

Lemma train_all_fold self features : forall l trained store model_name,
  let r := fold_left (Train.train_one self features) l (trained, store) in
  fst r !! model_name
  = match Train.train_model self model_name features with
    | Ok model => if bool_decide (model_name ∈ l) then Some model
                  else trained !! model_name
    | Raise _ => trained !! model_name
    end /\
  snd r !! model_name
  = match Train.train_model self model_name features with
    | Ok model => if bool_decide (model_name ∈ l) then Some model
                  else store !! model_name
    | Raise _ => store !! model_name
    end.
Proof.
  induction l as [|x l IH]; intros trained store model_name; cbv zeta.
  - simpl. destruct (Train.train_model self model_name features); auto.
  - simpl fold_left.
    assert (Est : Train.train_one self features (trained, store) x
                  = match Train.train_model self x features with
                    | Ok m => (<[x := m]> trained, Train.save_model store m x)
                    | Raise _ => (trained, store)
                    end) by reflexivity.
    rewrite Est. clear Est.
    destruct (Train.train_model self x features) as [m|e] eqn:Ex.
    + destruct (IH (<[x := m]> trained) (Train.save_model store m x) model_name)
        as [H1 H2].
      cbv zeta in H1, H2. rewrite H1, H2. unfold Train.save_model.
      destruct (Train.train_model self model_name features) as [m'|e'] eqn:Em.
      * destruct (decide (model_name = x)) as [-> | Hne].
        -- rewrite Ex in Em. injection Em as ->.
           rewrite !lookup_insert_eq.
           rewrite (bool_decide_eq_true_2 (x ∈ x :: l)) by (apply elem_of_cons; auto).
           destruct (bool_decide (x ∈ l)); auto.
        -- rewrite !lookup_insert_ne by congruence.
           destruct (bool_decide (model_name ∈ l)) eqn:El.
           ++ apply bool_decide_eq_true_1 in El.
              rewrite (bool_decide_eq_true_2 (model_name ∈ x :: l))
                by (apply elem_of_cons; auto).
              auto.
           ++ apply bool_decide_eq_false_1 in El.
              rewrite (bool_decide_eq_false_2 (model_name ∈ x :: l))
                by (rewrite elem_of_cons; tauto).
              auto.
      * destruct (decide (model_name = x)) as [-> | Hne]; [congruence|].
        rewrite !lookup_insert_ne by congruence. auto.
    + destruct (IH trained store model_name) as [H1 H2].
      cbv zeta in H1, H2. rewrite H1, H2.
      destruct (Train.train_model self model_name features) as [m'|e'] eqn:Em; auto.
      destruct (decide (model_name = x)) as [-> | Hne]; [congruence|].
      destruct (bool_decide (model_name ∈ l)) eqn:El.
      * apply bool_decide_eq_true_1 in El.
        rewrite (bool_decide_eq_true_2 (model_name ∈ x :: l))
                by (apply elem_of_cons; auto). auto.
      * apply bool_decide_eq_false_1 in El.
        rewrite (bool_decide_eq_false_2 (model_name ∈ x :: l))
                by (rewrite elem_of_cons; tauto). auto.
Qed.


Lemma train_all_sample :
  dom (fst (Train.train_all_models sample_trainer sample_features ∅))
  = ({["isolation_forest"; "one_class_svm"]} : gset string).
Proof. vm_compute. reflexivity. Qed.

(** ** Imputation and scaling of the feature matrix *)









Lemma transform_without_extractors ext df :
  Engineer.transform ext all_extractors_disabled df
  = Ok (Engineer._normalize_features
          (Engineer._handle_missing_features (to_frame df))).
Proof. reflexivity. Qed.


(** ** Feature extraction on tables that lack a column *)

Lemma column_eqb_eq (a b : Column) : column_eqb a b = true <-> a = b.
Proof. destruct a, b; simpl; split; intros H; try reflexivity; discriminate H. Qed.

Lemma has_drop_column (c c' : Column) (df : EventTable) :
  has (drop_column c df) c' = negb (column_eqb c c') && has df c'.
Proof.
  unfold has, drop_column. simpl present.
  induction (present df) as [|a l IH]; simpl.
  - now rewrite andb_false_r.
  - destruct (column_eqb c a) eqn:Eca; simpl.
    + rewrite IH. apply column_eqb_eq in Eca. subst a.
      destruct (column_eqb c' c) eqn:E; simpl; [|reflexivity].
      apply column_eqb_eq in E. subst c'.
      assert (Hcc : column_eqb c c = true) by now apply column_eqb_eq.
      rewrite Hcc. reflexivity.
    + rewrite IH. destruct (column_eqb c' a) eqn:E; simpl; [|reflexivity].
      apply column_eqb_eq in E. subst a. rewrite Eca. reflexivity.
Qed.

Lemma groupby_transform_length {A} keys (col : list A) agg :
  length (groupby_transform keys col agg) = length keys.
Proof. unfold groupby_transform. apply length_map. Qed.

Lemma masked_count_length keys mask :
  length (masked_count keys mask) = Nat.min (length keys) (length mask).
Proof. unfold masked_count. now rewrite length_map, length_combine. Qed.

Lemma zip_with_length f a b :
  length (zip_with f a b) = Nat.min (length a) (length b).
Proof. unfold zip_with. now rewrite length_map, length_combine. Qed.

Lemma add_indicator_length score cond w :
  length (add_indicator score cond w) = Nat.min (length score) (length cond).
Proof. unfold add_indicator. now rewrite zip_with_length, length_map. Qed.

Lemma fillna0_length l : length (fillna0 l) = length l.
Proof. apply length_map. Qed.

Lemma replace_zero_by_one_length l : length (replace_zero_by_one l) = length l.
Proof. apply length_map. Qed.

Lemma session_span_length keys ts : length (session_span keys ts) = length keys.
Proof. apply groupby_transform_length. Qed.

Lemma group_diff_from_length rows : forall seen,
  length (group_diff_from seen rows) = length rows.
Proof.
  induction rows as [|[[k|] t] rows IH]; intros seen; simpl;
    [reflexivity | |]; now rewrite IH.
Qed.

Lemma group_diff_length keys ts :
  length (group_diff keys ts) = Nat.min (length keys) (length ts).
Proof. unfold group_diff. rewrite group_diff_from_length. apply length_combine. Qed.

Lemma global_diff_length ts : length (global_diff ts) = length ts.
Proof.
  destruct ts as [|t rest]; [reflexivity|]. unfold global_diff.
  cbn [length]. rewrite length_map, length_combine. cbn [length]. lia.
Qed.

Lemma constant_series_length df v : length (constant_series df v) = n_rows df.
Proof. apply repeat_length. Qed.

Ltac col_len :=
  repeat first
    [ rewrite length_map | rewrite repeat_length | rewrite length_combine
    | rewrite groupby_transform_length | rewrite masked_count_length
    | rewrite zip_with_length | rewrite add_indicator_length
    | rewrite fillna0_length | rewrite replace_zero_by_one_length
    | rewrite session_span_length | rewrite group_diff_length
    | rewrite global_diff_length | rewrite constant_series_length ].

Lemma str_col_length df c l : str_col df c = Some l -> length l = n_rows df.
Proof.
  unfold str_col. destruct (has df c); [|discriminate].
  intros H. injection H as <-. apply length_map.
Qed.

Lemma num_col_length df c l : num_col df c = Some l -> length l = n_rows df.
Proof.
  unfold num_col. destruct (has df c); [|discriminate].
  intros H. injection H as <-. apply length_map.
Qed.

Lemma time_col_length df l : time_col df = Some l -> length l = n_rows df.
Proof.
  unfold time_col. destruct (has df Timestamp); [|discriminate].
  intros H. injection H as <-. apply length_map.
Qed.

Ltac split_columns :=
  repeat match goal with
         | |- context [match str_col ?df ?c with _ => _ end] =>
             let E := fresh "E" in
             destruct (str_col df c) eqn:E; [apply str_col_length in E|]
         | |- context [match num_col ?df ?c with _ => _ end] =>
             let E := fresh "E" in
             destruct (num_col df c) eqn:E; [apply num_col_length in E|]
         | |- context [match time_col ?df with _ => _ end] =>
             let E := fresh "E" in
             destruct (time_col df) eqn:E; [apply time_col_length in E|]
         end.

Ltac use_lengths :=
  repeat match goal with
         | H : length ?l = n_rows ?df |- context [length ?l] => rewrite H
         end.

Ltac column_length := split_columns; col_len; use_lengths; try lia.

Lemma failed_login_count_length df :
  length (Behavioral._failed_login_count df) = n_rows df.
Proof. unfold Behavioral._failed_login_count. column_length. Qed.

Lemma privilege_escalation_attempts_length df :
  length (Behavioral._privilege_escalation_attempts df) = n_rows df.
Proof. unfold Behavioral._privilege_escalation_attempts. column_length. Qed.

Lemma unique_resources_accessed_length df :
  length (Behavioral._unique_resources_accessed df) = n_rows df.
Proof. unfold Behavioral._unique_resources_accessed. column_length. Qed.

Lemma session_duration_length df :
  length (Behavioral._session_duration df) = n_rows df.
Proof. unfold Behavioral._session_duration. column_length. Qed.

Lemma action_frequency_length df :
  length (Behavioral._action_frequency df) = n_rows df.
Proof.
  unfold Behavioral._action_frequency. split_columns; col_len;
    rewrite ?session_duration_length; use_lengths; lia.
Qed.

Lemma bytes_transferred_length df :
  length (Network._bytes_transferred df) = n_rows df.
Proof. unfold Network._bytes_transferred. column_length. Qed.

Lemma connection_count_length df :
  length (Network._connection_count df) = n_rows df.
Proof. unfold Network._connection_count. column_length. Qed.

Lemma unique_destinations_length df :
  length (Network._unique_destinations df) = n_rows df.
Proof. unfold Network._unique_destinations. column_length. Qed.

Lemma get_session_duration_length df :
  length (Network._get_session_duration df) = n_rows df.
Proof. unfold Network._get_session_duration. column_length. Qed.

Lemma port_scan_indicators_length df :
  length (Network._port_scan_indicators df) = n_rows df.
Proof.
  unfold Network._port_scan_indicators. split_columns; col_len;
    rewrite ?connection_count_length, ?get_session_duration_length;
    use_lengths; lia.
Qed.

Lemma lateral_movement_score_length df :
  length (Network._lateral_movement_score df) = n_rows df.
Proof. unfold Network._lateral_movement_score. column_length. Qed.

Lemma is_business_hours_length ts :
  length (Temporal._is_business_hours ts) = length ts.
Proof. apply length_map. Qed.

Lemma time_since_last_action_length df ts :
  length ts = n_rows df ->
  length (Temporal._time_since_last_action df ts) = n_rows df.
Proof. intros H. unfold Temporal._time_since_last_action. column_length. Qed.

Lemma action_velocity_length df ts :
  length ts = n_rows df ->
  length (Temporal._action_velocity df ts) = n_rows df.
Proof. intros H. unfold Temporal._action_velocity. column_length. Qed.

Lemma add_feature_shaped df fs key name col (frame : NumFrame) :
  well_shaped df frame -> length col = n_rows df ->
  well_shaped df (add_feature fs key name col frame).
Proof.
  intros [Hi Hwf] Hc. unfold add_feature.
  destruct (existsb (String.eqb key) fs); [|now split].
  split; [exact Hi|]. unfold wf_num_frame, wf_frame, put. simpl.
  apply (assoc_set_values (fun v => length v = index frame)); [congruence | exact Hwf].
Qed.

Lemma empty_frame_shaped df : well_shaped df (mkFrame (n_rows df) []).
Proof. split; [reflexivity | constructor]. Qed.

Lemma assoc_get_add_feature fs key name col (frame : NumFrame) name' :
  assoc_get name' (columns (add_feature fs key name col frame))
  = if existsb (String.eqb key) fs && String.eqb name name'
    then Some col else assoc_get name' (columns frame).
Proof.
  unfold add_feature. destruct (existsb (String.eqb key) fs); simpl; [|reflexivity].
  destruct (String.eqb name name') eqn:E.
  - apply String.eqb_eq in E. subst. apply assoc_get_set_eq.
  - apply String.eqb_neq in E. now apply assoc_get_set_ne.
Qed.

(** Every extractor returns one cell per event for each feature, whatever
    columns the table has. *)
Lemma behavioral_extract_shaped cfg df : well_shaped df (Behavioral.extract cfg df).
Proof.
  unfold Behavioral.extract.
  repeat (apply add_feature_shaped;
          [| first [ apply failed_login_count_length
                   | apply privilege_escalation_attempts_length
                   | apply unique_resources_accessed_length
                   | apply session_duration_length
                   | apply action_frequency_length ] ]).
  apply empty_frame_shaped.
Qed.

Lemma network_extract_shaped ext cfg df : well_shaped df (Network.extract ext cfg df).
Proof.
  unfold Network.extract.
  repeat (apply add_feature_shaped;
          [| first [ apply bytes_transferred_length
                   | rewrite length_map; apply bytes_transferred_length
                   | apply connection_count_length
                   | apply unique_destinations_length
                   | apply port_scan_indicators_length
                   | apply lateral_movement_score_length ] ]).
  apply empty_frame_shaped.
Qed.

Lemma temporal_extract_shaped ext cfg df : well_shaped df (Temporal.extract ext cfg df).
Proof.
  unfold Temporal.extract.
  destruct (time_col df) as [ts|] eqn:E; [|apply empty_frame_shaped].
  apply time_col_length in E.
  repeat (apply add_feature_shaped;
          [| first [ now apply action_velocity_length
                   | now apply time_since_last_action_length
                   | rewrite is_business_hours_length; exact E
                   | rewrite !length_map; exact E ] ]).
  apply empty_frame_shaped.
Qed.

(** A feature does not change when a column it does not read is dropped. *)
Ltac independent H :=
  unfold str_col, num_col, time_col, constant_series, n_rows;
  rewrite ?has_drop_column;
  match goal with c : Column |- _ => destruct c end;
  first [ reflexivity | exfalso; apply H; simpl; tauto ].

Lemma failed_login_count_independent c df :
  ~ In c [Action; StatusCode; SessionId] ->
  Behavioral._failed_login_count (drop_column c df)
  = Behavioral._failed_login_count df.
Proof. intros H. unfold Behavioral._failed_login_count. independent H. Qed.

Lemma privilege_escalation_attempts_independent c df :
  ~ In c [Action; SessionId] ->
  Behavioral._privilege_escalation_attempts (drop_column c df)
  = Behavioral._privilege_escalation_attempts df.
Proof. intros H. unfold Behavioral._privilege_escalation_attempts. independent H. Qed.

Lemma unique_resources_accessed_independent c df :
  ~ In c [Resource; SessionId] ->
  Behavioral._unique_resources_accessed (drop_column c df)
  = Behavioral._unique_resources_accessed df.
Proof. intros H. unfold Behavioral._unique_resources_accessed. independent H. Qed.

Lemma session_duration_independent c df :
  ~ In c [Timestamp; SessionId] ->
  Behavioral._session_duration (drop_column c df) = Behavioral._session_duration df.
Proof. intros H. unfold Behavioral._session_duration. independent H. Qed.

Lemma action_frequency_independent c df :
  ~ In c [SessionId; Timestamp] ->
  Behavioral._action_frequency (drop_column c df) = Behavioral._action_frequency df.
Proof.
  intros H. unfold Behavioral._action_frequency, Behavioral._session_duration.
  independent H.
Qed.

Lemma bytes_transferred_independent c df :
  ~ In c [BytesTransferred] ->
  Network._bytes_transferred (drop_column c df) = Network._bytes_transferred df.
Proof. intros H. unfold Network._bytes_transferred. independent H. Qed.

Lemma connection_count_independent c df :
  ~ In c [SessionId] ->
  Network._connection_count (drop_column c df) = Network._connection_count df.
Proof. intros H. unfold Network._connection_count. independent H. Qed.

Lemma unique_destinations_independent c df :
  ~ In c [SessionId; DestinationIp; Resource] ->
  Network._unique_destinations (drop_column c df) = Network._unique_destinations df.
Proof. intros H. unfold Network._unique_destinations. independent H. Qed.

Lemma port_scan_indicators_independent c df :
  ~ In c [SessionId; DestinationIp; Timestamp; StatusCode] ->
  Network._port_scan_indicators (drop_column c df) = Network._port_scan_indicators df.
Proof.
  intros H. unfold Network._port_scan_indicators, Network._get_session_duration,
    Network._connection_count.
  independent H.
Qed.

Lemma lateral_movement_score_independent c df :
  ~ In c [SessionId; Resource; Action; SourceIp; UserId] ->
  Network._lateral_movement_score (drop_column c df)
  = Network._lateral_movement_score df.
Proof. intros H. unfold Network._lateral_movement_score. independent H. Qed.

Lemma time_since_last_action_independent c df ts :
  ~ In c [Timestamp; SessionId; UserId] ->
  Temporal._time_since_last_action (drop_column c df) ts
  = Temporal._time_since_last_action df ts.
Proof. intros H. unfold Temporal._time_since_last_action. independent H. Qed.

Lemma action_velocity_independent c df ts :
  ~ In c [Timestamp; SessionId] ->
  Temporal._action_velocity (drop_column c df) ts = Temporal._action_velocity df ts.
Proof. intros H. unfold Temporal._action_velocity. independent H. Qed.

Lemma time_col_independent c df :
  ~ In c [Timestamp] -> time_col (drop_column c df) = time_col df.
Proof. intros H. independent H. Qed.

Ltac eval_eqb :=
  repeat match goal with
         | |- context [String.eqb ?a ?b] =>
             let v := eval vm_compute in (String.eqb a b) in
             match v with
             | true => change (String.eqb a b) with true
             | false => change (String.eqb a b) with false
             end
         end.

(** Case analysis on the feature that a column name stands for: [tac]
    closes the case of each feature of the extractor. *)
Ltac by_feature tac :=
  repeat lazymatch goal with
         | |- context [String.eqb ?nm ?name] =>
             let E := fresh "E" in
             destruct (String.eqb nm name) eqn:E;
             [ apply String.eqb_eq in E; subst name; eval_eqb;
               rewrite ?andb_false_r, ?andb_true_r; tac
             | rewrite ?andb_false_r ]
         end.

Lemma behavioral_other_features cfg df c name :
  ~ In c (reads name) ->
  assoc_get name (columns (Behavioral.extract cfg (drop_column c df)))
  = assoc_get name (columns (Behavioral.extract cfg df)).
Proof.
  intros H. unfold Behavioral.extract. rewrite !assoc_get_add_feature.
  by_feature ltac:(
    try rewrite (failed_login_count_independent _ _ H);
    try rewrite (privilege_escalation_attempts_independent _ _ H);
    try rewrite (unique_resources_accessed_independent _ _ H);
    try rewrite (session_duration_independent _ _ H);
    try rewrite (action_frequency_independent _ _ H);
    reflexivity).
  reflexivity.
Qed.

Lemma network_other_features ext cfg df c name :
  ~ In c (reads name) ->
  assoc_get name (columns (Network.extract ext cfg (drop_column c df)))
  = assoc_get name (columns (Network.extract ext cfg df)).
Proof.
  intros H. unfold Network.extract. rewrite !assoc_get_add_feature.
  by_feature ltac:(
    try rewrite (bytes_transferred_independent _ _ H);
    try rewrite (connection_count_independent _ _ H);
    try rewrite (unique_destinations_independent _ _ H);
    try rewrite (port_scan_indicators_independent _ _ H);
    try rewrite (lateral_movement_score_independent _ _ H);
    reflexivity).
  reflexivity.
Qed.

Lemma temporal_other_features ext cfg df c name :
  ~ In c (reads name) ->
  assoc_get name (columns (Temporal.extract ext cfg (drop_column c df)))
  = assoc_get name (columns (Temporal.extract ext cfg df)).
Proof.
  intros H. unfold Temporal.extract.
  destruct (column_eqb c Timestamp) eqn:Ec.
  - apply column_eqb_eq in Ec. subst c.
    assert (Hdrop : time_col (drop_column Timestamp df) = None).
    { unfold time_col. rewrite has_drop_column. reflexivity. }
    rewrite Hdrop. simpl assoc_get at 1.
    destruct (time_col df) as [ts|]; [|reflexivity].
    rewrite !assoc_get_add_feature.
    by_feature ltac:(exfalso; apply H; simpl; tauto).
    reflexivity.
  - assert (Hts : time_col (drop_column c df) = time_col df).
    { unfold time_col. rewrite has_drop_column.
      destruct c; try discriminate Ec; reflexivity. }
    rewrite Hts. destruct (time_col df) as [ts|]; [|reflexivity].
    rewrite !assoc_get_add_feature.
    by_feature ltac:(
      try rewrite (time_since_last_action_independent _ _ _ H);
      try rewrite (action_velocity_independent _ _ _ H);
      reflexivity).
    reflexivity.
Qed.

Ltac fallback :=
  unfold str_col, num_col, time_col; rewrite ?has_drop_column;
  repeat match goal with
         | |- context [has ?d ?c] => destruct (has d c)
         end;
  reflexivity.

(** C7, as the code has it. On a table that lacks an input column no
    extractor fails: each returns one cell per event for every feature it
    is configured to compute, and a feature that does not read the absent
    column is computed as on the full table.  A feature that reads the
    absent column falls back to a default of its own: zeros for the
    behavioral counts and durations, for the transferred bytes, for the
    two scores and for the action velocity without session ids; ones for
    the connection count and the number of unique destinations; and no
    column at all for the temporal extractor without timestamps. *)
Theorem missing_column_fallbacks ext cfg df :
  let zeros := constant_series df fzero in
  let ones := constant_series df fone in
  (well_shaped df (Behavioral.extract cfg df) /\
   well_shaped df (Network.extract ext cfg df) /\
   well_shaped df (Temporal.extract ext cfg df)) /\
  (forall c name,
     ~ In c (reads name) ->
     assoc_get name (columns (Behavioral.extract cfg (drop_column c df)))
     = assoc_get name (columns (Behavioral.extract cfg df)) /\
     assoc_get name (columns (Network.extract ext cfg (drop_column c df)))
     = assoc_get name (columns (Network.extract ext cfg df)) /\
     assoc_get name (columns (Temporal.extract ext cfg (drop_column c df)))
     = assoc_get name (columns (Temporal.extract ext cfg df))) /\
  (Behavioral._failed_login_count (drop_column Action df) = zeros /\
   Behavioral._failed_login_count (drop_column StatusCode df) = zeros /\
   Behavioral._privilege_escalation_attempts (drop_column Action df) = zeros /\
   Behavioral._unique_resources_accessed (drop_column Resource df) = zeros /\
   Behavioral._unique_resources_accessed (drop_column SessionId df) = zeros /\
   Behavioral._session_duration (drop_column Timestamp df) = zeros /\
   Behavioral._session_duration (drop_column SessionId df) = zeros /\
   Behavioral._action_frequency (drop_column SessionId df) = zeros) /\
  (Network._bytes_transferred (drop_column BytesTransferred df) = zeros /\
   Network._connection_count (drop_column SessionId df) = ones /\
   Network._unique_destinations (drop_column SessionId df) = ones /\
   Network._unique_destinations (drop_column DestinationIp (drop_column Resource df))
   = ones /\
   Network._port_scan_indicators (drop_column SessionId df) = zeros /\
   Network._lateral_movement_score (drop_column SessionId df) = zeros) /\
  (columns (Temporal.extract ext cfg (drop_column Timestamp df)) = [] /\
   forall timestamp,
     Temporal._action_velocity (drop_column SessionId df) timestamp = zeros).
Proof.
  intros zeros ones. split; [|split; [|split; [|split]]].
  - split; [apply behavioral_extract_shaped|].
    split; [apply network_extract_shaped | apply temporal_extract_shaped].
  - intros c name H.
    split; [now apply behavioral_other_features|].
    split; [now apply network_other_features | now apply temporal_other_features].
  - unfold zeros, Behavioral._failed_login_count,
      Behavioral._privilege_escalation_attempts,
      Behavioral._unique_resources_accessed, Behavioral._session_duration,
      Behavioral._action_frequency.
    repeat split; fallback.
  - unfold zeros, ones, Network._bytes_transferred, Network._connection_count,
      Network._unique_destinations, Network._port_scan_indicators,
      Network._lateral_movement_score.
    repeat split; fallback.
  - unfold zeros, Temporal.extract, Temporal._action_velocity.
    split; [|intros timestamp]; fallback.
Qed.

(** Without session ids the connection count and the number of unique
    destinations are columns of ones, not of zeros, and the failed-login
    count is the per-event indicator; without timestamps the temporal
    extractor returns no column. *)
Lemma connection_count_defaults_to_ones :
  Network._connection_count (drop_column SessionId sample_table)
  = [Fin 1; Fin 1; Fin 1; Fin 1] /\
  Network._unique_destinations (drop_column SessionId sample_table)
  = [Fin 1; Fin 1; Fin 1; Fin 1] /\
  Behavioral._failed_login_count (drop_column SessionId sample_table)
  = [Fin 1; Fin 1; Fin 0; Fin 0] /\
  (forall ext,
     columns (Temporal.extract ext every_feature (drop_column Timestamp sample_table))
     = []).
Proof. repeat split. Qed.

Lemma lstm_predict_aligned_witness :
  LSTM.model short_window_lstm = Some persistence_network /\
  LSTM.threshold_value short_window_lstm = Some (Fin (1#10)) /\
  (LSTM.sequence_length short_window_lstm < length five_rows)%nat /\
  exists scores,
    LSTM.score_samples short_window_lstm five_rows = Ok scores /\
    length scores = (length five_rows - LSTM.sequence_length short_window_lstm)%nat /\
    LSTM.predict short_window_lstm five_rows
    = Ok (repeat 1%Z (LSTM.sequence_length short_window_lstm)
          ++ List.map (LSTM.label (Fin (1#10))) scores) /\
    length (repeat 1%Z (LSTM.sequence_length short_window_lstm)
            ++ List.map (LSTM.label (Fin (1#10))) scores) = length five_rows.
Proof.
  assert (H3 : (LSTM.sequence_length short_window_lstm < length five_rows)%nat)
    by (vm_compute; lia).
  split; [reflexivity|]. split; [reflexivity|]. split; [exact H3|].
  exact (lstm_predict_aligned short_window_lstm five_rows persistence_network
           (Fin (1#10)) eq_refl eq_refl H3).
Defined.

Lemma lstm_predict_short_input_witness :
  LSTM.threshold_value fitted_lstm = Some (Fin (1#10)) /\
  (2 <= length five_rows)%nat /\
  (length five_rows <= LSTM.sequence_length fitted_lstm)%nat /\
  LSTM.score_samples fitted_lstm five_rows = Ok (repeat fzero (length five_rows)) /\
  LSTM.predict fitted_lstm five_rows
  = Raise (ValueError "could not broadcast input array").
Proof.
  assert (H2 : (2 <= length five_rows)%nat) by (vm_compute; lia).
  assert (H3 : (length five_rows <= LSTM.sequence_length fitted_lstm)%nat)
    by (vm_compute; lia).
  split; [reflexivity|]. split; [exact H2|]. split; [exact H3|].
  exact (lstm_predict_short_input fitted_lstm five_rows (Fin (1#10)) eq_refl H2 H3).
Defined.

(** * Further properties of the code *)

(** ** The verdict table of [detect] *)

Lemma assoc_set_forall {A} (P : string * A -> Prop) name (v : A) cols :
  P (name, v) -> Forall P cols -> Forall P (assoc_set name v cols).
Proof.
  intros Hv Hcols. induction Hcols as [|[k w] cols Hc Hcols IH]; simpl.
  - repeat constructor. exact Hv.
  - destruct (String.eqb k name) eqn:E.
    + apply String.eqb_eq in E. subst k. constructor; assumption.
    + constructor; assumption.
Qed.

Lemma fold_put_forall {A} (P : string * A -> Prop) (cs : list (string * A)) :
  forall f, Forall P (columns f) -> Forall P cs ->
            Forall P (columns (fold_left put cs f)).
Proof.
  induction cs as [|[k v] cs IH]; intros f Hf Hcs; simpl; [exact Hf|].
  inversion Hcs as [|? ? Hc Hcs']; subst.
  apply IH; [|exact Hcs']. unfold put. simpl.
  now apply assoc_set_forall.
Qed.

Lemma contributed_labels X n entry :
  labels_only X (snd entry) ->
  Forall (fun c => endswith (fst c) "_prediction" = true -> Forall is_label (snd c))
         (contributed X n entry).
Proof.
  intros Hl. unfold contributed, predicted.
  destruct (Detect.predict (snd entry) X) as [p|e] eqn:Ep; [|constructor].
  destruct (length p =? n)%nat; [|constructor].
  constructor.
  - simpl. intros _. specialize (Hl p Ep).
    rewrite List.Forall_forall in *. intros v Hv.
    apply in_map_iff in Hv. destruct Hv as (z & <- & Hz).
    destruct (Hl z Hz) as [-> | ->]; [left | right]; reflexivity.
  - destruct (scored X n (snd entry)); constructor; [|constructor].
    simpl. intros H. now rewrite endswith_score_is_not_prediction in H.
Qed.

Lemma run_models_labels self features :
  (forall entry, In entry (Detect.models self) ->
                 labels_only (values features) (snd entry)) ->
  Forall (fun c => Forall is_label (snd c))
         (Detect.cols_with_suffix "_prediction" (Detect.run_models self features)).
Proof.
  intros Hl.
  assert (H : Forall (fun c => endswith (fst c) "_prediction" = true ->
                               Forall is_label (snd c))
                     (columns (Detect.run_models self features))).
  { rewrite run_models_contributed. apply fold_put_forall; [constructor|].
    rewrite List.Forall_forall. intros c Hc.
    apply in_flat_map in Hc. destruct Hc as (entry & He & Hc).
    pose proof (contributed_labels (values features) (index features) entry
                  (Hl entry He)) as Hf.
    rewrite List.Forall_forall in Hf. now apply Hf. }
  unfold Detect.cols_with_suffix. rewrite List.Forall_forall in *.
  intros c Hc. apply filter_In in Hc. destruct Hc as [Hc He]. now apply H.
Qed.

Lemma is_label_not_nan v : is_label v -> fisnan v = false.
Proof. intros [-> | ->]; reflexivity. Qed.

Lemma row_at_labels (cols : list (list float)) n i :
  (i < n)%nat ->
  Forall (fun c => length c = n /\ Forall is_label c) cols ->
  Forall is_label (row_at cols i).
Proof.
  intros Hi H. unfold row_at. rewrite List.Forall_forall in *.
  intros v Hv. apply in_map_iff in Hv. destruct Hv as (c & <- & Hc).
  destruct (H c Hc) as [Hlen Hlab]. rewrite List.Forall_forall in Hlab.
  apply Hlab. apply nth_In. lia.
Qed.

Lemma ensemble_predict_labels cfg (results : NumFrame) p :
  Forall (fun c => length (snd c) = index results /\ Forall is_label (snd c))
         (Detect.cols_with_suffix "_prediction" results) ->
  Detect._ensemble_predict cfg results = Ok p ->
  Forall is_label p.
Proof.
  intros Hall. unfold Detect._ensemble_predict.
  destruct (Detect.cols_with_suffix "_prediction" results) as [|c cs] eqn:E.
  { intros [= <-]. apply List.Forall_forall. intros v Hv.
    apply repeat_spec in Hv. subst. now right. }
  assert (Hvote : Detect.majority_vote (index results) (c :: cs) = Ok p ->
                  Forall is_label p).
  { unfold Detect.majority_vote, mode_first.
    destruct (existsb _ _); [|discriminate]. intros [= <-].
    apply List.Forall_forall. intros v Hv.
    apply in_map_iff in Hv. destruct Hv as (row & <- & Hrow).
    unfold rows_of in Hrow. apply in_map_iff in Hrow.
    destruct Hrow as (i & <- & Hi). apply in_seq in Hi.
    assert (Hlab : Forall is_label (row_at (List.map snd (c :: cs)) i)).
    { apply (row_at_labels _ (index results)); [lia|].
      rewrite List.Forall_forall in *. intros col Hcol.
      apply in_map_iff in Hcol. destruct Hcol as (c' & <- & Hc'). now apply Hall. }
    destruct (row_mode_first_mode (row_at (List.map snd (c :: cs)) i)) as (Hin & _).
    - simpl in Hlab |- *. inversion Hlab as [|? ? Hx _]; subst.
      unfold dropna. simpl. rewrite (is_label_not_nan _ Hx). simpl. discriminate.
    - rewrite List.Forall_forall in Hlab. now apply Hlab. }
  destruct (String.eqb (Detect.method cfg) "voting"); [exact Hvote|].
  destruct (String.eqb (Detect.method cfg) "weighted"); [|exact Hvote].
  intros [= <-]. unfold Detect.weighted_vote.
  destruct (fold_left _ _ _) as [ws tw].
  apply List.Forall_forall. intros v Hv.
  apply in_map_iff in Hv. destruct Hv as (a & <- & _).
  destruct (fltb a fzero); [left | right]; reflexivity.
Qed.

(** With the ensemble step enabled and a non-empty input, [detect]
    returns for every registry a table with one row per sample that holds
    the columns [ensemble_prediction], [ensemble_score] and [is_anomaly];
    [is_anomaly] is True exactly where [ensemble_prediction] is -1, and
    when every detector only predicts -1 or +1 so does the ensemble. *)
Theorem detect_verdict_columns self features :
  Detect.enabled (Detect.ensemble_config self) = true ->
  (0 < index features)%nat ->
  exists out p s,
    Detect.detect self features = Ok out /\
    index out = index features /\
    assoc_get "ensemble_prediction" (columns out) = Some (NumS p) /\
    assoc_get "ensemble_score" (columns out) = Some (NumS s) /\
    assoc_get "is_anomaly" (columns out)
      = Some (BoolS (List.map (fun v => feqb v (Fin (-1))) p)) /\
    length p = index features /\
    length s = index features /\
    ((forall entry, In entry (Detect.models self) ->
                    labels_only (values features) (snd entry)) ->
     Forall is_label p).
Proof.
  intros Hen Hn.
  destruct (detect_returns self features Hen Hn)
    as (p & s & Hp & Hlp & _ & Hls & _ & Hd).
  eexists. exists p, s. split; [exact Hd|].
  split; [simpl; apply run_models_index|].
  split.
  { rewrite with_is_anomaly_lookup by discriminate.
    unfold put. simpl columns.
    rewrite assoc_get_set_ne by discriminate.
    now rewrite assoc_get_set_eq. }
  split.
  { rewrite with_is_anomaly_lookup by discriminate.
    unfold put. simpl columns. now rewrite assoc_get_set_eq. }
  split; [apply with_is_anomaly_flags|].
  split; [exact Hlp|]. split; [exact Hls|].
  intros Hl. eapply ensemble_predict_labels; [|exact Hp].
  pose proof (run_models_labels self features Hl) as Hlab.
  pose proof (cols_with_suffix_wf "_prediction" _ (run_models_wf self features)) as Hwf.
  rewrite List.Forall_forall in *. intros c Hc. split; auto.
Qed.

Lemma detect_verdict_columns_witness :
  Detect.enabled (Detect.ensemble_config two_detectors) = true /\
  (0 < index sample_features)%nat /\
  exists out p s,
    Detect.detect two_detectors sample_features = Ok out /\
    index out = index sample_features /\
    assoc_get "ensemble_prediction" (columns out) = Some (NumS p) /\
    assoc_get "ensemble_score" (columns out) = Some (NumS s) /\
    assoc_get "is_anomaly" (columns out)
      = Some (BoolS (List.map (fun v => feqb v (Fin (-1))) p)) /\
    length p = index sample_features /\
    length s = index sample_features /\
    ((forall entry, In entry (Detect.models two_detectors) ->
                    labels_only (values sample_features) (snd entry)) ->
     Forall is_label p).
Proof.
  assert (Hn : (0 < index sample_features)%nat) by (simpl; lia).
  split; [reflexivity|]. split; [exact Hn|].
  exact (detect_verdict_columns two_detectors sample_features eq_refl Hn).
Defined.

(** A detector whose [predict] returns a number of labels other than the
    number of samples is skipped like a detector that raises: writing its
    prediction column fails inside the [try], it leaves no column, and the
    verdict is the one of the registry without it. *)
Theorem wrong_length_predictions_are_skipped self features model_name model p :
  NoDup (List.map fst (Detect.models self)) ->
  In (model_name, model) (Detect.models self) ->
  Detect.predict model (values features) = Ok p ->
  length p <> index features ->
  ~ In (model_name +:+ "_prediction")
       (column_names (Detect.run_models self features)) /\
  ~ In (model_name +:+ "_score")
       (column_names (Detect.run_models self features)) /\
  Detect.detect (unregister model_name self) features = Detect.detect self features.
Proof.
  intros Hnd Hin Hp Hlen.
  assert (Hnone : predicted (values features) (index features) model = None).
  { unfold predicted. rewrite Hp.
    destruct (Nat.eqb_spec (length p) (index features)); [contradiction | reflexivity]. }
  split; [|split].
  - rewrite prediction_column_present. intros (d & Hd & Hpd).
    rewrite (NoDup_keys_functional _ _ _ _ Hnd Hd Hin) in Hpd. contradiction.
  - rewrite score_column_present. intros (d & Hd & Hpd & _).
    rewrite (NoDup_keys_functional _ _ _ _ Hnd Hd Hin) in Hpd. contradiction.
  - now apply (detect_unregister self features model_name model).
Qed.

Lemma wrong_length_predictions_are_skipped_witness :
  NoDup (List.map fst (Detect.models one_truncating)) /\
  In ("lstm", truncating_detector) (Detect.models one_truncating) /\
  Detect.predict truncating_detector (values sample_features) = Ok [1; 1]%Z /\
  length [1; 1]%Z <> index sample_features /\
  ~ In ("lstm" +:+ "_prediction")
       (column_names (Detect.run_models one_truncating sample_features)) /\
  ~ In ("lstm" +:+ "_score")
       (column_names (Detect.run_models one_truncating sample_features)) /\
  Detect.detect (unregister "lstm" one_truncating) sample_features
  = Detect.detect one_truncating sample_features.
Proof.
  assert (Hnd : NoDup (List.map fst (Detect.models one_truncating))).
  { apply NoDup_ListNoDup. repeat constructor; simpl; intuition discriminate. }
  assert (Hin : In ("lstm", truncating_detector) (Detect.models one_truncating)).
  { simpl. auto. }
  assert (Hp : Detect.predict truncating_detector (values sample_features)
               = Ok [1; 1]%Z) by reflexivity.
  assert (Hlen : length [1; 1]%Z <> index sample_features) by (simpl; lia).
  split; [exact Hnd|]. split; [exact Hin|]. split; [exact Hp|]. split; [exact Hlen|].
  exact (wrong_length_predictions_are_skipped one_truncating sample_features
           "lstm" truncating_detector [1; 1]%Z Hnd Hin Hp Hlen).
Defined.

(** ** Scores that do not vary *)

Lemma fsum_zeros : forall m, fsum (repeat fzero m) = fzero.
Proof.
  unfold fsum. induction m as [|m IH]; simpl; [reflexivity|]. exact IH.
Qed.

Lemma nanmean_zeros (m : nat) :
  (0 < m)%nat -> feqb (nanmean (repeat fzero m)) fzero = true.
Proof.
  intros Hm. unfold nanmean.
  replace (dropna (repeat fzero m)) with (repeat fzero m).
  2:{ unfold dropna. induction m as [|k IH]; simpl; [reflexivity|].
      destruct k; [reflexivity|]. f_equal. apply IH. lia. }
  destruct (repeat fzero m) as [|x r] eqn:E.
  { destruct m; [lia | discriminate E]. }
  rewrite <- E, fsum_zeros, repeat_length.
  unfold fdiv, fzero, float_of_Z.
  rewrite Qsign_pos.
  2:{ unfold Qlt. simpl. lia. }
  simpl. apply Qeq_bool_iff. unfold Qeq. simpl. reflexivity.
Qed.

Lemma map_Fin_finite (s : list Q) : all_finite (List.map Fin s).
Proof.
  unfold all_finite. apply List.Forall_forall. intros x Hx.
  apply in_map_iff in Hx. destruct Hx as (q & <- & _). reflexivity.
Qed.

Lemma In_map_Fin (s : list Q) (q : Q) : In (Fin q) (List.map Fin s) -> In q s.
Proof.
  intros H. apply in_map_iff in H. destruct H as (q' & [= ->] & H). exact H.
Qed.

(** A score array whose values are all equal is normalised to zeros. *)
Lemma normalize_scores_constant (s : list Q) :
  s <> [] -> constant_scores s ->
  Detect.normalize_scores (List.map Fin s)
  = Ok (List.map (fun _ => fzero) (List.map Fin s)).
Proof.
  intros Hne Hc. destruct s as [|a r]; [contradiction|].
  pose proof (map_Fin_finite (a :: r)) as Hfin.
  unfold Detect.normalize_scores, ndarray_min, ndarray_max.
  rewrite (all_finite_no_nan _ Hfin).
  change (List.map Fin (a :: r)) with (Fin a :: List.map Fin r) in *.
  cbv iota.
  destruct (fold_fmin2_finite (List.map Fin r) a Hfin) as (m & Hm & Him & _).
  destruct (fold_fmax2_finite (List.map Fin r) a Hfin) as (M & HM & HiM & _).
  rewrite Hm, HM. unfold mbind, result_bind.
  change (Fin a :: List.map Fin r) with (List.map Fin (a :: r)) in *.
  apply In_map_Fin in Him, HiM.
  assert (Heq : (M <= m)%Q) by (rewrite (Hc M m HiM Him); apply Qle_refl).
  unfold fgtb. change (fltb (Fin m) (Fin M)) with (Qltb m M).
  apply Qltb_ge in Heq. rewrite Heq. reflexivity.
Qed.


Lemma map_const_repeat {A B} (b : B) (l : list A) :
  List.map (fun _ => b) l = repeat b (length l).
Proof. induction l as [|x l IH]; simpl; [reflexivity | now rewrite IH]. Qed.

Lemma normalize_all_constant (n : nat) : forall score_cols,
  (0 < n)%nat ->
  Forall (constant_score_column n) score_cols ->
  Detect.normalize_all score_cols
  = Ok (List.map (fun _ => repeat fzero n) score_cols).
Proof.
  intros score_cols Hn H. induction H as [|c cs (s & Hs & Hlen & Hc) _ IH];
    simpl; [reflexivity|].
  rewrite Hs, normalize_scores_constant; [|destruct s; [simpl in Hlen; lia | discriminate] | exact Hc].
  unfold mbind, result_bind. rewrite IH.
  now rewrite map_const_repeat, length_map, Hlen.
Qed.

Lemma row_at_zeros (n i : nat) {A} (cols : list A) :
  (i < n)%nat ->
  row_at (List.map (fun _ => repeat fzero n) cols) i = repeat fzero (length cols).
Proof.
  intros Hi. unfold row_at. rewrite List.map_map.
  rewrite <- map_const_repeat. apply map_ext. intros _.
  apply nth_repeat_lt. exact Hi.
Qed.

Lemma ensemble_score_constant (results : NumFrame) :
  (0 < index results)%nat ->
  Forall (constant_score_column (index results))
         (Detect.cols_with_suffix "_score" results) ->
  exists s, Detect._ensemble_score results = Ok s /\
            length s = index results /\
            Forall (fun x => feqb x fzero = true) s.
Proof.
  intros Hn H. unfold Detect._ensemble_score.
  destruct (Detect.cols_with_suffix "_score" results) as [|c cs] eqn:E.
  { eexists. split; [reflexivity|]. split; [apply repeat_length|].
    apply List.Forall_forall. intros x Hx. apply repeat_spec in Hx. now subst. }
  rewrite (normalize_all_constant (index results)) by assumption.
  unfold mbind, result_bind. eexists. split; [reflexivity|].
  split; [now rewrite length_map, rows_of_length|].
  apply List.Forall_forall. intros x Hx.
  apply in_map_iff in Hx. destruct Hx as (row & <- & Hrow).
  unfold rows_of in Hrow. apply in_map_iff in Hrow.
  destruct Hrow as (i & <- & Hi). apply in_seq in Hi.
  rewrite row_at_zeros by lia. apply nanmean_zeros. simpl. lia.
Qed.

Lemma contributed_constant X n entry :
  (forall s, scored X n (snd entry) = Some s -> constant_scores s) ->
  Forall (fun c => endswith (fst c) "_score" = true -> constant_score_column n c)
         (contributed X n entry).
Proof.
  intros Hc. unfold contributed.
  destruct (predicted X n (snd entry)) as [p|]; [|constructor].
  constructor.
  - simpl. intros H. now rewrite endswith_prediction_is_not_score in H.
  - destruct (scored X n (snd entry)) as [s|] eqn:Es; constructor; [|constructor].
    intros _. exists s. split; [reflexivity|]. split; [|now apply Hc].
    unfold scored in Es. destruct (scorer (snd entry)) as [f|]; [|discriminate].
    destruct (f X) as [s'|]; [|discriminate].
    destruct (Nat.eqb_spec (length s') n); [|discriminate].
    injection Es as <-. assumption.
Qed.

Lemma run_models_constant self features :
  (forall entry s, In entry (Detect.models self) ->
                   scored (values features) (index features) (snd entry) = Some s ->
                   constant_scores s) ->
  Forall (constant_score_column (index features))
         (Detect.cols_with_suffix "_score" (Detect.run_models self features)).
Proof.
  intros Hc.
  assert (H : Forall (fun c => endswith (fst c) "_score" = true ->
                               constant_score_column (index features) c)
                     (columns (Detect.run_models self features))).
  { rewrite run_models_contributed. apply fold_put_forall; [constructor|].
    rewrite List.Forall_forall. intros c Hin.
    apply in_flat_map in Hin. destruct Hin as (entry & He & Hin).
    pose proof (contributed_constant (values features) (index features) entry
                  (fun s => Hc entry s He)) as Hf.
    rewrite List.Forall_forall in Hf. now apply Hf. }
  unfold Detect.cols_with_suffix. rewrite List.Forall_forall in *.
  intros c Hin. apply filter_In in Hin. destruct Hin as [Hin He]. now apply H.
Qed.

Lemma single_score_constant (s : list Q) : length s = 1%nat -> constant_scores s.
Proof.
  intros Hlen a b Ha Hb. destruct s as [|x [|y r]]; try discriminate.
  destruct Ha as [<- | []]. destruct Hb as [<- | []]. apply Qeq_refl.
Qed.

Lemma scored_length X n d s : scored X n d = Some s -> length s = n.
Proof.
  unfold scored. destruct (scorer d) as [f|]; [|discriminate].
  destruct (f X) as [s'|]; [|discriminate].
  destruct (Nat.eqb_spec (length s') n); [|discriminate].
  now intros [= <-].
Qed.

(** When the scores of every scoring detector do not vary over the
    samples, the ensemble score is 0 for every sample: min-max
    normalisation has nothing to spread.  A run on a single sample is
    always such a run. *)
Theorem constant_scores_give_zero_ensemble_score self features :
  Detect.enabled (Detect.ensemble_config self) = true ->
  (0 < index features)%nat ->
  ((forall entry s, In entry (Detect.models self) ->
                    scored (values features) (index features) (snd entry) = Some s ->
                    constant_scores s)
   \/ index features = 1%nat) ->
  exists out s,
    Detect.detect self features = Ok out /\
    assoc_get "ensemble_score" (columns out) = Some (NumS s) /\
    length s = index features /\
    Forall (fun x => feqb x fzero = true) s.
Proof.
  intros Hen Hn Hconst.
  assert (Hc : forall entry s, In entry (Detect.models self) ->
                 scored (values features) (index features) (snd entry) = Some s ->
                 constant_scores s).
  { destruct Hconst as [Hc | H1]; [exact Hc|].
    intros entry s _ Hs. apply single_score_constant.
    apply scored_length in Hs. now rewrite Hs. }
  destruct (detect_returns self features Hen Hn)
    as (p & s & _ & _ & Hs & Hls & _ & Hd).
  destruct (ensemble_score_constant
              (put (Detect.run_models self features) ("ensemble_prediction", p)))
    as (s' & Hs' & _ & Hz).
  { now rewrite put_index, run_models_index. }
  { rewrite score_cols_after_prediction, put_index, run_models_index.
    now apply run_models_constant. }
  rewrite Hs in Hs'. injection Hs' as <-.
  eexists. exists s. split; [exact Hd|].
  split; [|split; assumption].
  rewrite with_is_anomaly_lookup by discriminate.
  unfold put. simpl columns. now rewrite assoc_get_set_eq.
Qed.

Lemma constant_scores_give_zero_ensemble_score_witness :
  Detect.enabled (Detect.ensemble_config two_detectors) = true /\
  (0 < index one_sample)%nat /\
  index one_sample = 1%nat /\
  exists out s,
    Detect.detect two_detectors one_sample = Ok out /\
    assoc_get "ensemble_score" (columns out) = Some (NumS s) /\
    length s = index one_sample /\
    Forall (fun x => feqb x fzero = true) s.
Proof.
  assert (Hn : (0 < index one_sample)%nat) by (simpl; lia).
  split; [reflexivity|]. split; [exact Hn|]. split; [reflexivity|].
  exact (constant_scores_give_zero_ensemble_score two_detectors one_sample
           eq_refl Hn (or_intror eq_refl)).
Defined.

(** ** Min-max normalisation keeps the order of the values *)









(** ** Weighted voting on an even split *)










(** ** The sequence detector *)

Lemma firstn_snoc {A} (d : A) : forall k (l : list A),
  (k < length l)%nat -> firstn (S k) l = firstn k l ++ [nth k l d].
Proof.
  induction k as [|k IH]; intros [|x l] H; simpl in *; try lia; [reflexivity|].
  f_equal. apply IH. lia.
Qed.

Lemma nth_skipn {A} (d : A) : forall i k (l : list A),
  nth k (skipn i l) d = nth (i + k) l d.
Proof.
  induction i as [|i IH]; intros k [|x l]; simpl; try reflexivity.
  - now destruct k.
  - apply IH.
Qed.

Lemma targets_are_the_tail (k : nat) (X : Matrix) :
  List.map (fun i => nth (i + k) X []) (seq 0 (length X - k)) = skipn k X.
Proof.
  apply nth_ext with (d := []) (d' := []).
  { rewrite length_map, length_seq, length_skipn. reflexivity. }
  intros i Hi. rewrite length_map, length_seq in Hi.
  rewrite (nth_indep _ [] (nth (0 + k) X [])) by (rewrite length_map, length_seq; lia).
  rewrite (map_nth (fun i => nth (i + k) X []) _ 0%nat), seq_nth by lia.
  rewrite nth_skipn. f_equal. lia.
Qed.

(** [_create_sequences] slides a window of [k] rows over the input: it
    yields [n - k] windows (none when [n <= k]), the targets are the rows
    from [k] on, and window [i] followed by its target is the slice of
    [k + 1] consecutive rows that starts at row [i]. *)
Theorem create_sequences_windows self (X : Matrix) :
  let k := LSTM.sequence_length self in
  let X_seq := fst (LSTM._create_sequences self X) in
  let y_seq := snd (LSTM._create_sequences self X) in
  length X_seq = (length X - k)%nat /\
  y_seq = skipn k X /\
  (forall i window, X_seq !! i = Some window ->
     length window = k /\
     exists target, y_seq !! i = Some target /\
                    window ++ [target] = firstn (S k) (skipn i X)).
Proof.
  intros k X_seq y_seq. unfold X_seq, y_seq, LSTM._create_sequences. fold k.
  cbn [fst snd].
  split; [now rewrite length_map, length_seq|].
  split; [apply targets_are_the_tail|].
  intros i window Hw.
  change (List.map ?f ?l) with (f <$> l) in Hw.
  rewrite list_lookup_fmap in Hw.
  destruct (seq 0 (length X - k) !! i) as [j|] eqn:Ej; [|discriminate].
  apply lookup_seq in Ej. destruct Ej as [-> Hi]. simpl in Hw.
  injection Hw as <-.
  assert (Hlen : (k < length (skipn i X))%nat) by (rewrite length_skipn; lia).
  split; [rewrite length_firstn; lia|].
  exists (nth (i + k) X []). split.
  - change (List.map (fun i0 => nth (i0 + k) X []) (seq 0 (length X - k)))
      with ((fun i0 => nth (i0 + k) X []) <$> seq 0 (length X - k)).
    unfold Matrix. rewrite list_lookup_fmap, lookup_seq_lt by lia. reflexivity.
  - rewrite (firstn_snoc [] k _ Hlen), nth_skipn. reflexivity.
Qed.

Lemma label_is_label threshold (scores : list float) :
  Forall (fun z => z = (-1)%Z \/ z = 1%Z) (List.map (LSTM.label threshold) scores).
Proof.
  apply List.Forall_forall. intros z Hz. apply in_map_iff in Hz.
  destruct Hz as (s & <- & _). unfold LSTM.label.
  destruct (fgtb s threshold); auto.
Qed.

Lemma ones_are_labels (n : nat) :
  Forall (fun z => z = (-1)%Z \/ z = 1%Z) (repeat 1%Z n).
Proof.
  apply List.Forall_forall. intros z Hz. apply repeat_spec in Hz. auto.
Qed.

(** A fitted detector with a window of at least one row returns exactly
    on the inputs of at most one row and on the inputs longer than the
    window; whenever it returns, it returns one label per row, each -1 or
    +1, and on at most one row all labels are +1. *)
Theorem lstm_predict_returns_iff self (X : Matrix) net threshold :
  LSTM.model self = Some net ->
  LSTM.threshold_value self = Some threshold ->
  (1 <= LSTM.sequence_length self)%nat ->
  (succeeds (LSTM.predict self X) = true <->
   (length X <= 1)%nat \/ (LSTM.sequence_length self < length X)%nat) /\
  (forall p, LSTM.predict self X = Ok p ->
             length p = length X /\
             Forall (fun z => z = (-1)%Z \/ z = 1%Z) p) /\
  ((length X <= 1)%nat -> LSTM.predict self X = Ok (repeat 1%Z (length X))).
Proof.
  intros Hnet Hthr Hk.
  destruct (create_sequences_lengths self X) as [H1 H2].
  unfold LSTM.predict, LSTM.score_samples.
  destruct (LSTM._create_sequences self X) as [X_seq y_seq]. simpl in H1, H2.
  rewrite Hnet, Hthr.
  destruct (Nat.eqb_spec (length X_seq) 0) as [E|E].
  - (* no window: at most [k] rows *)
    unfold mbind, result_bind, LSTM.assign_from.
    rewrite length_map, !repeat_length.
    replace (length X - LSTM.sequence_length self)%nat with 0%nat by lia.
    destruct (Nat.eqb_spec (length X) 0) as [E0|E0].
    { rewrite E0. simpl. rewrite firstn_nil. simpl.
      split; [split; [intros _; left; lia | reflexivity]|].
      split; [intros p [= <-]; split; [reflexivity | constructor] | reflexivity]. }
    destruct (Nat.eqb_spec (length X) 1) as [E1|E1].
    { rewrite E1. simpl. destruct (LSTM.sequence_length self) as [|k]; [lia|].
      simpl. rewrite firstn_nil.
      split; [split; [intros _; left; lia | reflexivity]|].
      split; [intros p [= <-]; split; [reflexivity | apply (ones_are_labels 1)]
             | reflexivity]. }
    simpl. split; [split; [discriminate | lia]|].
    split; [discriminate | lia].
  - (* at least one window: more than [k] rows *)
    unfold mbind, result_bind, LSTM.assign_from.
    rewrite !length_map, length_combine, repeat_length.
    replace (Nat.min (length X_seq) (length y_seq))
      with (length X - LSTM.sequence_length self)%nat by lia.
    rewrite Nat.eqb_refl. simpl.
    split; [split; [intros _; right; lia | reflexivity]|].
    split; [|lia].
    intros p [= <-]. split.
    + rewrite length_app, !length_map, length_combine, firstn_repeat_le, repeat_length
        by lia.
      lia.
    + apply Forall_app. split; [|apply label_is_label].
      rewrite firstn_repeat_le by lia. apply ones_are_labels.
Qed.

(** Before [fit] the detector has neither network nor threshold:
    [score_samples] still answers an input that is not longer than the
    window, with one zero per row, and fails on a longer one; [predict]
    fails on every non-empty input. *)
Theorem unfitted_lstm_behaviour self (X : Matrix) :
  LSTM.model self = None ->
  LSTM.threshold_value self = None ->
  ((length X <= LSTM.sequence_length self)%nat ->
   LSTM.score_samples self X = Ok (repeat fzero (length X))) /\
  ((LSTM.sequence_length self < length X)%nat ->
   exists msg, LSTM.score_samples self X = Raise (AttributeError msg)) /\
  ((1 <= length X)%nat -> succeeds (LSTM.predict self X) = false).
Proof.
  intros Hnet Hthr.
  destruct (create_sequences_lengths self X) as [H1 _].
  unfold LSTM.predict, LSTM.score_samples.
  destruct (LSTM._create_sequences self X) as [X_seq y_seq]. simpl in H1.
  rewrite Hnet, Hthr.
  destruct (Nat.eqb_spec (length X_seq) 0) as [E|E].
  - split; [reflexivity|]. split; [lia | reflexivity].
  - split; [lia|]. split; [eauto | reflexivity].
Qed.

Lemma lstm_predict_returns_iff_witness :
  LSTM.model short_window_lstm = Some persistence_network /\
  LSTM.threshold_value short_window_lstm = Some (Fin (1#10)) /\
  (1 <= LSTM.sequence_length short_window_lstm)%nat /\
  (succeeds (LSTM.predict short_window_lstm five_rows) = true <->
   (length five_rows <= 1)%nat \/
   (LSTM.sequence_length short_window_lstm < length five_rows)%nat) /\
  (forall p, LSTM.predict short_window_lstm five_rows = Ok p ->
             length p = length five_rows /\
             Forall (fun z => z = (-1)%Z \/ z = 1%Z) p) /\
  ((length five_rows <= 1)%nat ->
   LSTM.predict short_window_lstm five_rows = Ok (repeat 1%Z (length five_rows))).
Proof.
  assert (Hk : (1 <= LSTM.sequence_length short_window_lstm)%nat) by (simpl; lia).
  split; [reflexivity|]. split; [reflexivity|]. split; [exact Hk|].
  exact (lstm_predict_returns_iff short_window_lstm five_rows persistence_network
           (Fin (1#10)) eq_refl eq_refl Hk).
Defined.

Lemma unfitted_lstm_behaviour_witness :
  LSTM.model unfitted_lstm = None /\
  LSTM.threshold_value unfitted_lstm = None /\
  ((length five_rows <= LSTM.sequence_length unfitted_lstm)%nat ->
   LSTM.score_samples unfitted_lstm five_rows = Ok (repeat fzero (length five_rows))) /\
  ((LSTM.sequence_length unfitted_lstm < length five_rows)%nat ->
   exists msg, LSTM.score_samples unfitted_lstm five_rows = Raise (AttributeError msg)) /\
  ((1 <= length five_rows)%nat ->
   succeeds (LSTM.predict unfitted_lstm five_rows) = false).
Proof.
  split; [reflexivity|]. split; [reflexivity|].
  exact (unfitted_lstm_behaviour unfitted_lstm five_rows eq_refl eq_refl).
Defined.

(** ** Evaluation without labels *)

Lemma binarize_sum (predictions : list Z) :
  list_sum (Metrics.binarize predictions)
  = length (List.filter (fun p => (p =? -1)%Z) predictions).
Proof.
  unfold Metrics.binarize.
  induction predictions as [|p l IH]; simpl; [reflexivity|].
  destruct (p =? -1)%Z; simpl; now rewrite IH.
Qed.

Lemma filter_length_le {A} (f : A -> bool) (l : list A) :
  (length (List.filter f l) <= length l)%nat.
Proof.
  induction l as [|x l IH]; simpl; [lia|]. destruct (f x); simpl; lia.
Qed.

Lemma ratio_unit (a n : nat) :
  (a <= n)%nat -> (0 < n)%nat ->
  exists q, fdiv (float_of_Z (Z.of_nat a)) (float_of_Z (Z.of_nat n)) = Fin q /\
            (0 <= q)%Q /\ (q <= 1)%Q /\
            (q == inject_Z (Z.of_nat a) / inject_Z (Z.of_nat n))%Q.
Proof.
  intros Ha Hn.
  assert (Hpos : (0 < inject_Z (Z.of_nat n))%Q).
  { unfold Qlt. simpl. lia. }
  exists (inject_Z (Z.of_nat a) / inject_Z (Z.of_nat n))%Q.
  split.
  { unfold float_of_Z, fdiv. now rewrite (Qsign_pos _ Hpos). }
  split; [|split; [|reflexivity]].
  - apply Qle_shift_div_l; [exact Hpos|]. rewrite Qmult_0_l.
    unfold Qle. simpl. lia.
  - apply Qle_shift_div_r; [exact Hpos|]. rewrite Qmult_1_l.
    unfold Qle. simpl. lia.
Qed.

(** [evaluate_model] without labels fails exactly when [predict] fails.
    Otherwise [total_samples] is the number of predictions,
    [anomalies_detected] the number of predictions equal to -1, and
    [anomaly_rate] their quotient, a number in [0,1]; on an empty input
    the rate is NaN. *)
Theorem evaluate_model_counts model features :
  match Detect.predict model (values features) with
  | Raise e => Metrics.evaluate_model model features = Raise e
  | Ok predictions =>
      exists report,
        Metrics.evaluate_model model features = Ok report /\
        Metrics.total_samples report = length predictions /\
        Metrics.anomalies_detected report
        = length (List.filter (fun p => (p =? -1)%Z) predictions) /\
        (Metrics.anomalies_detected report <= Metrics.total_samples report)%nat /\
        match predictions with
        | [] => Metrics.anomaly_rate report = NaN
        | _ =>
            exists q,
              Metrics.anomaly_rate report = Fin q /\
              (0 <= q)%Q /\ (q <= 1)%Q /\
              (q == inject_Z (Z.of_nat (Metrics.anomalies_detected report))
                    / inject_Z (Z.of_nat (Metrics.total_samples report)))%Q
        end
  end.
Proof.
  unfold Metrics.evaluate_model.
  destruct (Detect.predict model (values features)) as [predictions|e];
    [|reflexivity].
  unfold mbind, result_bind. eexists. split; [reflexivity|].
  cbn [Metrics.total_samples Metrics.anomalies_detected Metrics.anomaly_rate].
  rewrite binarize_sum.
  split; [reflexivity|]. split; [reflexivity|].
  split; [apply filter_length_le|].
  destruct predictions as [|p l] eqn:E; [reflexivity|].
  rewrite <- E. unfold Metrics.binarize at 1. rewrite length_map.
  apply ratio_unit; [apply filter_length_le | subst; simpl; lia].
Qed.

(** ** The training loop of the full pipeline *)

Lemma train_and_evaluate_app trainer features : forall pre rest store,
  Main.train_and_evaluate trainer features (pre ++ rest) store
  = match Main.train_and_evaluate trainer features pre store with
    | (store1, Raise e) => (store1, Raise e)
    | (store1, Ok reports1) =>
        let '(store2, logged) :=
          Main.train_and_evaluate trainer features rest store1 in
        (store2, reports2 ← logged; Ok (reports1 ++ reports2))
    end.
Proof.
  induction pre as [|n pre IH]; intros rest store.
  - simpl. destruct (Main.train_and_evaluate trainer features rest store)
      as [s [l|e]]; reflexivity.
  - simpl.
    destruct (Train.train_model trainer n features) as [model|e]; [|reflexivity].
    destruct (Metrics.evaluate_model model features) as [metrics|e]; [|reflexivity].
    rewrite IH.
    destruct (Main.train_and_evaluate trainer features pre
                (Train.save_model store model n)) as [s1 [l1|e1]]; [|reflexivity].
    simpl.
    destruct (Main.train_and_evaluate trainer features rest s1) as [s2 [l2|e2]];
      reflexivity.
Qed.

(** What the loop leaves in the store when it completes. *)
Lemma train_and_evaluate_store trainer features : forall names store reports,
  snd (Main.train_and_evaluate trainer features names store) = Ok reports ->
  List.map fst reports = names /\
  forall n,
    fst (Main.train_and_evaluate trainer features names store) !! n
    = if bool_decide (n ∈ names)
      then match Train.train_model trainer n features with
           | Ok model => Some model
           | Raise _ => None
           end
      else store !! n.
Proof.
  induction names as [|m names IH]; intros store reports H.
  - simpl in H. injection H as <-. split; [reflexivity|]. intros n.
    cbn [Main.train_and_evaluate fst].
    rewrite bool_decide_eq_false_2; [reflexivity | apply not_elem_of_nil].
  - simpl in *.
    destruct (Train.train_model trainer m features) as [model|e] eqn:Et;
      [|discriminate].
    destruct (Metrics.evaluate_model model features) as [metrics|e]; [|discriminate].
    destruct (Main.train_and_evaluate trainer features names
                (Train.save_model store model m)) as [s1 [l1|e1]] eqn:E;
      [|discriminate].
    simpl in H. injection H as <-.
    specialize (IH (Train.save_model store model m) l1).
    rewrite E in IH. destruct (IH eq_refl) as [IH1 IH2].
    split; [simpl; now rewrite IH1|].
    intros n. simpl. rewrite IH2.
    destruct (decide (n ∈ names)) as [Hin|Hin].
    + rewrite !bool_decide_eq_true_2; [reflexivity | now right | assumption].
    + rewrite (bool_decide_eq_false_2 _ Hin).
      unfold Train.save_model, Train.ModelStore in *.
      destruct (decide (n = m)) as [->|Hne].
      * rewrite lookup_insert_eq, bool_decide_eq_true_2 by left. now rewrite Et.
      * rewrite lookup_insert_ne by congruence.
        rewrite bool_decide_eq_false_2; [reflexivity|].
        intros Hc. apply elem_of_cons in Hc. tauto.
Qed.

(** Every name that the loop got through was trained. *)
Lemma train_and_evaluate_trained trainer features : forall names store reports,
  snd (Main.train_and_evaluate trainer features names store) = Ok reports ->
  forall n, In n names ->
  exists model, Train.train_model trainer n features = Ok model.
Proof.
  induction names as [|m names IH]; intros store reports H n Hn; [destruct Hn|].
  simpl in H.
  destruct (Train.train_model trainer m features) as [model|e] eqn:Et;
    [|discriminate].
  destruct (Metrics.evaluate_model model features) as [metrics|e]; [|discriminate].
  destruct (Main.train_and_evaluate trainer features names
              (Train.save_model store model m)) as [s1 [l1|e1]] eqn:E;
    [|discriminate].
  destruct Hn as [<- | Hn]; [eauto|].
  apply (IH (Train.save_model store model m) l1); [now rewrite E | exact Hn].
Qed.

(** Step 3 of the full pipeline is fail-fast: when the loop has got
    through the names of [pre] and training the next name raises, the loop
    ends with that exception; the store holds the models of [pre], and no
    other name is trained or saved. *)
Theorem training_loop_stops_at_first_failure trainer features
    (pre post : list string) (model_name : string) store reports e :
  snd (Main.train_and_evaluate trainer features pre store) = Ok reports ->
  Train.train_model trainer model_name features = Raise e ->
  let out := Main.train_and_evaluate trainer features
               (pre ++ model_name :: post) store in
  snd out = Raise e /\
  (forall n, In n pre ->
     exists model, Train.train_model trainer n features = Ok model /\
                   Train.load_model (fst out) n = Ok model) /\
  (forall n, ~ In n pre -> fst out !! n = store !! n).
Proof.
  intros Hpre Hfail out.
  assert (Hout : out = (fst (Main.train_and_evaluate trainer features pre store),
                        Raise e)).
  { unfold out. rewrite train_and_evaluate_app.
    destruct (Main.train_and_evaluate trainer features pre store) as [s1 r1].
    simpl in Hpre. subst r1. simpl. now rewrite Hfail. }
  rewrite Hout. cbn [fst snd].
  destruct (train_and_evaluate_store trainer features pre store reports Hpre)
    as [_ Hstore].
  split; [reflexivity|]. split.
  - intros n Hn.
    destruct (train_and_evaluate_trained trainer features pre store reports Hpre n Hn)
      as (model & Et).
    exists model. split; [exact Et|].
    unfold Train.load_model. rewrite Hstore.
    rewrite bool_decide_eq_true_2 by now apply list_elem_of_In.
    now rewrite Et.
  - intros n Hn. rewrite Hstore.
    rewrite bool_decide_eq_false_2; [reflexivity|].
    intros Hc. apply Hn. now apply list_elem_of_In.
Qed.

(** When no model fails, Step 3 of the full pipeline leaves the model
    store that [train_all_models] leaves, and logs one metrics dict per
    enabled model, in order. *)
Theorem training_loop_agrees_with_train_all_models trainer features store reports :
  snd (Main.train_and_evaluate trainer features
         (Train.enabled_models trainer) store) = Ok reports ->
  fst (Main.train_and_evaluate trainer features
         (Train.enabled_models trainer) store)
  = snd (Train.train_all_models trainer features store) /\
  List.map fst reports = Train.enabled_models trainer.
Proof.
  intros H.
  destruct (train_and_evaluate_store trainer features _ store reports H)
    as [Hnames Hstore].
  split; [|exact Hnames].
  apply map_eq. intros n. rewrite Hstore.
  unfold Train.train_all_models.
  destruct (train_all_fold trainer features (Train.enabled_models trainer)
              ∅ store n) as [_ ->].
  destruct (decide (n ∈ Train.enabled_models trainer)) as [Hin|Hin].
  - rewrite !bool_decide_eq_true_2 by assumption.
    destruct (train_and_evaluate_trained trainer features _ store reports H n)
      as (model & ->); [now apply list_elem_of_In | reflexivity].
  - rewrite !bool_decide_eq_false_2 by assumption.
    now destruct (Train.train_model trainer n features).
Qed.

Lemma training_loop_stops_at_first_failure_witness :
  exists reports e,
    snd (Main.train_and_evaluate sample_trainer sample_features
           ["isolation_forest"] ∅) = Ok reports /\
    Train.train_model sample_trainer "autoencoder" sample_features = Raise e /\
    let out := Main.train_and_evaluate sample_trainer sample_features
                 (["isolation_forest"] ++ "autoencoder" :: ["random_forest"; "one_class_svm"])
                 ∅ in
    snd out = Raise e /\
    (forall n, In n ["isolation_forest"] ->
       exists model, Train.train_model sample_trainer n sample_features = Ok model /\
                     Train.load_model (fst out) n = Ok model) /\
    (forall n, ~ In n ["isolation_forest"] -> fst out !! n = (∅ : Train.ModelStore) !! n).
Proof.
  eexists. eexists.
  split; [reflexivity|]. split; [reflexivity|].
  exact (training_loop_stops_at_first_failure sample_trainer sample_features
           ["isolation_forest"] ["random_forest"; "one_class_svm"] "autoencoder"
           ∅ _ _ eq_refl eq_refl).
Defined.

Lemma training_loop_agrees_with_train_all_models_witness :
  exists reports,
    snd (Main.train_and_evaluate working_trainer sample_features
           (Train.enabled_models working_trainer) ∅) = Ok reports /\
    fst (Main.train_and_evaluate working_trainer sample_features
           (Train.enabled_models working_trainer) ∅)
    = snd (Train.train_all_models working_trainer sample_features ∅) /\
    List.map fst reports = Train.enabled_models working_trainer.
Proof.
  eexists. split; [reflexivity|].
  exact (training_loop_agrees_with_train_all_models working_trainer sample_features
           ∅ _ eq_refl).
Defined.

(** ** The columns of the feature matrix *)

Lemma assoc_set_same_names {A B} name (v : A) (w : B) : forall cols cols',
  List.map fst cols = List.map fst cols' ->
  List.map fst (assoc_set name v cols) = List.map fst (assoc_set name w cols').
Proof.
  induction cols as [|[k x] cols IH]; intros [|[k' x'] cols'] H;
    simpl in *; try discriminate; [reflexivity|].
  injection H as <- H.
  destruct (String.eqb k name); simpl; f_equal; auto.
Qed.

Lemma add_feature_same_names fs key name col col' (frame frame' : NumFrame) :
  column_names frame = column_names frame' ->
  column_names (add_feature fs key name col frame)
  = column_names (add_feature fs key name col' frame').
Proof.
  intros H. unfold add_feature.
  destruct (existsb (String.eqb key) fs); [|exact H].
  unfold put, column_names. simpl. now apply assoc_set_same_names.
Qed.

Ltac same_names :=
  repeat (apply add_feature_same_names); reflexivity.

Lemma behavioral_extract_names cfg df df' :
  column_names (Behavioral.extract cfg df) = column_names (Behavioral.extract cfg df').
Proof. unfold Behavioral.extract. same_names. Qed.

Lemma network_extract_names ext cfg df df' :
  column_names (Network.extract ext cfg df) = column_names (Network.extract ext cfg df').
Proof. unfold Network.extract. same_names. Qed.

Lemma temporal_extract_names ext cfg df df' :
  present df = present df' ->
  column_names (Temporal.extract ext cfg df) = column_names (Temporal.extract ext cfg df').
Proof.
  intros H. unfold Temporal.extract, time_col, has. rewrite H.
  destruct (existsb (column_eqb Timestamp) (present df')); [|reflexivity].
  same_names.
Qed.

Lemma concat_names n (frames : list NumFrame) :
  column_names (Engineer.concat n frames) = flat_map column_names frames.
Proof.
  unfold Engineer.concat, column_names. simpl.
  rewrite List.map_map. simpl.
  induction frames as [|f frames IH]; simpl; [reflexivity|].
  now rewrite !List.map_app, IH.
Qed.

Lemma normalize_handle_names (features : DataFrame) :
  column_names (Engineer._normalize_features
                  (Engineer._handle_missing_features features))
  = column_names features.
Proof.
  unfold Engineer._normalize_features, Engineer._handle_missing_features, column_names.
  simpl. rewrite !List.map_map. apply map_ext. reflexivity.
Qed.

(** Without aggregations [transform] always returns, with one row per
    event, and the names and the order of its columns depend on the
    configuration and on the columns of the input table only, not on its
    rows. *)
Theorem transform_columns_follow_schema ext
    (b n t : ExtractorConfig) (cols : list Column) (events1 events2 : list Event) :
  let cfg := Engineer.mkFeatureConfig b n t None in
  exists out1 out2,
    Engineer.transform ext cfg (mkEventTable cols events1) = Ok out1 /\
    Engineer.transform ext cfg (mkEventTable cols events2) = Ok out2 /\
    index out1 = length events1 /\
    index out2 = length events2 /\
    column_names out1 = column_names out2.
Proof.
  intros cfg. unfold Engineer.transform, Engineer.assemble.
  cbn [Engineer.aggregations cfg Engineer.behavioral Engineer.network Engineer.temporal].
  unfold mbind, result_bind.
  eexists. eexists. split; [reflexivity|]. split; [reflexivity|].
  set (df1 := mkEventTable cols events1). set (df2 := mkEventTable cols events2).
  split; [|split].
  - destruct (ext_enabled b), (ext_enabled n), (ext_enabled t); reflexivity.
  - destruct (ext_enabled b), (ext_enabled n), (ext_enabled t); reflexivity.
  - rewrite !normalize_handle_names.
    pose proof (behavioral_extract_names b df1 df2) as Hb.
    pose proof (network_extract_names ext n df1 df2) as Hn.
    pose proof (temporal_extract_names ext t df1 df2 eq_refl) as Ht.
    assert (Hraw : column_names (to_frame df1) = column_names (to_frame df2)).
    { unfold to_frame, column_names. simpl. now rewrite !List.map_map. }
    destruct (ext_enabled b), (ext_enabled n), (ext_enabled t);
      cbn [app]; rewrite ?concat_names; cbn [flat_map];
      rewrite ?Hb, ?Hn, ?Ht, ?Hraw; reflexivity.
Qed.

(** ** Normalisation of a feature column *)




(** ** Aggregations *)

(** An aggregation name outside mean, std, min, max and median in the
    first place of the configured list makes [transform] raise on every
    table that has a [session_id] column: the loop joins a frame that no
    branch has bound.  On a table without [session_id] the aggregations
    are skipped altogether. *)
Theorem unknown_aggregation_raises ext (b n t : ExtractorConfig)
    (agg : string) (rest : list string) (df : EventTable) :
  Engineer.known_aggregation agg = false ->
  Engineer.transform ext (Engineer.mkFeatureConfig b n t (Some (agg :: rest))) df
  = if has df SessionId
    then Raise (UnboundLocalError "agg_features")
    else Engineer.transform ext (Engineer.mkFeatureConfig b n t None) df.
Proof.
  intros Hagg. unfold Engineer.transform, Engineer.assemble.
  cbn [Engineer.aggregations Engineer.behavioral Engineer.network Engineer.temporal].
  unfold Engineer._add_aggregations, str_col.
  destruct (has df SessionId); [|reflexivity].
  cbn [Engineer.aggregation_loop]. rewrite Hagg. reflexivity.
Qed.

Lemma unknown_aggregation_raises_witness :
  Engineer.known_aggregation "sum" = false /\
  Engineer.transform sample_external
    (Engineer.mkFeatureConfig every_feature every_feature every_feature
                              (Some ["sum"; "mean"]))
    sample_table
  = if has sample_table SessionId
    then Raise (UnboundLocalError "agg_features")
    else Engineer.transform sample_external
           (Engineer.mkFeatureConfig every_feature every_feature every_feature None)
           sample_table.
Proof.
  split; [reflexivity|].
  exact (unknown_aggregation_raises sample_external every_feature every_feature
           every_feature "sum" ["mean"] sample_table eq_refl).
Defined.

(** ** Counts per session *)

Lemma combine_map_same {A B C} (f : A -> B) (g : A -> C) (l : list A) :
  combine (List.map f l) (List.map g l) = List.map (fun x => (f x, g x)) l.
Proof. induction l as [|x l IH]; simpl; [reflexivity | now rewrite IH]. Qed.

Lemma filter_map_comm {A B} (f : A -> B) (p : B -> bool) (l : list A) :
  List.filter p (List.map f l) = List.map f (List.filter (fun x => p (f x)) l).
Proof.
  induction l as [|x l IH]; simpl; [reflexivity|].
  destruct (p (f x)); simpl; now rewrite IH.
Qed.

Lemma filter_filter {A} (p q : A -> bool) (l : list A) :
  List.filter p (List.filter q l) = List.filter (fun x => q x && p x) l.
Proof.
  induction l as [|x l IH]; simpl; [reflexivity|].
  destruct (q x); simpl; [destruct (p x); simpl|]; now rewrite IH.
Qed.

(** Counting the cells of one group of a key column counts the rows of
    that group. *)
Lemma count_agg_group (k : string) (keys : list (option string)) :
  count_agg (group_values keys keys k)
  = float_of_Z (Z.of_nat (length (List.filter (key_is k) keys))).
Proof.
  unfold count_agg, group_values. do 2 f_equal.
  induction keys as [|[k'|] keys IH]; simpl; [reflexivity| |exact IH].
  destruct (String.eqb k k'); simpl; [f_equal|]; exact IH.
Qed.


(** [groupby(keys)[keys].transform('count')] row by row. *)
Lemma group_count_rows (key : Event -> option string) (events : list Event) :
  groupby_transform (List.map key events) (List.map key events) count_agg
  = List.map
      (fun e =>
         match key e with
         | Some k =>
             float_of_Z (Z.of_nat (length
               (List.filter (fun e' => key_is k (key e')) events)))
         | None => NaN
         end)
      events.
Proof.
  unfold groupby_transform. rewrite List.map_map. apply map_ext. intros e.
  destruct (key e) as [k|]; [|reflexivity].
  rewrite count_agg_group. do 2 f_equal.
  now rewrite filter_map_comm, length_map.
Qed.




(** ** Indicator scores *)

(** A finite cell between 0 and [B]. *)
Lemma add_indicator_bounded (B w : Q) (score : list float) (cond : list bool) :
  (0 <= w)%Q ->
  Forall (fun x => exists q, x = Fin q /\ (0 <= q)%Q /\ (q <= B)%Q) score ->
  Forall (fun x => exists q, x = Fin q /\ (0 <= q)%Q /\ (q <= B + w)%Q)
         (add_indicator score cond w).
Proof.
  intros Hw H. unfold add_indicator, zip_with.
  apply List.Forall_forall. intros x Hx.
  apply in_map_iff in Hx. destruct Hx as ([s c] & <- & Hin). cbn [fst snd].
  apply in_combine_l in Hin as Hs. apply in_combine_r in Hin as Hc.
  rewrite List.Forall_forall in H. destruct (H s Hs) as (q & -> & Hq0 & HqB).
  apply in_map_iff in Hc. destruct Hc as ([|] & <- & _); simpl.
  - exists (q + 1 * w)%Q. split; [reflexivity|]. split; lra.
  - exists (q + 0 * w)%Q. split; [reflexivity|]. split; lra.
Qed.

Lemma bounded_weaken (B B' : Q) (score : list float) :
  (B <= B')%Q ->
  Forall (fun x => exists q, x = Fin q /\ (0 <= q)%Q /\ (q <= B)%Q) score ->
  Forall (fun x => exists q, x = Fin q /\ (0 <= q)%Q /\ (q <= B')%Q) score.
Proof.
  intros HB H. eapply List.Forall_impl; [|exact H].
  intros x (q & -> & H0 & H1). exists q. split; [reflexivity|]. split; lra.
Qed.

Lemma zeros_bounded (df : EventTable) :
  Forall (fun x => exists q, x = Fin q /\ (0 <= q)%Q /\ (q <= 0)%Q)
         (constant_series df fzero).
Proof.
  apply List.Forall_forall. intros x Hx. apply repeat_spec in Hx. subst.
  exists 0%Q. split; [reflexivity|]. split; lra.
Qed.

Lemma bounded_unit (score : list float) :
  Forall (fun x => exists q, x = Fin q /\ (0 <= q)%Q /\ (q <= 1)%Q) score ->
  all_in_unit_interval score.
Proof.
  intros H. eapply List.Forall_impl; [|exact H].
  intros x (q & -> & H0 & H1). split; assumption.
Qed.

(** The port-scan and the lateral-movement score of every row lie in
    [0,1], whatever columns the table has: each of the three indicators
    adds its weight at most once, and the weights sum to 1. *)
Theorem indicator_scores_in_unit_interval (df : EventTable) :
  all_in_unit_interval (Network._port_scan_indicators df) /\
  all_in_unit_interval (Network._lateral_movement_score df).
Proof.
  split; apply bounded_unit.
  - unfold Network._port_scan_indicators.
    destruct (str_col df SessionId) as [session_id|];
      [|apply (bounded_weaken 0); [lra | apply zeros_bounded]].
    set (s1 := match str_col df DestinationIp with Some _ => _ | None => _ end).
    assert (H1 : Forall (fun x => exists q, x = Fin q /\ (0 <= q)%Q /\ (q <= 3#10)%Q) s1).
    { unfold s1. destruct (str_col df DestinationIp).
      - apply (bounded_weaken (0 + (3#10))); [lra|].
        apply add_indicator_bounded; [lra | apply zeros_bounded].
      - apply (bounded_weaken 0); [lra | apply zeros_bounded]. }
    set (s2 := match time_col df with Some _ => _ | None => _ end).
    assert (H2 : Forall (fun x => exists q, x = Fin q /\ (0 <= q)%Q /\ (q <= 6#10)%Q) s2).
    { unfold s2. destruct (time_col df).
      - apply (bounded_weaken ((3#10) + (3#10))); [lra|].
        apply add_indicator_bounded; [lra | exact H1].
      - apply (bounded_weaken (3#10)); [lra | exact H1]. }
    destruct (num_col df StatusCode).
    + apply (bounded_weaken ((6#10) + (4#10))); [lra|].
      apply add_indicator_bounded; [lra | exact H2].
    + apply (bounded_weaken (6#10)); [lra | exact H2].
  - unfold Network._lateral_movement_score.
    destruct (str_col df SessionId) as [session_id|];
      [|apply (bounded_weaken 0); [lra | apply zeros_bounded]].
    set (s1 := match str_col df Resource with Some _ => _ | None => _ end).
    assert (H1 : Forall (fun x => exists q, x = Fin q /\ (0 <= q)%Q /\ (q <= 3#10)%Q) s1).
    { unfold s1. destruct (str_col df Resource).
      - apply (bounded_weaken (0 + (3#10))); [lra|].
        apply add_indicator_bounded; [lra | apply zeros_bounded].
      - apply (bounded_weaken 0); [lra | apply zeros_bounded]. }
    set (s2 := match str_col df Action with Some _ => _ | None => _ end).
    assert (H2 : Forall (fun x => exists q, x = Fin q /\ (0 <= q)%Q /\ (q <= 7#10)%Q) s2).
    { unfold s2. destruct (str_col df Action).
      - apply (bounded_weaken ((3#10) + (4#10))); [lra|].
        apply add_indicator_bounded; [lra | exact H1].
      - apply (bounded_weaken (3#10)); [lra | exact H1]. }
    destruct (str_col df SourceIp), (str_col df UserId);
      try (apply (bounded_weaken (7#10)); [lra | exact H2]).
    apply (bounded_weaken ((7#10) + (3#10))); [lra|].
    apply add_indicator_bounded; [lra | exact H2].
Qed.

(** ** Actions per minute *)

(** The behavioural [action_frequency] and the temporal
    [action_velocity] are one and the same column on every table that has
    a timestamp. *)
Theorem action_frequency_is_action_velocity (df : EventTable) (timestamp : list Z) :
  time_col df = Some timestamp ->
  Behavioral._action_frequency df = Temporal._action_velocity df timestamp.
Proof.
  intros Ht. unfold Behavioral._action_frequency, Temporal._action_velocity,
    Behavioral._session_duration.
  rewrite Ht. now destruct (str_col df SessionId).
Qed.

Lemma action_frequency_is_action_velocity_witness :
  time_col sample_table = Some (List.map ev_timestamp sample_events) /\
  Behavioral._action_frequency sample_table
  = Temporal._action_velocity sample_table (List.map ev_timestamp sample_events).
Proof.
  split; [reflexivity|].
  exact (action_frequency_is_action_velocity sample_table
           (List.map ev_timestamp sample_events) eq_refl).
Defined.

Lemma fold_min_le (r : list Z) : forall x, (fold_left Z.min r x <= x)%Z.
Proof.
  induction r as [|y r IH]; intros x; simpl; [lia|].
  specialize (IH (Z.min x y)). lia.
Qed.

Lemma fold_max_ge (r : list Z) : forall x, (x <= fold_left Z.max r x)%Z.
Proof.
  induction r as [|y r IH]; intros x; simpl; [lia|].
  specialize (IH (Z.max x y)). lia.
Qed.

Lemma Zmin_le_Zmax (l : list Z) : (Zmin_list l <= Zmax_list l)%Z.
Proof.
  destruct l as [|x r]; simpl; [lia|].
  pose proof (fold_min_le r x). pose proof (fold_max_ge r x). lia.
Qed.

(** The duration in minutes that divides the action count is never 0. *)
Lemma minutes_positive (d : float) :
  (exists q, d = Fin q /\ (0 <= q)%Q) ->
  exists m, (if feqb (fdiv d (Fin 60)) fzero then fone else fdiv d (Fin 60)) = Fin m /\
            (0 < m)%Q.
Proof.
  intros (q & -> & Hq). unfold fdiv. rewrite Qsign_pos by reflexivity.
  unfold feqb, fzero. destruct (Qeq_bool (q / 60) 0) eqn:E.
  - exists 1%Q. split; [reflexivity | reflexivity].
  - exists (q / 60)%Q. split; [reflexivity|].
    apply Qeq_bool_neq in E.
    assert (0 <= q / 60)%Q by (apply Qle_shift_div_l; [reflexivity | lra]).
    apply Qle_lteq in H. destruct H as [H | H]; [exact H|].
    exfalso. apply E. now symmetry.
Qed.

Lemma session_span_rows (events : list Event) :
  session_span (List.map ev_session_id events) (List.map ev_timestamp events)
  = List.map
      (fun e =>
         match ev_session_id e with
         | Some k =>
             let g := group_values (List.map ev_session_id events)
                                   (List.map ev_timestamp events) k in
             float_of_Z (Zmax_list g - Zmin_list g)
         | None => NaN
         end)
      events.
Proof.
  unfold session_span, groupby_transform. now rewrite List.map_map.
Qed.

(** On a table with a [session_id] column the action frequency of every
    row that has a session is a positive number: the count of the session
    is at least one and a zero duration is replaced by one minute. *)
Theorem action_frequency_positive (df : EventTable) (i : nat) (e : Event) (k : string) :
  has df SessionId = true ->
  events df !! i = Some e ->
  ev_session_id e = Some k ->
  exists q, Behavioral._action_frequency df !! i = Some (Fin q) /\ (0 < q)%Q.
Proof.
  intros Hs Hi Hk.
  unfold Behavioral._action_frequency, str_col. rewrite Hs.
  change (List.map (str_field SessionId) (events df))
    with (List.map ev_session_id (events df)).
  rewrite group_count_rows.
  assert (Hdur : exists d, Behavioral._session_duration df
                           = List.map d (events df) /\
                           forall e', ev_session_id e' <> None ->
                                      exists q, d e' = Fin q /\ (0 <= q)%Q).
  { unfold Behavioral._session_duration, time_col, str_col. rewrite Hs.
    destruct (has df Timestamp).
    - change (List.map (str_field SessionId) (events df))
        with (List.map ev_session_id (events df)).
      rewrite session_span_rows. eexists. split; [reflexivity|].
      intros e' He'. cbv beta. destruct (ev_session_id e') as [k'|]; [|congruence].
      eexists. split; [reflexivity|].
      pose proof (Zmin_le_Zmax (group_values (List.map ev_session_id (events df))
                                  (List.map ev_timestamp (events df)) k')).
      unfold Qle. simpl. lia.
    - exists (fun _ => fzero). split.
      + unfold constant_series, n_rows. now rewrite map_const_repeat.
      + intros _ _. exists 0%Q. split; [reflexivity | lra]. }
  destruct Hdur as (d & -> & Hd).
  unfold replace_zero_by_one, zip_with. rewrite !List.map_map, combine_map_same,
    List.map_map. cbn [fst snd].
  change (List.map ?f ?l) with (f <$> l).
  rewrite list_lookup_fmap, Hi. cbn [fmap option_fmap option_map]. rewrite Hk.
  destruct (minutes_positive (d e)) as (m & -> & Hm).
  { apply Hd. congruence. }
  assert (Hc : (1 <= length (List.filter (fun e' => key_is k (ev_session_id e'))
                               (events df)))%nat).
  { assert (Hin : In e (List.filter (fun e' => key_is k (ev_session_id e')) (events df))).
    { apply filter_In. split;
        [apply list_elem_of_In; eapply list_elem_of_lookup_2; exact Hi|].
      rewrite Hk. simpl. apply String.eqb_refl. }
    destruct (List.filter _ (events df)); [destruct Hin | simpl; lia]. }
  unfold float_of_Z, fdiv. rewrite (Qsign_pos _ Hm).
  eexists. split; [reflexivity|].
  apply Qlt_shift_div_l; [exact Hm|]. rewrite Qmult_0_l.
  unfold Qlt. simpl. lia.
Qed.

Lemma action_frequency_positive_witness :
  has sample_table SessionId = true /\
  events sample_table !! 2%nat
  = Some (mkEvent 1700000060 (Some "s2") (Some "bob") (Some "10.0.0.7")
            (Some "10.0.0.12") (Some "sudo su") (Some "/etc/shadow") (Fin 200) NaN) /\
  exists q, Behavioral._action_frequency sample_table !! 2%nat = Some (Fin q) /\
            (0 < q)%Q.
Proof.
  split; [reflexivity|]. split; [reflexivity|].
  exact (action_frequency_positive sample_table 2 _ "s2" eq_refl eq_refl eq_refl).
Defined.

(** ** Time since the last action *)

Lemma fillna0_finite (l : list float) :
  Forall (fun x => x = NaN \/ exists q, x = Fin q) l -> all_finite (fillna0 l).
Proof.
  intros H. unfold all_finite, fillna0. apply List.Forall_forall. intros y Hy.
  apply in_map_iff in Hy. destruct Hy as (x & <- & Hx).
  rewrite List.Forall_forall in H. destruct (H x Hx) as [-> | (q & ->)]; reflexivity.
Qed.

Lemma fillna0_nonneg (l : list float) :
  Forall (fun x => x = NaN \/ exists q, x = Fin q /\ (0 <= q)%Q) l ->
  Forall (fun x => exists q, x = Fin q /\ (0 <= q)%Q) (fillna0 l).
Proof.
  intros H. unfold fillna0. apply List.Forall_forall. intros y Hy.
  apply in_map_iff in Hy. destruct Hy as (x & <- & Hx).
  rewrite List.Forall_forall in H. destruct (H x Hx) as [-> | (q & -> & Hq)]; simpl.
  - exists 0%Q. split; [reflexivity | lra].
  - exists q. split; [reflexivity | exact Hq].
Qed.

(** A difference within a group is NaN or the gap to an earlier row of
    the group; when no earlier row is later in time, the gap is not
    negative. *)
Lemma group_diff_from_gaps : forall rows seen (lo : Z),
  (forall k t0, assoc_get k seen = Some t0 -> (t0 <= lo)%Z) ->
  StronglySorted Z.le (lo :: List.map snd rows) ->
  Forall (fun x => x = NaN \/ exists q, x = Fin q /\ (0 <= q)%Q)
         (group_diff_from seen rows).
Proof.
  induction rows as [|[[k|] t] rows IH]; intros seen lo Hseen Hsorted; simpl.
  - constructor.
  - apply StronglySorted_inv in Hsorted. destruct Hsorted as [Hrest Hlo].
    simpl in Hrest, Hlo. inversion Hlo as [|? ? Hlt Hlo']; subst.
    constructor.
    + destruct (assoc_get k seen) as [t0|] eqn:E; [|now left].
      right. eexists. split; [reflexivity|].
      specialize (Hseen k t0 E). unfold Qle. simpl. lia.
    + apply (IH _ t); [|exact Hrest].
      intros k' t0 Hk'. destruct (String.eqb_spec k k') as [<-|Hne].
      * rewrite assoc_get_set_eq in Hk'. injection Hk' as <-. lia.
      * rewrite assoc_get_set_ne in Hk' by assumption.
        specialize (Hseen k' t0 Hk'). lia.
  - apply StronglySorted_inv in Hsorted. destruct Hsorted as [Hrest Hlo].
    simpl in Hrest, Hlo. inversion Hlo as [|? ? Hlt Hlo']; subst.
    constructor; [now left|].
    apply (IH _ t); [|exact Hrest].
    intros k' t0 Hk'. specialize (Hseen k' t0 Hk'). lia.
Qed.

Lemma group_diff_from_cells : forall rows seen,
  Forall (fun x => x = NaN \/ exists q, x = Fin q) (group_diff_from seen rows).
Proof.
  induction rows as [|[[k|] t] rows IH]; intros seen; simpl; constructor; auto.
  destruct (assoc_get k seen); [right; eauto | now left].
Qed.

Lemma sorted_combine_snd {A} : forall (keys : list A) (ts : list Z),
  StronglySorted Z.le ts ->
  StronglySorted Z.le (List.map snd (combine keys ts)).
Proof.
  induction keys as [|k keys IH]; intros [|t ts] H; simpl; try constructor.
  - apply IH. now apply StronglySorted_inv in H.
  - apply StronglySorted_inv in H. destruct H as [_ H].
    rewrite List.Forall_forall in *. intros x Hx.
    apply in_map_iff in Hx. destruct Hx as ([k' t'] & <- & Hin).
    apply in_combine_r in Hin. now apply H.
Qed.

Lemma group_diff_nonneg (keys : list (option string)) (ts : list Z) :
  StronglySorted Z.le ts ->
  Forall (fun x => x = NaN \/ exists q, x = Fin q /\ (0 <= q)%Q) (group_diff keys ts).
Proof.
  intros H. unfold group_diff.
  pose proof (sorted_combine_snd keys ts H) as Hs.
  destruct (combine keys ts) as [|[k t] rows] eqn:E; [constructor|].
  apply (group_diff_from_gaps _ [] t); [discriminate|].
  simpl in Hs |- *. constructor; [exact Hs|].
  apply StronglySorted_inv in Hs. destruct Hs as [_ Hs].
  constructor; [lia | exact Hs].
Qed.

Lemma global_diff_nonneg (ts : list Z) :
  StronglySorted Z.le ts ->
  Forall (fun x => x = NaN \/ exists q, x = Fin q /\ (0 <= q)%Q) (global_diff ts).
Proof.
  intros H. unfold global_diff. destruct ts as [|t rest]; constructor; [now left|].
  revert t H. induction rest as [|u rest IH]; intros t H; simpl; constructor.
  - right. eexists. split; [reflexivity|].
    apply StronglySorted_inv in H. destruct H as [_ H].
    inversion H; subst. unfold Qle. simpl. lia.
  - apply IH. now apply StronglySorted_inv in H.
Qed.

(** On a table whose rows are in time order, as [clean_data] leaves
    them, the time since the last action of every row is a number that is
    not negative; the first row of the table, which has no predecessor,
    receives 0. *)
Theorem time_since_last_action_nonnegative (df : EventTable) (timestamp : list Z) :
  StronglySorted Z.le timestamp ->
  Forall (fun x => exists q, x = Fin q /\ (0 <= q)%Q)
         (Temporal._time_since_last_action df timestamp) /\
  (forall e rest t later,
     events df = e :: rest -> timestamp = t :: later ->
     Temporal._time_since_last_action df timestamp !! 0%nat = Some fzero).
Proof.
  intros H. unfold Temporal._time_since_last_action. split.
  - destruct (str_col df SessionId); [|destruct (str_col df UserId)];
      apply fillna0_nonneg;
      first [now apply group_diff_nonneg | now apply global_diff_nonneg].
  - intros e rest t later He ->. unfold str_col, group_diff. rewrite He.
    destruct (has df SessionId); [|destruct (has df UserId)]; simpl.
    + now destruct (ev_session_id e).
    + now destruct (ev_user_id e).
    + reflexivity.
Qed.

Lemma time_since_last_action_nonnegative_witness :
  StronglySorted Z.le (List.map ev_timestamp sample_events) /\
  Forall (fun x => exists q, x = Fin q /\ (0 <= q)%Q)
         (Temporal._time_since_last_action sample_table
            (List.map ev_timestamp sample_events)) /\
  (forall e rest t later,
     events sample_table = e :: rest ->
     List.map ev_timestamp sample_events = t :: later ->
     Temporal._time_since_last_action sample_table
       (List.map ev_timestamp sample_events) !! 0%nat = Some fzero).
Proof.
  assert (H : StronglySorted Z.le (List.map ev_timestamp sample_events)).
  { simpl. repeat (constructor; [|repeat (constructor; try lia)]). constructor. }
  split; [exact H|].
  exact (time_since_last_action_nonnegative sample_table _ H).
Defined.

(** ** Business hours, weekends and nights *)

(** No row is in business hours and also at the weekend or at night.
    The two helpers read the timestamp column without a check: on a table
    without it they raise [KeyError]. *)
Theorem business_hours_exclude_weekend_and_night (df : EventTable) :
  match time_col df with
  | None =>
      Temporal._is_weekend df = Raise (KeyError "timestamp") /\
      Temporal._is_night_time df = Raise (KeyError "timestamp")
  | Some timestamp =>
      exists weekend night,
        Temporal._is_weekend df = Ok weekend /\
        Temporal._is_night_time df = Ok night /\
        length weekend = n_rows df /\
        length night = n_rows df /\
        forall i, Temporal._is_business_hours timestamp !! i = Some fone ->
                  weekend !! i = Some fzero /\ night !! i = Some fzero
  end.
Proof.
  unfold Temporal._is_weekend, Temporal._is_night_time, Temporal.timestamp_of.
  destruct (time_col df) as [timestamp|] eqn:Et; [|split; reflexivity].
  unfold mbind, result_bind. eexists. eexists.
  split; [reflexivity|]. split; [reflexivity|].
  rewrite !length_map. split; [now apply time_col_length|].
  split; [now apply time_col_length|].
  intros i. unfold Temporal._is_business_hours.
  change (List.map ?f timestamp) with (f <$> timestamp).
  rewrite !list_lookup_fmap.
  destruct (timestamp !! i) as [t|]; [|discriminate]. simpl.
  intros [= H].
  destruct (Temporal.dayofweek_of t <? 5)%Z eqn:Ed; [|discriminate H].
  destruct (9 <=? Temporal.hour_of t)%Z eqn:E9; [|discriminate H].
  destruct (Temporal.hour_of t <? 17)%Z eqn:E17; [|discriminate H].
  apply Z.ltb_lt in Ed, E17. apply Z.leb_le in E9.
  replace (5 <=? Temporal.dayofweek_of t)%Z with false
    by (symmetry; apply Z.leb_gt; lia).
  replace (22 <=? Temporal.hour_of t)%Z with false
    by (symmetry; apply Z.leb_gt; lia).
  replace (Temporal.hour_of t <? 6)%Z with false
    by (symmetry; apply Z.ltb_ge; lia).
  split; reflexivity.
Qed.

(** ** Ratios per session *)

Lemma filter_length_mono {A} (p q : A -> bool) (l : list A) :
  (forall x, p x = true -> q x = true) ->
  (length (List.filter p l) <= length (List.filter q l))%nat.
Proof.
  intros H. induction l as [|x l IH]; simpl; [lia|].
  destruct (p x) eqn:Ep.
  - rewrite (H x Ep). simpl. lia.
  - destruct (q x); simpl; lia.
Qed.




(** ** Removal of invalid log entries *)

Lemma has_select keep df c : has (Ingest.select keep df) c = has df c.
Proof. reflexivity. Qed.

Lemma filter_true {A} (l : list A) : List.filter (fun _ => true) l = l.
Proof. induction l as [|x l IH]; simpl; [reflexivity | now rewrite IH]. Qed.

Lemma select_all df : Ingest.select (fun _ => true) df = df.
Proof. destruct df as [p ev]. unfold Ingest.select. simpl. now rewrite filter_true. Qed.

Lemma select_if (b : bool) keep df :
  (if b then Ingest.select keep df else df)
  = Ingest.select (fun e => if b then keep e else true) df.
Proof. destruct b; [reflexivity | symmetry; apply select_all]. Qed.

Lemma select_select p q df :
  Ingest.select q (Ingest.select p df) = Ingest.select (fun e => p e && q e) df.
Proof. unfold Ingest.select. simpl. now rewrite filter_filter. Qed.

Lemma remove_invalid_entries_select self df :
  Ingest._remove_invalid_entries self df
  = Ingest.select (valid_entry self df) df.
Proof.
  unfold Ingest._remove_invalid_entries.
  set (df1 := match Ingest.column_named (Ingest.timestamp_field self) with
              | Some c => _
              | None => df
              end).
  assert (H1 : df1 = Ingest.select
                       (fun e => match Ingest.column_named (Ingest.timestamp_field self) with
                                 | Some c => if has df c then Ingest.notna c e else true
                                 | None => true
                                 end) df).
  { unfold df1. destruct (Ingest.column_named (Ingest.timestamp_field self)) as [c|].
    - apply select_if.
    - symmetry. apply select_all. }
  cbv zeta. rewrite H1, !has_select, !select_if, !has_select, !select_select.
  unfold Ingest.select. f_equal. apply filter_ext. intros e.
  unfold valid_entry. now rewrite andb_assoc.
Qed.

Lemma fgeb_zero (x : float) :
  fgeb x fzero = true -> fisnan x = false /\ fltb x fzero = false.
Proof.
  unfold fgeb, fleb, fzero.
  destruct x as [q| | |]; simpl; try discriminate; try (split; reflexivity).
  intros H. split; [reflexivity|]. apply Qltb_ge.
  apply orb_true_iff in H. destruct H as [H | H].
  - apply Qltb_lt in H. lra.
  - apply Qeq_bool_iff in H. lra.
Qed.

Lemma status_in_range (x : float) :
  fgeb x (Fin 100) && fltb x (Fin 600) = true ->
  exists q, x = Fin q /\ (100 <= q)%Q /\ (q < 600)%Q.
Proof.
  unfold fgeb, fleb.
  destruct x as [q| | |]; simpl; try discriminate.
  intros H. apply andb_true_iff in H. destruct H as [H1 H2].
  exists q. split; [reflexivity|]. apply Qltb_lt in H2. split; [|exact H2].
  apply orb_true_iff in H1. destruct H1 as [H | H].
  - apply Qltb_lt in H. lra.
  - apply Qeq_bool_iff in H. lra.
Qed.

(** [_remove_invalid_entries] keeps the columns and exactly the valid
    rows, in their order.  Every row that is left has a byte count that is
    neither missing nor negative and a status code from 100 to 599, where
    the table has these columns, and a second pass removes nothing. *)
Theorem remove_invalid_entries_keeps_valid_rows self (df : EventTable) :
  let out := Ingest._remove_invalid_entries self df in
  present out = present df /\
  events out = List.filter (valid_entry self df) (events df) /\
  (n_rows out <= n_rows df)%nat /\
  (has df BytesTransferred = true ->
   Forall (fun e => fisnan (ev_bytes_transferred e) = false /\
                    fltb (ev_bytes_transferred e) fzero = false) (events out)) /\
  (has df StatusCode = true ->
   Forall (fun e => exists q, ev_status_code e = Fin q /\
                              (100 <= q)%Q /\ (q < 600)%Q) (events out)) /\
  Ingest._remove_invalid_entries self out = out.
Proof.
  intros out. unfold out. rewrite remove_invalid_entries_select.
  split; [reflexivity|]. split; [reflexivity|].
  split; [apply filter_length_le|].
  split; [|split].
  - intros Hb. apply List.Forall_forall. intros e He.
    apply filter_In in He. destruct He as [_ He].
    unfold valid_entry in He. rewrite Hb in He.
    apply andb_true_iff in He. destruct He as [He _].
    apply andb_true_iff in He. destruct He as [_ He]. now apply fgeb_zero.
  - intros Hc. apply List.Forall_forall. intros e He.
    apply filter_In in He. destruct He as [_ He].
    unfold valid_entry in He. rewrite Hc in He.
    apply andb_true_iff in He. destruct He as [_ He]. now apply status_in_range.
  - rewrite remove_invalid_entries_select. unfold Ingest.select.
    cbn [present events]. f_equal.
    rewrite filter_filter.
    apply filter_ext. intros e.
    change (valid_entry self {| present := present df;
                                events := List.filter (valid_entry self df) (events df) |} e)
      with (valid_entry self df e).
    now destruct (valid_entry self df e).
Qed.

(** ** From the feature matrix to the detectors *)








(** ** The columns that the extractors produce *)

(** Each extractor writes exactly the columns of its fixed table whose
    key is among the configured features, in the order of the table: a
    configured name outside the table is ignored, [port_scan_indicators]
    is written as [port_scan_score], and the temporal extractor writes
    nothing on a table without a timestamp. *)
Theorem extractor_columns ext (cfg : ExtractorConfig) (df : EventTable) :
  column_names (Behavioral.extract cfg df)
  = selected_columns (ext_features cfg) behavioral_columns /\
  column_names (Network.extract ext cfg df)
  = selected_columns (ext_features cfg) network_columns /\
  column_names (Temporal.extract ext cfg df)
  = if has df Timestamp
    then selected_columns (ext_features cfg) temporal_columns
    else [].
Proof.
  unfold selected_columns, behavioral_columns, network_columns, temporal_columns.
  cbn [List.filter fst].
  split; [|split].
  - unfold Behavioral.extract, add_feature.
    destruct (existsb (String.eqb "failed_login_count") (ext_features cfg)),
             (existsb (String.eqb "privilege_escalation_attempts") (ext_features cfg)),
             (existsb (String.eqb "unique_resources_accessed") (ext_features cfg)),
             (existsb (String.eqb "session_duration") (ext_features cfg)),
             (existsb (String.eqb "action_frequency") (ext_features cfg));
      reflexivity.
  - unfold Network.extract, add_feature.
    destruct (existsb (String.eqb "bytes_transferred") (ext_features cfg)),
             (existsb (String.eqb "connection_count") (ext_features cfg)),
             (existsb (String.eqb "unique_destinations") (ext_features cfg)),
             (existsb (String.eqb "port_scan_indicators") (ext_features cfg)),
             (existsb (String.eqb "lateral_movement_score") (ext_features cfg));
      reflexivity.
  - unfold Temporal.extract, time_col, add_feature.
    destruct (has df Timestamp); [|reflexivity].
    destruct (existsb (String.eqb "hour_of_day") (ext_features cfg)),
             (existsb (String.eqb "day_of_week") (ext_features cfg)),
             (existsb (String.eqb "is_business_hours") (ext_features cfg)),
             (existsb (String.eqb "time_since_last_action") (ext_features cfg)),
             (existsb (String.eqb "action_velocity") (ext_features cfg));
      reflexivity.
Qed.

(** ** Scores that do not line up with the samples *)

(** A detector whose scoring method returns a number of scores other
    than the number of samples keeps its prediction column and gets no
    score column: writing the scores fails inside the [try].  The sequence
    detector is such a detector on every input longer than its window,
    where it returns [n - k] prediction errors for [n] rows. *)
Theorem wrong_length_scores_leave_no_score_column self features model_name model
    (p : list Z) (f : Matrix -> result (list Q)) (s : list Q) :
  NoDup (List.map fst (Detect.models self)) ->
  In (model_name, model) (Detect.models self) ->
  Detect.enabled (Detect.ensemble_config self) = true ->
  (0 < index features)%nat ->
  model_name <> "ensemble" ->
  Detect.predict model (values features) = Ok p ->
  length p = index features ->
  scorer model = Some f ->
  f (values features) = Ok s ->
  length s <> index features ->
  exists out,
    Detect.detect self features = Ok out /\
    In (model_name +:+ "_prediction") (column_names out) /\
    ~ In (model_name +:+ "_score") (column_names out).
Proof.
  intros Hnd Hin Hen Hn Hname Hp Hlp Hf Hs Hls.
  destruct (detect_returns self features Hen Hn)
    as (q & sc & _ & _ & _ & _ & _ & Hd).
  destruct (detector_column_not_reserved model_name "_score"
              (or_intror eq_refl) Hname) as (S1 & S2 & S3).
  assert (Hsc : scored (values features) (index features) model = None).
  { unfold scored. rewrite Hf, Hs.
    destruct (Nat.eqb_spec (length s) (index features)); [contradiction | reflexivity]. }
  eexists. split; [exact Hd|]. split.
  - rewrite verdict_names, prediction_column_present.
    right. right. right. exists model. split; [exact Hin|].
    rewrite <- Hlp, (predicted_ok _ _ _ Hp). discriminate.
  - rewrite verdict_names, score_column_present.
    intros [E | [E | [E | (d & Hd' & _ & Hs')]]]; try congruence.
    rewrite (NoDup_keys_functional _ _ _ _ Hnd Hd' Hin) in Hs'. contradiction.
Qed.

Lemma wrong_length_scores_leave_no_score_column_witness :
  NoDup (List.map fst (Detect.models one_windowed)) /\
  In ("lstm", windowed_scorer) (Detect.models one_windowed) /\
  Detect.enabled (Detect.ensemble_config one_windowed) = true /\
  (0 < index sample_features)%nat /\
  "lstm" <> "ensemble" /\
  Detect.predict windowed_scorer (values sample_features) = Ok [1; 1; 1]%Z /\
  length [1; 1; 1]%Z = index sample_features /\
  (exists f, scorer windowed_scorer = Some f /\
             f (values sample_features) = Ok [0%Q]) /\
  length [0%Q] <> index sample_features /\
  exists out,
    Detect.detect one_windowed sample_features = Ok out /\
    In ("lstm" +:+ "_prediction") (column_names out) /\
    ~ In ("lstm" +:+ "_score") (column_names out).
Proof.
  assert (Hnd : NoDup (List.map fst (Detect.models one_windowed))).
  { apply NoDup_ListNoDup. repeat constructor; simpl; intuition discriminate. }
  assert (Hin : In ("lstm", windowed_scorer) (Detect.models one_windowed)).
  { simpl. auto. }
  assert (Hn : (0 < index sample_features)%nat) by (simpl; lia).
  assert (Hname : "lstm" <> "ensemble") by discriminate.
  assert (Hls : length [0%Q] <> index sample_features) by (simpl; lia).
  split; [exact Hnd|]. split; [exact Hin|]. split; [reflexivity|].
  split; [exact Hn|]. split; [exact Hname|]. split; [reflexivity|].
  split; [reflexivity|]. split; [eexists; split; reflexivity|]. split; [exact Hls|].
  exact (wrong_length_scores_leave_no_score_column one_windowed sample_features
           "lstm" windowed_scorer [1; 1; 1]%Z _ [0%Q]
           Hnd Hin eq_refl Hn Hname eq_refl eq_refl eq_refl eq_refl Hls).
Defined.

(** ** Bursts *)

(** On a table with [session_id] and [timestamp] and for a window that
    is not negative, the burst count of a row that has a session counts
    at least the row itself and at most the rows of its session; a row
    without a session has burst count 0.  Without [session_id] the counts
    are all 0, and with [session_id] but without [timestamp] the helper
    raises [KeyError]. *)
Theorem burst_detection_bounds (df : EventTable) (window_seconds : Z) :
  (0 <= window_seconds)%Z ->
  match str_col df SessionId, time_col df with
  | None, _ =>
      Temporal._burst_detection df window_seconds = Ok (constant_series df fzero)
  | Some _, None =>
      Temporal._burst_detection df window_seconds = Raise (KeyError "timestamp")
  | Some _, Some _ =>
      exists counts,
        Temporal._burst_detection df window_seconds
        = Ok (List.map (fun c => float_of_Z (Z.of_nat c)) counts) /\
        length counts = n_rows df /\
        forall i e c, events df !! i = Some e -> counts !! i = Some c ->
          match ev_session_id e with
          | Some k =>
              (1 <= c)%nat /\
              (c <= rows_in_session (fun _ => true) k (events df))%nat
          | None => c = 0%nat
          end
  end.
Proof.
  intros Hw. unfold Temporal._burst_detection, Temporal.timestamp_of, str_col, time_col.
  destruct (has df SessionId); [|reflexivity].
  destruct (has df Timestamp); [|reflexivity].
  unfold mbind, result_bind.
  change (List.map (str_field SessionId) (events df))
    with (List.map ev_session_id (events df)).
  rewrite combine_map_same.
  set (rows := List.map (fun x => (ev_session_id x, ev_timestamp x)) (events df)).
  exists (List.map (fun row => length (List.filter
                      (Temporal.in_burst_window window_seconds row) rows)) rows).
  split; [now rewrite List.map_map|].
  split; [unfold rows; now rewrite !length_map|].
  intros i e c Hi Hc. unfold rows in Hc at 2.
  rewrite List.map_map in Hc.
  change (List.map ?f (events df)) with (f <$> events df) in Hc.
  rewrite list_lookup_fmap, Hi in Hc. simpl in Hc. injection Hc as <-.
  assert (Hin : In e (events df)).
  { apply list_elem_of_In. eapply list_elem_of_lookup_2. exact Hi. }
  unfold rows. rewrite filter_map_comm, length_map.
  unfold Temporal.in_burst_window. cbn [fst snd].
  destruct (ev_session_id e) as [k|] eqn:Ek.
  - split.
    + assert (H : In e (List.filter
                          (fun x => key_is k (ev_session_id x)
                                    && (ev_timestamp e - window_seconds <=? ev_timestamp x)%Z
                                    && (ev_timestamp x <=? ev_timestamp e)%Z)
                          (events df))).
      { apply filter_In. split; [exact Hin|].
        rewrite Ek. simpl. rewrite String.eqb_refl. simpl.
        apply andb_true_iff. split; [apply Z.leb_le; lia | apply Z.leb_refl]. }
      destruct (List.filter _ (events df)); [destruct H | simpl; lia].
    + unfold rows_in_session. apply filter_length_mono.
      intros x Hx. apply andb_true_iff in Hx. destruct Hx as [Hx _].
      apply andb_true_iff in Hx. destruct Hx as [Hx _]. exact Hx.
  - simpl. clear. induction (events df) as [|x l IH]; simpl; [reflexivity | exact IH].
Qed.

Lemma burst_detection_bounds_witness :
  (0 <= 60)%Z /\
  match str_col sample_table SessionId, time_col sample_table with
  | None, _ =>
      Temporal._burst_detection sample_table 60
      = Ok (constant_series sample_table fzero)
  | Some _, None =>
      Temporal._burst_detection sample_table 60 = Raise (KeyError "timestamp")
  | Some _, Some _ =>
      exists counts,
        Temporal._burst_detection sample_table 60
        = Ok (List.map (fun c => float_of_Z (Z.of_nat c)) counts) /\
        length counts = n_rows sample_table /\
        forall i e c, events sample_table !! i = Some e -> counts !! i = Some c ->
          match ev_session_id e with
          | Some k =>
              (1 <= c)%nat /\
              (c <= rows_in_session (fun _ => true) k (events sample_table))%nat
          | None => c = 0%nat
          end
  end.
Proof.
  assert (Hw : (0 <= 60)%Z) by lia.
  split; [exact Hw|].
  exact (burst_detection_bounds sample_table 60 Hw).
Defined.
